(** * Billar Finanzas: persistence, snapshots and sync of the offline ledger

    A shallow embedding of [assets/app.js]: the key/value store on IndexedDB,
    the metadata record, [saveState], the snapshot engine, the legacy
    importer, the form handlers that mutate the ledger and the WebDAV
    push/pull handlers with their timestamp conflict check. The first part
    holds the definitions, in the order of the source; the second part the
    properties, each section closing with the statement about the ledger or
    the store it was written for.

    Conventions of the embedding.
    - JavaScript numbers are IEEE-754 doubles. A finite one is carried by
      its exact value, a rational [Q] (money) or an integer [Z] (counts, ids,
      milliseconds); [round64] is the rounding to the nearest double, and
      every arithmetic operation of the source is followed by it. A [Q] or
      [Z] that is not itself a double stands for the double nearest to it.
      A result that may be NaN or infinite is a [jsnum].
    - A value that may be absent ([undefined] / [null]) is an [option]; the
      empty string is falsy.
    - A string is the sequence of the bytes of its UTF-8 encoding. The
      lower-casing of the platform is a parameter, as the parsing and the
      printing of dates and the sorting of names are.
    - The ledger is a [State]: the collections hold records of their kinds.
      Where the source takes a parsed JSON value for the ledger without
      looking at its elements (a pull, the automatic sync, an import, the old
      storage), a value that is not a ledger is a [json]; the store can hold
      it, and a handler that puts it in the [state] variable ends there,
      with what it has written: what the rendering and the later handlers
      make of such a value is not modelled.
    - The clock, the random source, [confirm] dialogs and network replies are
      inputs of the function that consults them.
    - [async] functions run to completion one after the other. A rejected
      IndexedDB request is a [Throw]; which requests are rejected is part of
      the world, so that statements can range over every failure. *)

From Stdlib Require Import ZArith QArith Qround Ascii String Lia.
From stdpp Require Import base option list gmap strings pretty.

Local Open Scope string_scope.
Local Open Scope Z_scope.

(** ** JavaScript values used by the source *)

(** [x || y] on optional strings: the empty string is falsy. *)
Definition truthy (o : option string) : bool :=
  match o with
  | Some s => negb (String.eqb s "")
  | None => false
  end.

Definition js_or (a b : option string) : option string :=
  if truthy a then a else b.

(** [String(x || '')] *)
Definition str_or_empty (o : option string) : string :=
  match js_or o (Some "") with
  | Some s => s
  | None => ""
  end.

(** A number: the finite value [q], or NaN / +-Infinity. As the [Number(v)]
    of a text [v], [Finite q] is the numeral [q]; the number is then the
    double nearest to [q]. *)
Inductive jsnum : Type :=
| Finite (q : Q)
| NonFinite.

(** *** IEEE-754 binary64 *)

(** The integer nearest to [n / d], the even one of two ([0 <= n], [0 < d]). *)
Definition round_half_even (n d : Z) : Z :=
  let q := n / d in
  match 2 * (n mod d) ?= d with
  | Lt => q
  | Gt => q + 1
  | Eq => if Z.even q then q else q + 1
  end.

(** [n * 2 ^ k] for [0 <= k], [n] otherwise. *)
Definition scale2 (n k : Z) : Z := if 0 <=? k then n * 2 ^ k else n.

(** The integer part of the binary logarithm of [n / d] ([0 < n], [0 < d]). *)
Definition floor_log2 (n d : Z) : Z :=
  let k := Z.log2 n - Z.log2 d in
  if scale2 d k <=? scale2 n (- k) then k else k - 1.

(** The double nearest to [x], ties to the even significand: 53 bits above
    the exponent [e], which is at least -1074 (subnormal numbers). The
    exponent is not bounded above here; [fl] checks the range. *)
Definition round64 (x : Q) : Q :=
  let x := Qred x in
  let n := Z.abs (Qnum x) in
  let d := Zpos (Qden x) in
  if n =? 0 then 0%Q else
  let e := Z.max (floor_log2 n d - 52) (-1074) in
  let m := round_half_even (scale2 n (- e)) (scale2 d e) in
  let v := Qmake (scale2 m e) (Z.to_pos (scale2 1 (- e))) in
  Qred (if Qnum x <? 0 then Qopp v else v).

(** The number a real result becomes: beyond the largest double, infinite. *)
Definition fl (x : Q) : jsnum :=
  let r := round64 x in
  if Qle_bool (inject_Z (2 ^ 1024)) r || Qle_bool r (inject_Z (- 2 ^ 1024))
  then NonFinite else Finite r.

(** [q] is a double: finite, and its own rounding. *)
Definition is_double (q : Q) : Prop := fl q = Finite q.

(** [a * b], [a - b] and [a / b] (for a finite [b] other than 0) on numbers.
    NaN and the infinities are one value here, which these operations keep:
    no finite result comes out of a [NonFinite] operand. *)
Definition num_mul (a b : jsnum) : jsnum :=
  match a, b with
  | Finite x, Finite y => fl (round64 x * round64 y)
  | _, _ => NonFinite
  end.

Definition num_sub (a b : jsnum) : jsnum :=
  match a, b with
  | Finite x, Finite y => fl (round64 x - round64 y)
  | _, _ => NonFinite
  end.

Definition num_div (a : jsnum) (b : Q) : jsnum :=
  match a with
  | Finite x => fl (round64 x / round64 b)
  | NonFinite => NonFinite
  end.

(** [a - b] and [a + b] on integers that stay in the range of the doubles
    (a count, a stock, a time in milliseconds). *)
Definition int_sub (a b : Z) : Z :=
  Qfloor (round64 (round64 (inject_Z a) - round64 (inject_Z b))).

Definition int_add (a b : Z) : Z :=
  Qfloor (round64 (round64 (inject_Z a) + round64 (inject_Z b))).

(** Line 33: [parseMoney]. *)
Definition parseMoney (value : jsnum) : Q :=
  match value with
  | Finite n =>
      match fl n with
      | Finite d => d
      | NonFinite => 0%Q
      end
  | NonFinite => 0%Q
  end.

(** Line 49: [clampInt]. *)
Definition clampInt (n : jsnum) (min max : Z) : Z :=
  match n with
  | Finite q =>
      match fl q with
      | Finite d => Z.min max (Z.max min (Qfloor d))
      | NonFinite => min
      end
  | NonFinite => min
  end.

(** Line 55: [uuid]; [rnd] is [Math.floor(Math.random() * 1000)]. *)
Definition uuid (now rnd : Z) : Z := now + rnd.

(** ** Timestamps *)

Section Timestamps.

(** [new Date(s).getTime()], [None] for an invalid date. *)
Variable Date_parse : string -> option Z.

(** Line 246: [parseComparableIso]. *)
Definition parseComparableIso (iso : option string) : option Z :=
  Date_parse (str_or_empty iso).

(** Line 251: [isoNewerThan]. *)
Definition isoNewerThan (a b : option string) : bool :=
  match parseComparableIso a, parseComparableIso b with
  | None, None => false
  | Some _, None => true
  | None, Some _ => false
  | Some ta, Some tb => tb <? ta
  end.

(** Lines 1412-1415: the guard of the push confirmation, on the local
    [meta.stateUpdatedAt] and the remote [updatedAt] (after their
    [|| null]). *)
Definition pushNeedsConfirm (localUpdatedAt remoteUpdatedAt : option string) : bool :=
  truthy remoteUpdatedAt && isoNewerThan remoteUpdatedAt localUpdatedAt.

(** Lines 1469-1472: the guard of the pull confirmation. *)
Definition pullNeedsConfirm (localUpdatedAt remoteUpdatedAt : option string) : bool :=
  truthy localUpdatedAt && isoNewerThan localUpdatedAt remoteUpdatedAt.

End Timestamps.

(** ** A date parser for the format [toISOString] writes

    [YYYY-MM-DDTHH:mm:ss.sssZ], the only format the application itself
    produces. Used to run the definitions on concrete timestamps. *)

Definition digit (c : ascii) : option Z :=
  let n := Z.of_nat (nat_of_ascii c) in
  if (48 <=? n) && (n <=? 57) then Some (n - 48) else None.

Fixpoint digits (acc : Z) (l : list ascii) : option Z :=
  match l with
  | [] => Some acc
  | c :: l' =>
      match digit c with
      | Some d => digits (acc * 10 + d) l'
      | None => None
      end
  end.

(** Days from 1970-01-01 to the civil date [y]-[m]-[d] (Gregorian). *)
Definition days_from_civil (y m d : Z) : Z :=
  let y' := if m <=? 2 then y - 1 else y in
  let era := y' / 400 in
  let yoe := y' - era * 400 in
  let mp := if 2 <? m then m - 3 else m + 9 in
  let doy := (153 * mp + 2) / 5 + d - 1 in
  let doe := yoe * 365 + yoe / 4 - yoe / 100 + doy in
  era * 146097 + doe - 719468.

Definition iso_parse (s : string) : option Z :=
  match list_ascii_of_string s with
  | [y1; y2; y3; y4; "-"; m1; m2; "-"; d1; d2; "T";
     h1; h2; ":"; i1; i2; ":"; s1; s2; "."; f1; f2; f3; "Z"]%char =>
      match digits 0 [y1; y2; y3; y4], digits 0 [m1; m2], digits 0 [d1; d2],
            digits 0 [h1; h2], digits 0 [i1; i2], digits 0 [s1; s2],
            digits 0 [f1; f2; f3] with
      | Some y, Some m, Some d, Some h, Some i, Some sec, Some ms =>
          if (1 <=? m) && (m <=? 12) && (1 <=? d) && (d <=? 31)
             && (h <=? 23) && (i <=? 59) && (sec <=? 59)
          then Some ((((days_from_civil y m d * 24 + h) * 60 + i) * 60 + sec) * 1000 + ms)
          else None
      | _, _, _, _, _, _, _ => None
      end
  | _ => None
  end.

(** ** Data model (typedefs at lines 24-27, [emptyState] at line 575) *)

Record Business : Type := {
  biz_name : string;
  currency : string;
}.

Record Product : Type := {
  p_id : Z;
  p_name : string;
  category : string;
  cost : Q;
  price : Q;
  stock : Z;
  stockMin : Z;
}.

Record Sale : Type := {
  s_id : Z;
  s_at : string;
  productId : Z;
  qty : Z;
  unitPrice : Q;
  unitCost : Q;
  total : jsnum;
  profit : jsnum;
  notes : option string;
}.

Record Expense : Type := {
  e_id : Z;
  e_at : string;
  e_type : string;
  amount : Q;
  description : option string;
}.

Record TableSession : Type := {
  t_id : Z;
  table : Z;
  players : Z;
  rate : Q;
  startAt : string;
  endAt : option string;
  active : bool;
  t_total : option jsnum;
}.

Record State : Type := {
  version : Z;
  business : Business;
  products : list Product;
  sales : list Sale;
  expenses : list Expense;
  tables : list TableSession;
}.

Definition emptyState : State := {|
  version := 1;
  business := {| biz_name := "M&S - Control Finanzas"; currency := "GTQ" |};
  products := [];
  sales := [];
  expenses := [];
  tables := [];
|}.

(** Line 147: [isStateEmpty]. *)
Definition isStateEmpty (state : State) : bool :=
  (length (products state) =? 0)%nat && (length (sales state) =? 0)%nat
  && (length (expenses state) =? 0)%nat && (length (tables state) =? 0)%nat.

(** Line 159: [deepClone]; a JSON round trip of a value of the typed model. *)
Definition deepClone (state : State) : State := state.

(** The metadata record; every field may be absent. *)
Record Meta : Type := {
  deviceId : option string;
  stateUpdatedAt : option string;
  stateUpdatedBy : option string;
  stateUpdatedSource : option string;
  lastSnapshotDay : option string;
  legacyBillarMigratedAt : option string;
  lastSyncPushAt : option string;
  lastSyncPullAt : option string;
}.

(** [{}] *)
Definition noMeta : Meta := {|
  deviceId := None; stateUpdatedAt := None; stateUpdatedBy := None;
  stateUpdatedSource := None; lastSnapshotDay := None;
  legacyBillarMigratedAt := None; lastSyncPushAt := None; lastSyncPullAt := None;
|}.

Record Snapshot : Type := {
  snap_id : string;
  snap_at : string;
  snap_reason : string;
  snap_state : State;
}.

(** An entry of the snapshot index: [{ id, at, reason }]. *)
Record SnapshotEntry : Type := {
  ent_id : string;
  ent_at : string;
  ent_reason : string;
}.

Record SyncConfig : Type := {
  url : string;
  user : string;
  pass : string;
  auto : bool;
}.

(** ** The key/value store (lines 13-22 and 103-145) *)

Definition IDB_STATE_KEY : string := "state".
Definition IDB_META_KEY : string := "meta".
Definition IDB_SYNC_KEY : string := "syncConfig".
Definition IDB_SNAPSHOT_INDEX_KEY : string := "snapshotIndex".
Definition IDB_SNAPSHOT_PREFIX : string := "snapshot:".
Definition MAX_SNAPSHOTS : nat := 20.

(** ** Values that are not ledgers

    [JSON.parse] gives the application whatever the text holds, and three
    places take such a value for the ledger after looking at most at four of
    its fields (lines 242, 537 and 947). A value of the shape the application
    itself writes is a [State]; any other is kept as the JSON value it is. *)
#[local] Unset Elimination Schemes.
Inductive json : Type :=
| JNull
| JBool (b : bool)
| JNumber (n : Q)
| JString (s : string)
| JArray (items : list json)
| JObject (fields : list (string * json)).
#[local] Set Elimination Schemes.

(** [!!j] *)
Definition json_truthy (j : json) : bool :=
  match j with
  | JNull => false
  | JBool b => b
  | JNumber n => negb (Qeq_bool (round64 n) 0)
  | JString s => negb (String.eqb s "")
  | JArray _ => true
  | JObject _ => true
  end.

(** [typeof j === 'object'] for a truthy [j]. *)
Definition json_isObject (j : json) : bool :=
  match j with
  | JArray _ => true
  | JObject _ => true
  | _ => false
  end.

Fixpoint json_field (name : string) (fields : list (string * json)) : option json :=
  match fields with
  | [] => None
  | (k, v) :: rest => if String.eqb k name then Some v else json_field name rest
  end.

(** [j.name] for one of the four collections, on a truthy [j]: [undefined]
    on anything but an object that has the field. *)
Definition json_get (name : string) (j : json) : option json :=
  match j with
  | JObject fields => json_field name fields
  | _ => None
  end.

(** [Array.isArray(j.name)] *)
Definition json_isArray (name : string) (j : json) : bool :=
  match json_get name j with
  | Some (JArray _) => true
  | _ => false
  end.

(** The documents the application stores under a key; [DUntyped] is a value
    stored under the state key that is not a ledger. *)
Inductive doc : Type :=
| DState (s : State)
| DMeta (m : Meta)
| DSync (c : SyncConfig)
| DIndex (idx : list SnapshotEntry)
| DSnapshot (s : Snapshot)
| DUntyped (j : json).

(** What a run of the application acts on: the [state] variable of [init],
    the object store, and the IndexedDB requests that will be rejected
    ([true] = the next request fails; requests beyond the list succeed).
    [live] is the [state] variable as long as it holds a ledger; a handler
    that puts another value there ends with that value as its result (see
    [untyped] below), and [live] is no longer the variable. *)
Record World : Type := {
  live : State;
  idb : gmap string doc;
  faults : list bool;
}.

Definition set_live (s : State) (w : World) : World :=
  {| live := s; idb := idb w; faults := faults w |}.

Inductive result (A : Type) : Type :=
| Ok (a : A)
| Throw (msg : string).
Arguments Ok {A} a.
Arguments Throw {A} msg.

(** A computation that may throw and acts on the world; what was written
    before a throw stays written. *)
Definition M (A : Type) : Type := World -> result A * World.

Definition ret {A} (a : A) : M A := fun w => (Ok a, w).

Definition bind {A B} (m : M A) (k : A -> M B) : M B :=
  fun w =>
    match m w with
    | (Ok a, w') => k a w'
    | (Throw e, w') => (Throw e, w')
    end.

Definition throw {A} (msg : string) : M A := fun w => (Throw msg, w).

(** [try { m } catch (err) { h err }] *)
Definition try_catch {A} (m : M A) (h : string -> M A) : M A :=
  fun w =>
    match m w with
    | (Ok a, w') => (Ok a, w')
    | (Throw e, w') => h e w'
    end.

Notation "'let!' x ':=' m 'in' k" := (bind m (fun x => k))
  (at level 10, x pattern, m at level 100, k at level 200).

(** The end of a handler that has put a value that is not a ledger in the
    [state] variable: [m] is what it still does to the store, [a] names the
    value. What the handler renders and reports from there, and whether it
    throws while doing so, depends on code that reads the fields of that
    value and is outside this model; so [a] is the result whatever [m]
    returns or throws. *)
Definition untyped {A B} (a : B) (m : M A) : M B := fun w => (Ok a, (m w).2).

Definition getLive : M State := fun w => (Ok (live w), w).
Definition setLive (s : State) : M unit := fun w => (Ok tt, set_live s w).

(** One IndexedDB request: rejected if the fault plan says so, otherwise
    [act] is applied to the object store. *)
Definition request {A} (act : gmap string doc -> A * gmap string doc) : M A :=
  fun w =>
    match faults w with
    | true :: fs => (Throw "IDBRequest error", {| live := live w; idb := idb w; faults := fs |})
    | false :: fs =>
        let (a, m) := act (idb w) in (Ok a, {| live := live w; idb := m; faults := fs |})
    | [] =>
        let (a, m) := act (idb w) in (Ok a, {| live := live w; idb := m; faults := [] |})
    end.

Definition idbGet (key : string) : M (option doc) := request (fun m => (m !! key, m)).
Definition idbSet (key : string) (value : doc) : M unit := request (fun m => (tt, <[key := value]> m)).
Definition idbClearAll : M unit := request (fun _ => (tt, ∅)).
Definition idbDelete (key : string) : M unit := request (fun m => (tt, delete key m)).

(** Line 163: [getMeta]; a document of another kind under the key has none
    of the metadata fields. *)
Definition getMeta : M Meta :=
  let! meta := idbGet IDB_META_KEY in
  ret match meta with
      | Some (DMeta m) => m
      | _ => noMeta
      end.

(** Line 168: [setMeta]. *)
Definition setMeta (meta : Meta) : M unit := idbSet IDB_META_KEY (DMeta meta).

(** ** Snapshot engine (lines 299-340) *)

(** Line 299: [listSnapshots]. *)
Definition listSnapshots : M (list SnapshotEntry) :=
  let! idx := idbGet IDB_SNAPSHOT_INDEX_KEY in
  ret match idx with
      | Some (DIndex l) => l
      | _ => []
      end.

(** [idx.pop()] on a non-empty array: the removed last element and the rest. *)
Definition pop {A} (l : list A) : option A * list A := (last l, removelast l).

(** Lines 320-325: the trimming loop; [fuel] bounds the number of turns and
    [createSnapshot] passes the length of the index, which is enough. *)
Fixpoint trimLoop (fuel : nat) (idx : list SnapshotEntry) : M (list SnapshotEntry) :=
  match fuel with
  | O => ret idx
  | S fuel' =>
      if (MAX_SNAPSHOTS <? length idx)%nat then
        let (removed, idx') := pop idx in
        let! _ :=
          match removed with
          | Some r =>
              if negb (String.eqb (ent_id r) "")
              then try_catch (idbDelete (IDB_SNAPSHOT_PREFIX ++ ent_id r)) (fun _ => ret tt)
              else ret tt
          | None => ret tt
          end in
        trimLoop fuel' idx'
      else ret idx
  end.

(** Line 304: [createSnapshot]; [now] is the value of [nowISO()]. *)
Definition createSnapshot (state : State) (reason : string) (now : string) : M Snapshot :=
  let at_ := now in
  let id := at_ in
  let snapshot := {|
    snap_id := id;
    snap_at := at_;
    snap_reason := if String.eqb reason "" then "manual" else reason;
    snap_state := deepClone state;
  |} in
  let! _ := idbSet (IDB_SNAPSHOT_PREFIX ++ id) (DSnapshot snapshot) in
  let! idx := listSnapshots in
  let idx := {| ent_id := id; ent_at := at_; ent_reason := snap_reason snapshot |} :: idx in
  let! idx := trimLoop (length idx) idx in
  let! _ := idbSet IDB_SNAPSHOT_INDEX_KEY (DIndex idx) in
  ret snapshot.

Definition set_lastSnapshotDay (v : option string) (m : Meta) : Meta := {|
  deviceId := deviceId m; stateUpdatedAt := stateUpdatedAt m;
  stateUpdatedBy := stateUpdatedBy m; stateUpdatedSource := stateUpdatedSource m;
  lastSnapshotDay := v;
  legacyBillarMigratedAt := legacyBillarMigratedAt m;
  lastSyncPushAt := lastSyncPushAt m; lastSyncPullAt := lastSyncPullAt m;
|}.

(** Line 331: [ensureDailySnapshot]; [nowDay] is the value of
    [new Date().toISOString()] at line 334 and [nowSnap] the value of
    [nowISO()] inside [createSnapshot]. *)
Definition ensureDailySnapshot (state : State) (nowDay nowSnap : string) : M unit :=
  if isStateEmpty state then ret tt else
  let! meta := getMeta in
  let today := substring 0 10 nowDay in
  if bool_decide (lastSnapshotDay meta = Some today) then ret tt else
  let! _ := createSnapshot state "auto-diario" nowSnap in
  let meta := set_lastSnapshotDay (Some today) meta in
  setMeta meta.

(** ** State repository (lines 555-573) *)

(** The [options] argument of [saveState]. *)
Record SaveOptions : Type := {
  updatedAt : option string;
  updatedBy : option string;
  source : option string;
}.

Definition noOptions : SaveOptions :=
  {| updatedAt := None; updatedBy := None; source := None |}.

(** Lines 565-568: the four assignments to [meta]; [now] is [nowISO()] and
    [rid] is [randomId()]. *)
Definition stampMeta (options : SaveOptions) (now rid : string) (meta : Meta) : Meta :=
  let dev := js_or (deviceId meta) (Some rid) in
  {|
    deviceId := dev;
    stateUpdatedAt := js_or (updatedAt options) (Some now);
    stateUpdatedBy := js_or (updatedBy options) dev;
    stateUpdatedSource := js_or (source options) (Some "local");
    lastSnapshotDay := lastSnapshotDay meta;
    legacyBillarMigratedAt := legacyBillarMigratedAt meta;
    lastSyncPushAt := lastSyncPushAt meta;
    lastSyncPullAt := lastSyncPullAt meta;
  |}.

(** Line 559: [saveState]. *)
Definition saveState (state : State) (options : SaveOptions) (now rid : string) : M unit :=
  let! _ := idbSet IDB_STATE_KEY (DState state) in
  try_catch
    (let! meta := getMeta in
     let meta := stampMeta options now rid meta in
     setMeta meta)
    (fun _ => ret tt).

(** Line 559: [saveState] called with a value that is not a ledger. *)
Definition saveUntyped (j : json) (options : SaveOptions) (now rid : string) : M unit :=
  let! _ := idbSet IDB_STATE_KEY (DUntyped j) in
  try_catch
    (let! meta := getMeta in
     let meta := stampMeta options now rid meta in
     setMeta meta)
    (fun _ => ret tt).

(** ** Legacy importer (lines 342-461) *)

(** [s.trim()]. It strips the white space and the line terminators of the
    language from both ends: U+0009 to U+000D, U+0020, U+00A0, U+1680,
    U+2000 to U+200A, U+2028, U+2029, U+202F, U+205F, U+3000 and U+FEFF,
    here in their UTF-8 encodings of one, two and three bytes. *)
Definition is_space1 (a : ascii) : bool :=
  let n := nat_of_ascii a in
  ((9 <=? n)%nat && (n <=? 13)%nat) || (n =? 32)%nat.

Definition is_space2 (a b : ascii) : bool :=
  (nat_of_ascii a =? 194)%nat && (nat_of_ascii b =? 160)%nat.

Definition is_space3 (a b c : ascii) : bool :=
  let x := nat_of_ascii a in
  let y := nat_of_ascii b in
  let z := nat_of_ascii c in
  ((x =? 225)%nat && (y =? 154)%nat && (z =? 128)%nat)
  || ((x =? 226)%nat && (y =? 128)%nat
      && (((128 <=? z)%nat && (z <=? 138)%nat) || (z =? 168)%nat || (z =? 169)%nat
          || (z =? 175)%nat))
  || ((x =? 226)%nat && (y =? 129)%nat && (z =? 159)%nat)
  || ((x =? 227)%nat && (y =? 128)%nat && (z =? 128)%nat)
  || ((x =? 239)%nat && (y =? 187)%nat && (z =? 191)%nat).

(** The string without the white space at its front; with [backwards] the
    string is read from its end, each character with its bytes in the
    opposite order. *)
Fixpoint trim_front (backwards : bool) (s : string) : string :=
  match s with
  | String a s1 =>
      if is_space1 a then trim_front backwards s1 else
      match s1 with
      | String b s2 =>
          if (if backwards then is_space2 b a else is_space2 a b)
          then trim_front backwards s2 else
          match s2 with
          | String c s3 =>
              if (if backwards then is_space3 c b a else is_space3 a b c)
              then trim_front backwards s3 else s
          | EmptyString => s
          end
      | EmptyString => s
      end
  | EmptyString => EmptyString
  end.

Definition trim (s : string) : string :=
  String.rev (trim_front true (String.rev (trim_front false s))).

(** [s.toLowerCase()] on a string of ASCII characters; on others the
    lower-casing is that of the Unicode tables of the platform, which the
    importer below takes as a parameter. *)
Definition lower_ascii (c : ascii) : ascii :=
  let n := nat_of_ascii c in
  if (65 <=? n)%nat && (n <=? 90)%nat then ascii_of_nat (n + 32) else c.

Fixpoint toLowerCase_ascii (s : string) : string :=
  match s with
  | String c s' => String (lower_ascii c) (toLowerCase_ascii s')
  | EmptyString => EmptyString
  end.

(** [Number(x.toFixed(2))]: [toFixed] writes the multiple of 1/100 nearest
    to the exact value of the double [x] (of two, the one away from zero),
    and [Number] reads the numeral back as the double nearest to it. From
    1e21 on [toFixed] writes the number itself, as this formula does: such
    a double is an integer. *)
Definition toFixed2 (x : Q) : Q :=
  let d := round64 x in
  if Qle_bool 0 d
  then round64 (Qmake (Qfloor (d * 100 + (1 # 2))%Q) 100)
  else round64 (Qopp (Qmake (Qfloor ((- d) * 100 + (1 # 2))%Q) 100)).

(** The same on a number that may be NaN or infinite, which [toFixed] and
    [Number] give back. *)
Definition num_toFixed2 (a : jsnum) : jsnum :=
  match a with
  | Finite x => Finite (toFixed2 x)
  | NonFinite => NonFinite
  end.

(** [a < b] on finite numbers. *)
Definition Qlt_bool (a b : Q) : bool := negb (Qle_bool b a).

(** [Math.max(a, b)] on finite numbers. *)
Definition Qmax (a b : Q) : Q := if Qle_bool a b then b else a.

(** A date field of an old record, as [JSON.parse] gives it: missing
    ([undefined]), [null], a boolean, a number, a string, or an array or
    object, of which [new Date] reads the conversion to a string [text]. *)
Inductive LegacyDate : Type :=
| DateUndefined
| DateNull
| DateBool (b : bool)
| DateNumber (n : Q)
| DateText (s : string)
| DateObject (text : string).

Definition date_truthy (v : LegacyDate) : bool :=
  match v with
  | DateUndefined => false
  | DateNull => false
  | DateBool b => b
  | DateNumber n => negb (Qeq_bool (round64 n) 0)
  | DateText s => negb (String.eqb s "")
  | DateObject _ => true
  end.

(** [a || b] *)
Definition date_or (a b : LegacyDate) : LegacyDate := if date_truthy a then a else b.

(** The time value of [new Date(n)] for a number: none beyond 8.64e15
    milliseconds, otherwise [n] without its fraction. *)
Definition timeClip (n : Q) : option Z :=
  let d := round64 n in
  if Qle_bool d (inject_Z 8640000000000000) && Qle_bool (inject_Z (- 8640000000000000)) d
  then Some (if Qle_bool 0 d then Qfloor d else Qceiling d)
  else None.

(** A record of the old [productos] array; a numeric field holds
    [Number(field)], a text field is absent or a string. *)
Record LegacyProduct : Type := {
  nombre : option string;
  lp_name : option string;
  categoria : option string;
  costo : jsnum;
  precio : jsnum;
  lp_stock : jsnum;
  stockMinimo : jsnum;
}.

(** A record of the old [ventas] array; the fields read through [??] are
    [None] when nullish. *)
Record LegacySale : Type := {
  cantidad : option jsnum;
  ls_qty : option jsnum;
  ls_precio : option jsnum;
  ls_unitPrice : option jsnum;
  ls_total : option jsnum;
  ganancia : option jsnum;
  ls_profit : option jsnum;
  producto : option string;
  ls_product : option string;
  hora : LegacyDate;
  ls_at : LegacyDate;
}.

(** A record of the old [mesasActivas] array; [activa] is [Some false] only
    when the field is exactly [false]. *)
Record LegacyTable : Type := {
  activa : option bool;
  mesa : jsnum;
  jugadores : jsnum;
  tarifa : jsnum;
  inicio : LegacyDate;
}.

(** What [localStorage] holds under the three legacy keys: [readable] is
    false when [getItem] throws; a collection is [None] unless the key holds
    the JSON text of an array. *)
Record LegacyStorage : Type := {
  readable : bool;
  legacyProducts : option (list LegacyProduct);
  legacySales : option (list LegacySale);
  legacyTables : option (list LegacyTable);
}.

(** [Number(a ?? b)]; nothing on either side is [Number(undefined)]. *)
Definition nullish_num (a b : option jsnum) : jsnum :=
  match a, b with
  | Some x, _ => x
  | None, Some y => y
  | None, None => NonFinite
  end.

(** [Array.isArray(a) && a.length] as a condition. *)
Definition nonEmptyArray {A} (a : option (list A)) : bool :=
  match a with
  | Some (_ :: _) => true
  | _ => false
  end.

Section Importer.

Variable Date_parse : string -> option Z.
Variable Date_toISOString : Z -> string.

(** [s.toLowerCase()] *)
Variable toLowerCase : string -> string.

(** Line 342: [normalizeName]. *)
Definition normalizeName (s : string) : string := toLowerCase (trim s).

(** The clock during the import and the successive values of
    [Math.floor(Math.random() * 1000)]: the [k]-th call of [uuid()] returns
    [now + rnd k]. *)
Variable now : Z.
Variable rnd : nat -> Z.

(** Line 346: [parseLegacyDate]: the time value of [new Date(value)], or
    [null] when it is [NaN]. [new Date(undefined)] is invalid, [new
    Date(null)] is the epoch, a boolean or a number is a time in
    milliseconds, anything else is parsed as a string. *)
Definition parseLegacyDate (value : LegacyDate) : option Z :=
  match value with
  | DateUndefined => None
  | DateNull => Some 0
  | DateBool b => Some (if b then 1 else 0)
  | DateNumber n => timeClip n
  | DateText s => Date_parse s
  | DateObject text => Date_parse text
  end.

(** [(parseLegacyDate(value) || new Date()).toISOString()] *)
Definition legacyIso (value : LegacyDate) : string :=
  Date_toISOString (default now (parseLegacyDate value)).

(** The local variables of the import: [next.products], [next.sales],
    [next.tables], the [byName] map and the number of ids drawn. *)
Record Import : Type := {
  i_products : list Product;
  i_sales : list Sale;
  i_tables : list TableSession;
  byName : gmap string Product;
  drawn : nat;
}.

(** Lines 384-398: the body of the loop over the old products. *)
Definition importProduct (acc : Import) (lp : LegacyProduct) : Import :=
  let name := trim (str_or_empty (js_or (nombre lp) (lp_name lp))) in
  if String.eqb name "" then acc else
  let product := {|
    p_id := uuid now (rnd (drawn acc));
    p_name := name;
    category := match js_or (categoria lp) (Some "otro") with Some c => c | None => "otro" end;
    cost := parseMoney (costo lp);
    price := parseMoney (precio lp);
    stock := clampInt (lp_stock lp) 0 1000000;
    stockMin := clampInt (stockMinimo lp) 0 1000000;
  |} in
  {| i_products := (i_products acc ++ [product])%list;
     i_sales := i_sales acc;
     i_tables := i_tables acc;
     byName := <[normalizeName (p_name product) := product]> (byName acc);
     drawn := S (drawn acc) |}.

(** Lines 414-424: the placeholder product of a sale whose product is
    unknown. The difference [unitPrice - unitProfit] is taken within the
    range of the doubles; it leaves it only when both are beyond 1e307, and
    the infinite cost the source then writes is not a value of [cost]. *)
Definition placeholderProduct (id : Z) (name : string) (qty : Z) (unitPrice profit : Q) : Product :=
  let unitProfit :=
    if qty =? 0 then 0%Q else round64 (round64 profit / round64 (inject_Z qty)) in
  let unitCost := Qmax 0 (round64 (round64 unitPrice - unitProfit)) in
  {| p_id := id;
     p_name := if String.eqb name "" then "Producto (migrado)" else name;
     category := "otro";
     cost := toFixed2 unitCost;
     price := toFixed2 unitPrice;
     stock := 0;
     stockMin := 0 |}.

(** Lines 403-440: the body of the loop over the old sales. *)
Definition importSale (acc : Import) (ls : LegacySale) : Import :=
  let qty := clampInt (nullish_num (cantidad ls) (ls_qty ls)) 1 1000000 in
  let unitPrice := parseMoney (nullish_num (ls_precio ls) (ls_unitPrice ls)) in
  let total :=
    parseMoney (match ls_total ls with
                | Some t => t
                | None => num_mul (Finite unitPrice) (Finite (inject_Z qty))
                end) in
  let profit := parseMoney (nullish_num (ganancia ls) (ls_profit ls)) in
  let name := trim (str_or_empty (js_or (producto ls) (ls_product ls))) in
  let at_ := legacyIso (date_or (hora ls) (ls_at ls)) in
  let '(product, products', byName', drawn') :=
    match byName acc !! normalizeName name with
    | Some p => (p, i_products acc, byName acc, drawn acc)
    | None =>
        let p := placeholderProduct (uuid now (rnd (drawn acc))) name qty unitPrice profit in
        (p, (i_products acc ++ [p])%list,
         <[normalizeName (p_name p) := p]> (byName acc), S (drawn acc))
    end in
  let sale := {|
    s_id := uuid now (rnd drawn');
    s_at := at_;
    productId := p_id product;
    qty := qty;
    unitPrice := toFixed2 unitPrice;
    unitCost := toFixed2 (cost product);
    total := Finite (toFixed2 total);
    profit := Finite (toFixed2 profit);
    notes := Some "Migrado";
  |} in
  {| i_products := products';
     i_sales := (i_sales acc ++ [sale])%list;
     i_tables := i_tables acc;
     byName := byName';
     drawn := S drawn' |}.

(** Lines 445-457: the body of the loop over the old active tables. *)
Definition importTable (acc : Import) (lt : LegacyTable) : Import :=
  let active_ := negb (bool_decide (activa lt = Some false)) in
  if negb active_ then acc else
  let session := {|
    t_id := uuid now (rnd (drawn acc));
    table := clampInt (mesa lt) 1 1000000;
    players := clampInt (jugadores lt) 1 100;
    rate := parseMoney (tarifa lt);
    startAt := legacyIso (inicio lt);
    endAt := None;
    active := true;
    t_total := None;
  |} in
  {| i_products := i_products acc;
     i_sales := i_sales acc;
     i_tables := (i_tables acc ++ [session])%list;
     byName := byName acc;
     drawn := S (drawn acc) |}.

(** Line 351: [migrateFromLegacyBillarLocalStorageIntoState]; the result is
    [{ state, migrated }]. *)
Definition migrateFromLegacyBillarLocalStorageIntoState
    (state : State) (storage : LegacyStorage) : State * bool :=
  if negb (isStateEmpty state) then (state, false) else
  if negb (readable storage) then (state, false) else
  let hasAnything :=
    nonEmptyArray (legacyProducts storage) || nonEmptyArray (legacySales storage)
    || nonEmptyArray (legacyTables storage) in
  if negb hasAnything then (state, false) else
  let acc0 := {| i_products := []; i_sales := []; i_tables := []; byName := ∅; drawn := O |} in
  let acc1 := foldl importProduct acc0 (default [] (legacyProducts storage)) in
  let acc2 := foldl importSale acc1 (default [] (legacySales storage)) in
  let acc3 := foldl importTable acc2 (default [] (legacyTables storage)) in
  ({| version := version emptyState;
      business := business state;
      products := i_products acc3;
      sales := i_sales acc3;
      expenses := [];
      tables := i_tables acc3 |}, true).

End Importer.

(** ** The ledger handlers of [init] (lines 1052-1278) *)

(** What a handler tells the user: the title of its toast, or nothing. *)
Inductive Notice : Type :=
| Toast (title : string)
| Silent.

Definition set_products (ps : list Product) (s : State) : State :=
  {| version := version s; business := business s; products := ps;
     sales := sales s; expenses := expenses s; tables := tables s |}.

Definition set_sales (ss : list Sale) (s : State) : State :=
  {| version := version s; business := business s; products := products s;
     sales := ss; expenses := expenses s; tables := tables s |}.

Definition set_tables (ts : list TableSession) (s : State) : State :=
  {| version := version s; business := business s; products := products s;
     sales := sales s; expenses := expenses s; tables := ts |}.

(** [arr.find(pred)]: the first element that satisfies [pred]. *)
Fixpoint find_first {A} (pred : A -> bool) (l : list A) : option A :=
  match l with
  | [] => None
  | x :: l' => if pred x then Some x else find_first pred l'
  end.

(** Assignments to the fields of the object [arr.find(pred)] returned: the
    first element that satisfies [pred] is changed in place. *)
Fixpoint update_first {A} (pred : A -> bool) (f : A -> A) (l : list A) : list A :=
  match l with
  | [] => []
  | x :: l' => if pred x then f x :: l' else x :: update_first pred f l'
  end.

Definition set_stock (n : Z) (p : Product) : Product :=
  {| p_id := p_id p; p_name := p_name p; category := category p;
     cost := cost p; price := price p; stock := n; stockMin := stockMin p |}.

Section Handlers.

(** [products.sort((a, b) => a.name.localeCompare(b.name, 'es'))], which
    [renderProducts] (line 774) applies to [state.products] itself. *)
Variable sortByName : list Product -> list Product.

(** Line 1328: [rerender]; all it changes in the state is the order of the
    products. *)
Definition rerender : M unit :=
  let! state := getLive in
  setLive (set_products (sortByName (products state)) state).

(** The fields of the product form: [productId], and [Number(value)] of the
    numeric inputs. *)
Record ProductForm : Type := {
  productId_field : Z;
  productName : string;
  productCategory : string;
  productCost : jsnum;
  productPrice : jsnum;
  productStock : jsnum;
  productStockMin : jsnum;
}.

(** Line 1052: the submit handler of [productForm]. [saveState] is called
    without [await]: its first request is issued after the handler has
    run to its end, and a rejection stays unhandled. *)
Definition productForm_submit (form : ProductForm) (now rnd_ : Z) (nowIso rid : string)
    : M Notice :=
  let id := productId_field form in
  let name := trim (productName form) in
  let category_ := productCategory form in
  let cost_ := parseMoney (productCost form) in
  let price_ := parseMoney (productPrice form) in
  let stock_ := clampInt (productStock form) 0 1000000 in
  let stockMin_ := clampInt (productStockMin form) 0 1000000 in
  if String.eqb name "" then ret (Toast "Falta dato") else
  if negb (Qle_bool 0 cost_) || negb (Qle_bool 0 price_) || Qlt_bool price_ cost_
  then ret (Toast "Validación") else
  let! state := getLive in
  let edited := {| p_id := id; p_name := name; category := category_; cost := cost_;
                   price := price_; stock := stock_; stockMin := stockMin_ |} in
  let commit (state' : State) (note : Notice) : M Notice :=
    let! _ := setLive state' in
    let! _ := rerender in
    let! state'' := getLive in
    let! _ := try_catch (saveState state'' noOptions nowIso rid) (fun _ => ret tt) in
    ret note in
  if negb (id =? 0) then
    match find_first (fun x => p_id x =? id) (products state) with
    | None => ret (Toast "Error")
    | Some _ =>
        commit (set_products (update_first (fun x => p_id x =? id) (fun _ => edited)
                                (products state)) state)
               (Toast "Actualizado")
    end
  else
    let newP := {| p_id := uuid now rnd_; p_name := name; category := category_;
                   cost := cost_; price := price_; stock := stock_; stockMin := stockMin_ |} in
    commit (set_products (products state ++ [newP])%list state)
           (Toast "Agregado").

(** Line 1147: the submit handler of [saleForm]; [productId_] is
    [Number(saleProduct.value || 0)] and [qtyField] is [Number(saleQty.value)]. *)
Definition saleForm_submit (productId_ : Z) (qtyField : jsnum) (notesField : string)
    (now rnd_ : Z) (nowIso nowSave rid : string) : M Notice :=
  let qty_ := clampInt qtyField 1 1000000 in
  let notes_ := trim notesField in
  let! state := getLive in
  match find_first (fun x => p_id x =? productId_) (products state) with
  | None => ret (Toast "Falta dato")
  | Some p =>
      if stock p <? qty_ then ret (Toast "Stock insuficiente") else
      let total_ := num_mul (Finite (inject_Z qty_)) (Finite (price p)) in
      let profit_ :=
        num_mul (Finite (inject_Z qty_)) (num_sub (Finite (price p)) (Finite (cost p))) in
      let sale := {|
        s_id := uuid now rnd_;
        s_at := nowIso;
        productId := p_id p;
        qty := qty_;
        unitPrice := price p;
        unitCost := cost p;
        total := total_;
        profit := profit_;
        notes := js_or (Some notes_) None;
      |} in
      let state' :=
        set_products
          (update_first (fun x => p_id x =? productId_)
             (fun x => set_stock (int_sub (stock x) qty_) x)
             (products state))
          (set_sales (sales state ++ [sale])%list state) in
      let! _ := setLive state' in
      let! _ := saveState state' noOptions nowSave rid in
      let! _ := rerender in
      ret (Toast "Venta registrada")
  end.

(** Line 1191: the click handler of the sales table for [sale-del]; [id] is
    the [data-id] of the button and [confirmed] the answer to [confirm]. *)
Definition salesTbody_click_del (id : Z) (confirmed : bool) (nowSave rid : string) : M Notice :=
  let! state := getLive in
  match find_first (fun s => s_id s =? id) (sales state) with
  | None => ret Silent
  | Some _ =>
      if negb confirmed then ret Silent else
      let state' := set_sales (filter (fun s => s_id s ≠ id) (sales state)) state in
      let! _ := setLive state' in
      let! _ := saveState state' noOptions nowSave rid in
      let! _ := rerender in
      ret (Toast "Eliminada")
  end.

(** Line 1244: the submit handler of [tableForm]. *)
Definition tableForm_submit (tableNumber tablePlayers tableRate : jsnum)
    (now rnd_ : Z) (nowIso nowSave rid : string) : M Notice :=
  let table_ := clampInt tableNumber 1 100 in
  let players_ := clampInt tablePlayers 1 50 in
  let rate_ := parseMoney tableRate in
  if negb (Qlt_bool 0 rate_) then ret (Toast "Validación") else
  let! state := getLive in
  match find_first (fun t => active t && (table t =? table_)) (tables state) with
  | Some _ => ret (Toast "Mesa activa")
  | None =>
      let session := {|
        t_id := uuid now rnd_;
        table := table_;
        players := players_;
        rate := rate_;
        startAt := nowIso;
        endAt := None;
        active := true;
        t_total := None;
      |} in
      let state' := set_tables (tables state ++ [session])%list state in
      let! _ := setLive state' in
      let! _ := saveState state' noOptions nowSave rid in
      let! _ := rerender in
      ret (Toast "Mesa iniciada")
  end.

End Handlers.

(** ** Sync client (lines 211-244 and 1347-1499) *)

(** A property of the remote [state] object that should be an array. *)
Inductive Field (A : Type) : Type :=
| Missing
| NotArray
| Arr (l : list A).
Arguments Missing {A}.
Arguments NotArray {A}.
Arguments Arr {A} l.

Definition isArray {A} (f : Field A) : bool :=
  match f with
  | Arr _ => true
  | _ => false
  end.

Definition elements_of {A} (f : Field A) : list A :=
  match f with
  | Arr l => l
  | _ => []
  end.

(** The [state] object of a remote document, as parsed from JSON. *)
Record RemoteState : Type := {
  r_version : Z;
  r_business : Business;
  r_products : Field Product;
  r_sales : Field Sale;
  r_expenses : Field Expense;
  r_tables : Field TableSession;
}.

(** The value of [remote.state]: falsy, a truthy value that is not an
    object, an object whose parts are those of a ledger where it has them
    (each collection, when an array, holds records of its kind), or any
    other JSON value: an object with an element or a field of another kind
    ([{"products":[null],"sales":[],"expenses":[],"tables":[]}], a product
    without a name, a business that is a number, ...). *)
Inductive RemoteStateValue : Type :=
| StateFalsy
| StateNotObject
| StateObject (s : RemoteState)
| StateUntyped (j : json).

(** The remote document [{ app, format, updatedAt, updatedBy, state }];
    [r_meta_updatedAt] is [remote.meta?.updatedAt]. *)
Record RemoteDoc : Type := {
  r_updatedAt : option string;
  r_meta_updatedAt : option string;
  r_updatedBy : option string;
  r_state : RemoteStateValue;
}.

(** The document a push sends. *)
Record Payload : Type := {
  pl_app : string;
  pl_format : Z;
  pl_updatedAt : option string;
  pl_updatedBy : option string;
  pl_state : State;
}.

(** The answer of the server to a request: [fetch] rejects, or a response
    with a status and, for a GET, the body when it is the JSON text of an
    object. *)
Inductive HttpReply : Type :=
| NetworkError (msg : string)
| Response (status : Z) (body : option RemoteDoc).

Definition res_ok (status : Z) : bool := (200 <=? status) && (status <=? 299).

(** Line 227: [fetchRemoteSnapshot]. *)
Definition fetchRemoteSnapshot (reply : HttpReply) : M (option RemoteDoc) :=
  match reply with
  | NetworkError msg => throw msg
  | Response status body =>
      if status =? 404 then ret None else
      if negb (res_ok status) then throw ("HTTP " ++ pretty status) else
      match body with
      | None => throw "Respuesta inválida"
      | Some parsed => ret (Some parsed)
      end
  end.

(** Line 237: [pushRemoteSnapshot]. *)
Definition pushRemoteSnapshot (reply : HttpReply) : M unit :=
  match reply with
  | NetworkError msg => throw msg
  | Response status _ =>
      if negb (res_ok status) then throw ("HTTP " ++ pretty status) else ret tt
  end.

(** Line 242: [isValidStateShape]; it looks at the four collections and not
    at what they hold. *)
Definition isValidStateShape (s : RemoteStateValue) : bool :=
  match s with
  | StateObject o =>
      isArray (r_products o) && isArray (r_sales o) && isArray (r_expenses o)
      && isArray (r_tables o)
  | StateUntyped j =>
      json_truthy j && json_isObject j
      && json_isArray "products" j && json_isArray "sales" j
      && json_isArray "expenses" j && json_isArray "tables" j
  | _ => false
  end.

(** The ledger that [state = remote.state] installs. *)
Definition adopt (o : RemoteState) : State := {|
  version := r_version o;
  business := r_business o;
  products := elements_of (r_products o);
  sales := elements_of (r_sales o);
  expenses := elements_of (r_expenses o);
  tables := elements_of (r_tables o);
|}.

(** Line 172: [ensureDeviceId]. *)
Definition ensureDeviceId (rid : string) : M (option string) :=
  let! meta := getMeta in
  if negb (truthy (deviceId meta)) then
    let meta' := {|
      deviceId := Some rid; stateUpdatedAt := stateUpdatedAt meta;
      stateUpdatedBy := stateUpdatedBy meta; stateUpdatedSource := stateUpdatedSource meta;
      lastSnapshotDay := lastSnapshotDay meta;
      legacyBillarMigratedAt := legacyBillarMigratedAt meta;
      lastSyncPushAt := lastSyncPushAt meta; lastSyncPullAt := lastSyncPullAt meta |} in
    let! _ := setMeta meta' in
    ret (deviceId meta')
  else ret (deviceId meta).

Definition set_lastSyncPushAt (v : option string) (m : Meta) : Meta := {|
  deviceId := deviceId m; stateUpdatedAt := stateUpdatedAt m;
  stateUpdatedBy := stateUpdatedBy m; stateUpdatedSource := stateUpdatedSource m;
  lastSnapshotDay := lastSnapshotDay m;
  legacyBillarMigratedAt := legacyBillarMigratedAt m;
  lastSyncPushAt := v; lastSyncPullAt := lastSyncPullAt m;
|}.

Definition set_lastSyncPullAt (v : option string) (m : Meta) : Meta := {|
  deviceId := deviceId m; stateUpdatedAt := stateUpdatedAt m;
  stateUpdatedBy := stateUpdatedBy m; stateUpdatedSource := stateUpdatedSource m;
  lastSnapshotDay := lastSnapshotDay m;
  legacyBillarMigratedAt := legacyBillarMigratedAt m;
  lastSyncPushAt := lastSyncPushAt m; lastSyncPullAt := v;
|}.

(** Line 1368: [persistCfg]; [form] holds the raw values of the inputs. *)
Definition persistCfg (form : SyncConfig) : M SyncConfig :=
  let next := {| url := trim (url form); user := trim (user form);
                 pass := pass form; auto := auto form |} in
  let! _ := idbSet IDB_SYNC_KEY (DSync next) in
  ret next.

(** How a sync handler ends. [DownloadedUntyped j]: the pull has put the
    value [j], which is not a ledger, in the [state] variable and has
    written what it could; whether the user is told of a download or of an
    error is decided by the rendering of [j]. *)
Inductive SyncOutcome : Type :=
| MissingUrl
| NoRemoteData
| Cancelled (status : string)
| Uploaded (payload : Payload)
| Downloaded
| SyncError (msg : string)
| DownloadedUntyped (j : json).

Section Sync.

Variable Date_parse : string -> option Z.
Variable sortByName : list Product -> list Product.

(** Lines 1411-1413: the two timestamps the push compares. *)
Definition push_localUpdatedAt (meta : Meta) : option string :=
  js_or (stateUpdatedAt meta) None.

Definition push_remoteUpdatedAt (remote : option RemoteDoc) : option string :=
  match remote with
  | Some r => js_or (r_updatedAt r) (js_or (r_meta_updatedAt r) None)
  | None => None
  end.

(** Line 1402: the click handler of [btnSyncPush]. [getReply] and
    [putReply] are the answers of the server, [confirmed] the answer to
    [confirm], [nowPayload] and [nowPush] the values of [nowISO()] at lines
    1427 and 1436, [rid] the value of [randomId()]. *)
Definition btnPush_click (form : SyncConfig) (getReply putReply : HttpReply)
    (confirmed : bool) (nowPayload nowPush rid : string) : M SyncOutcome :=
  let! c := persistCfg form in
  if String.eqb (url c) "" then ret MissingUrl else
  try_catch
    (let! remote := fetchRemoteSnapshot getReply in
     let! meta := getMeta in
     let localUpdatedAt := push_localUpdatedAt meta in
     let remoteUpdatedAt := push_remoteUpdatedAt remote in
     let upload : M SyncOutcome :=
       let! deviceId_ :=
         if truthy (deviceId meta) then ret (deviceId meta) else ensureDeviceId rid in
       let! state := getLive in
       let payload := {|
         pl_app := "ms-finanzas";
         pl_format := 1;
         pl_updatedAt := js_or localUpdatedAt (Some nowPayload);
         pl_updatedBy := deviceId_;
         pl_state := state;
       |} in
       let! _ := pushRemoteSnapshot putReply in
       let! m2 := getMeta in
       let! _ := setMeta (set_lastSyncPushAt (Some nowPush) m2) in
       ret (Uploaded payload) in
     if pushNeedsConfirm Date_parse localUpdatedAt remoteUpdatedAt then
       if negb confirmed then ret (Cancelled "Cancelado (remoto más reciente)")
       else upload
     else upload)
    (fun err => ret (SyncError err)).

(** Line 1449: the click handler of [btnSyncPull]; [nowSave] and [nowPull]
    are the values of [nowISO()] at lines 1483 and 1488. *)
Definition btnPull_click (form : SyncConfig) (getReply : HttpReply)
    (confirmed : bool) (nowSave nowPull rid : string) : M SyncOutcome :=
  let! c := persistCfg form in
  if String.eqb (url c) "" then ret MissingUrl else
  try_catch
    (let! remote := fetchRemoteSnapshot getReply in
     match remote with
     | None => ret NoRemoteData
     | Some remote =>
         match r_state remote with
         | StateFalsy => ret NoRemoteData
         | StateUntyped j =>
             if negb (json_truthy j) then ret NoRemoteData else
             if negb (isValidStateShape (StateUntyped j))
             then throw "El remoto no contiene la estructura esperada." else
             let! meta := getMeta in
             let localUpdatedAt := js_or (stateUpdatedAt meta) None in
             let remoteUpdatedAt := js_or (r_updatedAt remote) None in
             let install : M SyncOutcome :=
               untyped (DownloadedUntyped j)
                 (let! _ := saveUntyped j
                              {| source := Some "sync-pull";
                                 updatedAt := js_or remoteUpdatedAt (Some nowSave);
                                 updatedBy := js_or (r_updatedBy remote) (deviceId meta) |}
                              nowSave rid in
                  let! m2 := getMeta in
                  setMeta (set_lastSyncPullAt (Some nowPull) m2)) in
             if pullNeedsConfirm Date_parse localUpdatedAt remoteUpdatedAt then
               if negb confirmed then ret (Cancelled "Cancelado (local más reciente)")
               else install
             else install
         | remoteState =>
             if negb (isValidStateShape remoteState)
             then throw "El remoto no contiene la estructura esperada." else
             let! meta := getMeta in
             let localUpdatedAt := js_or (stateUpdatedAt meta) None in
             let remoteUpdatedAt := js_or (r_updatedAt remote) None in
             let install : M SyncOutcome :=
               let state :=
                 match remoteState with
                 | StateObject o => adopt o
                 | _ => emptyState
                 end in
               let! _ := setLive state in
               let! _ := saveState state
                           {| source := Some "sync-pull";
                              updatedAt := js_or remoteUpdatedAt (Some nowSave);
                              updatedBy := js_or (r_updatedBy remote) (deviceId meta) |}
                           nowSave rid in
               let! m2 := getMeta in
               let! _ := setMeta (set_lastSyncPullAt (Some nowPull) m2) in
               let! _ := rerender sortByName in
               ret Downloaded in
             if pullNeedsConfirm Date_parse localUpdatedAt remoteUpdatedAt then
               if negb confirmed then ret (Cancelled "Cancelado (local más reciente)")
               else install
             else install
         end
     end)
    (fun err => ret (SyncError err)).

End Sync.

(** ** Views of the store and notions of the specification *)

(** The metadata record a world holds, as [getMeta] reads it. *)
Definition metaOf (m : gmap string doc) : Meta :=
  match m !! IDB_META_KEY with
  | Some (DMeta meta) => meta
  | _ => noMeta
  end.

(** The snapshot index a store holds, as [listSnapshots] reads it. *)
Definition indexOf (m : gmap string doc) : list SnapshotEntry :=
  match m !! IDB_SNAPSHOT_INDEX_KEY with
  | Some (DIndex l) => l
  | _ => []
  end.

(** The bodies the trimming loop deletes for the entries [removed], oldest
    entry first. *)
Definition purge (removed : list SnapshotEntry) (m : gmap string doc) : gmap string doc :=
  foldr (fun r acc => if negb (String.eqb (ent_id r) "")
                      then delete (IDB_SNAPSHOT_PREFIX ++ ent_id r) acc else acc)
        m removed.

(** One call [createSnapshot(state, reason)] at the time [nowISO() = call_now]. *)
Record SnapshotCall : Type := {
  call_state : State;
  call_reason : string;
  call_now : string;
}.

(** The snapshot and the index entry such a call builds. *)
Definition snapshotOf (c : SnapshotCall) : Snapshot := {|
  snap_id := call_now c;
  snap_at := call_now c;
  snap_reason := if String.eqb (call_reason c) "" then "manual" else call_reason c;
  snap_state := deepClone (call_state c);
|}.

Definition entryOf (c : SnapshotCall) : SnapshotEntry := {|
  ent_id := call_now c;
  ent_at := call_now c;
  ent_reason := snap_reason (snapshotOf c);
|}.

(** The calls of a sequence, one after the other. *)
Fixpoint createSnapshots (calls : list SnapshotCall) : M unit :=
  match calls with
  | [] => ret tt
  | c :: rest =>
      let! _ := createSnapshot (call_state c) (call_reason c) (call_now c) in
      createSnapshots rest
  end.

Definition snapshotKey (c : SnapshotCall) : string := IDB_SNAPSHOT_PREFIX ++ call_now c.

(** The store after the calls [recent] (newest first) when the index keeps
    [limit] entries: the index lists the newest [limit] calls, newest first;
    their bodies are stored; the bodies of the older calls are gone. *)
Definition retained (limit : nat) (recent : list SnapshotCall) (m : gmap string doc) : Prop :=
  indexOf m = take limit (entryOf <$> recent)
  /\ (forall c, c ∈ take limit recent -> m !! snapshotKey c = Some (DSnapshot (snapshotOf c)))
  /\ (forall c, c ∈ drop limit recent -> m !! snapshotKey c = None).

(** Timestamps as the conflict rules speak of them. *)
Section Readings.

Variable Date_parse : string -> option Z.

(** A timestamp that is missing (absent or empty) or does not parse. *)
Definition absent_or_unparsable (t : option string) : Prop :=
  truthy t = false \/ parseComparableIso Date_parse t = None.

(** A timestamp that is there and parses to the time [ms]. *)
Definition present_at (t : option string) (ms : Z) : Prop :=
  truthy t = true /\ parseComparableIso Date_parse t = Some ms.

End Readings.

(** The invariants the specification gives for a product and for the table
    sessions. *)
Definition validProduct (p : Product) : Prop :=
  (cost p <= price p)%Q /\ 0 <= stock p /\ 0 <= stockMin p.

Definition stockNonNegative (p : Product) : Prop := 0 <= stock p /\ 0 <= stockMin p.

Definition oneActivePerTable (ts : list TableSession) : Prop :=
  NoDup (table <$> filter (fun t => active t = true) ts).

(** The calendar day (days since 1970-01-01) of an ISO timestamp for a clock
    that is [offset] milliseconds ahead of UTC; Guatemala is six hours
    behind. *)
Definition localCalendarDay (offset : Z) (iso : string) : option Z :=
  (fun ms => (ms + offset) / 86400000) <$> iso_parse iso.

Definition guatemala : Z := -21600000.

(** ** Concrete inputs

    Values on which the definitions above are run. *)

(** The world of a fresh installation: nothing stored, no request fails. *)
Definition freshWorld (s : State) : World :=
  {| live := s; idb := ∅; faults := [] |}.

(** A ledger with one product. *)
Definition soda : Product :=
  {| p_id := 1; p_name := "Soda"; category := "bebida"; cost := 5; price := 8;
     stock := 10; stockMin := 2 |}.

Definition sodaState : State := set_products [soda] emptyState.

(** Two recorded sales of Soda. *)
Definition sale_of (id : Z) : Sale :=
  {| s_id := id; s_at := "2024-05-01T10:00:00.000Z"; productId := 1; qty := 3;
     unitPrice := 8; unitCost := 5; total := Finite 24; profit := Finite 9; notes := None |}.

Definition stateWithSales : State :=
  set_sales [sale_of 41; sale_of 42] (set_products [set_stock 4 soda] emptyState).

(** A remote document stamped 1 May 2024 and the sync form that points
    to it. *)
Definition remote_2024_05 : RemoteDoc := {|
  r_updatedAt := Some "2024-05-01T10:00:00.000Z";
  r_meta_updatedAt := None;
  r_updatedBy := Some "device-b";
  r_state := StateObject {| r_version := 1; r_business := business emptyState;
                            r_products := Arr []; r_sales := Arr [];
                            r_expenses := Arr []; r_tables := Arr [] |};
|}.

Definition dav_form : SyncConfig :=
  {| url := "https://dav.example/ms.json"; user := "u"; pass := "p"; auto := false |}.



(** Twenty-two calls at distinct times, to run the snapshot engine. *)
Definition sampleCall (i : nat) : SnapshotCall :=
  {| call_state := emptyState; call_reason := "manual"; call_now := "t" ++ pretty i |}.

Definition sampleCalls : list SnapshotCall := sampleCall <$> seq 0 22.

(** A sort of the products by the code points of their names, to run the
    handlers that re-render. *)
Fixpoint insertByName (p : Product) (l : list Product) : list Product :=
  match l with
  | [] => [p]
  | q :: l' => if String.leb (p_name p) (p_name q) then p :: l else q :: insertByName p l'
  end.

Definition sortByCodePoint (l : list Product) : list Product := foldr insertByName [] l.

(** [toISOString] of a time in milliseconds, for years 0000 to 9999. *)
Definition civil_from_days (z : Z) : Z * Z * Z :=
  let z' := z + 719468 in
  let era := z' / 146097 in
  let doe := z' - era * 146097 in
  let yoe := (doe - doe / 1460 + doe / 36524 - doe / 146096) / 365 in
  let doy := doe - (365 * yoe + yoe / 4 - yoe / 100) in
  let mp := (5 * doy + 2) / 153 in
  let d := doy - (153 * mp + 2) / 5 + 1 in
  let m := if mp <? 10 then mp + 3 else mp - 9 in
  let y := yoe + era * 400 in
  (if m <=? 2 then y + 1 else y, m, d).

Definition pad (width : nat) (n : Z) : string :=
  let s := pretty n in
  String.concat "" (replicate (width - String.length s) "0") ++ s.

Definition iso_format (ms : Z) : string :=
  let days := ms / 86400000 in
  let rest := ms mod 86400000 in
  let '(y, m, d) := civil_from_days days in
  pad 4 y ++ "-" ++ pad 2 m ++ "-" ++ pad 2 d ++ "T"
  ++ pad 2 (rest / 3600000) ++ ":" ++ pad 2 (rest / 60000 mod 60) ++ ":"
  ++ pad 2 (rest / 1000 mod 60) ++ "." ++ pad 3 (rest mod 1000) ++ "Z".

(** Old data: a product sold below its cost, a sale at a loss of a product
    that is not in the old inventory, and two entries for table 1. *)
Definition legacyBeer : LegacyProduct :=
  {| nombre := Some "Cerveza"; lp_name := None; categoria := Some "bebida";
     costo := Finite 10; precio := Finite 5; lp_stock := Finite 3; stockMinimo := Finite 1 |}.

Definition legacyLossSale : LegacySale :=
  {| cantidad := Some (Finite 1); ls_qty := None; ls_precio := Some (Finite 5);
     ls_unitPrice := None; ls_total := Some (Finite 5); ganancia := Some (Finite (-3));
     ls_profit := None; producto := Some "Dulce"; ls_product := None;
     hora := DateText "2023-12-24T18:00:00.000Z"; ls_at := DateUndefined |}.

Definition legacyTableOne (jugadores_ : Z) : LegacyTable :=
  {| activa := Some true; mesa := Finite 1; jugadores := Finite (inject_Z jugadores_);
     tarifa := Finite 10; inicio := DateText "2023-12-24T18:00:00.000Z" |}.

Definition legacyProductsOnly : LegacyStorage :=
  {| readable := true; legacyProducts := Some [legacyBeer]; legacySales := None;
     legacyTables := None |}.

Definition legacySalesOnly : LegacyStorage :=
  {| readable := true; legacyProducts := None; legacySales := Some [legacyLossSale];
     legacyTables := None |}.

Definition legacyTablesOnly : LegacyStorage :=
  {| readable := true; legacyProducts := None; legacySales := None;
     legacyTables := Some [legacyTableOne 2; legacyTableOne 4] |}.

Definition migrate_at_2024_05 (storage : LegacyStorage) : State * bool :=
  migrateFromLegacyBillarLocalStorageIntoState iso_parse iso_format toLowerCase_ascii
    1714557600000
    (fun k => Z.of_nat k) emptyState storage.

(** ** More of the source: loading, seeding and presentation helpers *)

(** What [localStorage] holds under [LEGACY_STORAGE_KEY] (line 6):
    [getItem] throws, nothing (or the empty text), a text [JSON.parse]
    rejects, the text of a ledger, or the text of any other JSON value
    ([null], a number, [{"foo":1}], a ledger with a product that has no
    name, ...). *)
Inductive LegacyItem : Type :=
| ItemUnreadable
| ItemMissing
| ItemGarbage
| ItemParsed (parsed : State)
| ItemUntyped (j : json).

(** What [loadState] hands to [init]: nothing in [loadState] looks at the
    value it parsed or read. *)
Inductive Ledger : Type :=
| WellFormed (s : State)
| Malformed (j : json).

(** Line 528: [loadState]. The result is the value returned and whether
    [localStorage.removeItem(LEGACY_STORAGE_KEY)] was reached. Under the
    state key there is a ledger or a value that was taken for one; a falsy
    value there is passed over (line 532). *)
Definition loadState (item : LegacyItem) : M (option Ledger * bool) :=
  let! found :=
    try_catch
      (let! state := idbGet IDB_STATE_KEY in
       ret match state with
           | Some (DState s) => Some (WellFormed s)
           | Some (DUntyped j) => if json_truthy j then Some (Malformed j) else None
           | _ => None
           end)
      (fun _ => ret None) in
  match found with
  | Some s => ret (Some s, false)
  | None =>
      match item with
      | ItemUnreadable => ret (None, false)
      | ItemMissing => ret (None, false)
      | ItemGarbage => ret (None, false)
      | ItemParsed parsed =>
          let! removed :=
            try_catch
              (let! _ := idbSet IDB_STATE_KEY (DState parsed) in ret true)
              (fun _ => ret false) in
          ret (Some (WellFormed parsed), removed)
      | ItemUntyped j =>
          let! removed :=
            try_catch
              (let! _ := idbSet IDB_STATE_KEY (DUntyped j) in ret true)
              (fun _ => ret false) in
          ret (Some (Malformed j), removed)
      end
  end.

(** Line 181: [getSyncConfig]; a document of another kind has none of the
    four fields. *)
Definition getSyncConfig : M SyncConfig :=
  let! cfg := idbGet IDB_SYNC_KEY in
  ret match cfg with
      | Some (DSync c) => c
      | _ => {| url := ""; user := ""; pass := ""; auto := false |}
      end.

(** Lines 592-596: the sample products. *)
Definition seedProducts : list Product :=
  [ {| p_id := 1; p_name := "Coca-Cola 500ml"; category := "bebida"; cost := 5; price := 8;
       stock := 24; stockMin := 5 |};
    {| p_id := 2; p_name := "Cerveza Nacional"; category := "bebida"; cost := 6; price := 12;
       stock := 36; stockMin := 10 |};
    {| p_id := 3; p_name := "Papas fritas"; category := "snack"; cost := 3; price := 6;
       stock := 15; stockMin := 5 |} ].

(** Line 589: [seedIfEmpty]; [now] is [Date.now()] and [rnd_] the random
    part of [uuid()]. *)
Definition seedIfEmpty (Date_toISOString : Z -> string) (state : State) (now rnd_ : Z) : State :=
  if (0 <? length (products state))%nat || (0 <? length (sales state))%nat
     || (0 <? length (expenses state))%nat || (0 <? length (tables state))%nat
  then state
  else {| version := version state;
          business := business state;
          products := seedProducts;
          sales := sales state;
          expenses := expenses state;
          tables := [ {| t_id := uuid now rnd_; table := 1; players := 2; rate := 10;
                         startAt := Date_toISOString (now - 45 * 60000);
                         endAt := None; active := true; t_total := None |} ] |}.

(** Line 608: [withinRangeISO]; strings compare by their code units. *)
Definition withinRangeISO (iso startISO endISO : string) : bool :=
  String.leb startISO iso && String.ltb iso endISO.

(** [s.replaceAll(c, rep)] for a search text of one character. *)
Fixpoint replaceAll (c : ascii) (rep : string) (s : string) : string :=
  match s with
  | EmptyString => EmptyString
  | String a s' =>
      if Ascii.eqb a c then rep ++ replaceAll c rep s' else String a (replaceAll c rep s')
  end.

(** The double quote, the line feed and the carriage return. *)
Definition dquote : ascii := ascii_of_nat 34.
Definition linefeed : ascii := ascii_of_nat 10.
Definition creturn : ascii := ascii_of_nat 13.

(** Line 856: [escapeHtml]. *)
Definition escapeHtml (s : string) : string :=
  replaceAll "'" "&#039;"
    (replaceAll dquote "&quot;"
       (replaceAll ">" "&gt;"
          (replaceAll "<" "&lt;"
             (replaceAll "&" "&amp;" s)))).

(** Line 879: the test of the regular expression: a line feed, a carriage
    return, a comma or a double quote occurs. *)
Fixpoint needsQuoting (s : string) : bool :=
  match s with
  | EmptyString => false
  | String a s' =>
      Ascii.eqb a linefeed || Ascii.eqb a creturn || Ascii.eqb a "," || Ascii.eqb a dquote
      || needsQuoting s'
  end.

(** Line 877: [esc] of [toCSV]. *)
Definition esc (s : string) : string :=
  if needsQuoting s
  then String dquote (replaceAll dquote (String dquote (String dquote "")) s
                      ++ String dquote "")
  else s.

(** Line 876: [toCSV]. *)
Definition toCSV (rows : list (list string)) : string :=
  String.concat (String linefeed "") (map (fun r => String.concat "," (map esc r)) rows).

(** Whether the character [c] occurs in [s]. *)
Fixpoint occurs (c : ascii) (s : string) : bool :=
  match s with
  | EmptyString => false
  | String a s' => Ascii.eqb a c || occurs c s'
  end.

(** ** Relations between the world before and after a computation *)

(** The keys of the snapshot bodies. *)
Definition isSnapshotKey (k : string) : Prop := exists id, k = IDB_SNAPSHOT_PREFIX ++ id.

(** The documents under the keys in [P] are the same in [w'] as in [w]. *)
Definition keysKept (P : string -> Prop) (w w' : World) : Prop :=
  forall k, P k -> idb w' !! k = idb w !! k.

(** Moreover the [state] variable is the same. *)
Definition untouched (P : string -> Prop) (w w' : World) : Prop :=
  live w' = live w /\ keysKept P w w'.

(** [m] relates every world to the world it leaves, whether it returns or
    throws. *)
Definition preserves {A} (R : World -> World -> Prop) (m : M A) : Prop :=
  forall w, R w (m w).2.

(** ** The other handlers of [init] *)

Definition set_expenses (es : list Expense) (s : State) : State :=
  {| version := version s; business := business s; products := products s;
     sales := sales s; expenses := es; tables := tables s |}.

Definition set_legacyBillarMigratedAt (v : option string) (m : Meta) : Meta := {|
  deviceId := deviceId m; stateUpdatedAt := stateUpdatedAt m;
  stateUpdatedBy := stateUpdatedBy m; stateUpdatedSource := stateUpdatedSource m;
  lastSnapshotDay := lastSnapshotDay m;
  legacyBillarMigratedAt := v;
  lastSyncPushAt := lastSyncPushAt m; lastSyncPullAt := lastSyncPullAt m;
|}.

Definition sourceOnly (src : string) : SaveOptions :=
  {| updatedAt := None; updatedBy := None; source := Some src |}.

(** The file chosen for an import: none, a text [JSON.parse] rejects (with
    the message of the error), the text of a value that is not an object,
    the text of an object whose parts are those of a ledger where it has
    them, or the text of any other JSON value. *)
Inductive ImportFile : Type :=
| FileNone
| FileBadJson (msg : string)
| FileNotObject
| FileObject (o : RemoteState)
| FileUntyped (j : json).

(** How an import ends: with a toast or nothing, or, for a file that passes
    the check of line 947 and is not a ledger, with its value [j] in the
    [state] variable; whether the user is told of an import or of an error
    is then decided by the rendering of [j]. *)
Inductive ImportOutcome : Type :=
| Imported (note : Notice)
| ImportedUntyped (j : json).

(** How the automatic sync ends: with a status line, or with a value that
    is not a ledger in the [state] variable. *)
Inductive AutoSyncOutcome : Type :=
| Status (line : string)
| AppliedUntyped (j : json).

(** How the start of [init] goes on: with a ledger in the [state]
    variable, or with the value [j], which is not one. *)
Inductive Startup : Type :=
| Started
| StartedUntyped (j : json).

(** What the handler of the snapshot list does for the user. *)
Inductive SnapshotNotice : Type :=
| SnapSilent
| SnapToast (title : string)
| SnapDownload (filename : string) (content : State).

(** The clock and random readings of the start of [init], in the order of
    the source. *)
Record StartupEnv : Type := {
  env_deviceRid : string;
  env_migrateNow : Z;
  env_migrateRnd : nat -> Z;
  env_migratedAt : string;
  env_migrateSave : string;
  env_seedNow : Z;
  env_seedRnd : Z;
  env_initSave : string;
  env_saveRid : string;
  env_dayNow : string;
  env_snapNow : string;
}.

Section MoreHandlers.

Variable Date_parse : string -> option Z.
Variable Date_toISOString : Z -> string.
Variable toLowerCase : string -> string.
Variable sortByName : list Product -> list Product.

(** Line 937: the change handler of [fileImport]. *)
Definition fileImport_change (file : ImportFile) (nowSave rid : string) : M ImportOutcome :=
  match file with
  | FileNone => ret (Imported Silent)
  | _ =>
      try_catch
        (match file with
         | FileNone => ret (Imported Silent)
         | FileBadJson msg => throw msg
         | FileNotObject => throw "Formato inválido"
         | FileObject parsed =>
             if negb (isArray (r_products parsed)) || negb (isArray (r_sales parsed))
                || negb (isArray (r_expenses parsed)) || negb (isArray (r_tables parsed))
             then throw "El backup no contiene la estructura esperada." else
             let state := adopt parsed in
             let! _ := setLive state in
             let! _ := saveState state noOptions nowSave rid in
             let! _ := rerender sortByName in
             ret (Imported (Toast "Importado"))
         | FileUntyped j =>
             if negb (json_truthy j) || negb (json_isObject j)
             then throw "Formato inválido" else
             if negb (json_isArray "products" j) || negb (json_isArray "sales" j)
                || negb (json_isArray "expenses" j) || negb (json_isArray "tables" j)
             then throw "El backup no contiene la estructura esperada." else
             untyped (ImportedUntyped j) (saveUntyped j noOptions nowSave rid)
         end)
        (fun _ => ret (Imported (Toast "Error")))
  end.

(** Line 964: the click handler of [btnClear]. *)
Definition btnClear_click (confirmed : bool) (nowSave rid : string) : M Notice :=
  if negb confirmed then ret Silent else
  let state := emptyState in
  let! _ := setLive state in
  let! _ := idbClearAll in
  let! _ := saveState state (sourceOnly "clear") nowSave rid in
  let! _ := rerender sortByName in
  ret (Toast "Listo").

(** Line 978: the click handler of [btnSnapshotNow]. *)
Definition btnSnapshotNow_click (now : string) : M Notice :=
  let! state := getLive in
  let! _ := createSnapshot state "manual" now in
  ret (Toast "Respaldo").

(** Line 1014: the click handler of [snapshotList]; [act] and [id] are the
    [data-act] and [data-id] of the button (empty when missing). *)
Definition snapshotList_click (act id : string) (confirmed : bool) (nowSave rid : string)
    : M SnapshotNotice :=
  if String.eqb act "" || String.eqb id "" then ret SnapSilent else
  if String.eqb act "restore" then
    if negb confirmed then ret SnapSilent else
    let! snap := idbGet (IDB_SNAPSHOT_PREFIX ++ id) in
    match snap with
    | Some (DSnapshot s) =>
        let state := snap_state s in
        let! _ := setLive state in
        let! _ := saveState state (sourceOnly "snapshot-restore") nowSave rid in
        let! _ := rerender sortByName in
        ret (SnapToast "Restaurado")
    | _ => ret (SnapToast "Error")
    end
  else if String.eqb act "download" then
    let! snap := idbGet (IDB_SNAPSHOT_PREFIX ++ id) in
    match snap with
    | Some (DSnapshot s) =>
        ret (SnapDownload ("ms_finanzas_snapshot_" ++ replaceAll ":" "-" id ++ ".json")
               (snap_state s))
    | _ => ret (SnapToast "Error")
    end
  else ret SnapSilent.

(** Line 1113: the click handler of [productsTbody]. As in the product
    form, [saveState] is not awaited. *)
Definition productsTbody_click (act : string) (id : Z) (confirmed : bool)
    (nowSave rid : string) : M Notice :=
  let! state := getLive in
  if String.eqb act "edit" then
    match find_first (fun x => p_id x =? id) (products state) with
    | None => ret Silent
    | Some _ => ret (Toast "Editar")
    end
  else if String.eqb act "del" then
    match find_first (fun x => p_id x =? id) (products state) with
    | None => ret Silent
    | Some _ =>
        if negb confirmed then ret Silent else
        let! _ := setLive (set_products (filter (fun x => p_id x ≠ id) (products state)) state) in
        let! _ := rerender sortByName in
        let! state' := getLive in
        let! _ := try_catch (saveState state' noOptions nowSave rid) (fun _ => ret tt) in
        ret (Toast "Eliminado")
    end
  else ret Silent.

(** Line 1206: the submit handler of [expenseForm]. *)
Definition expenseForm_submit (expenseType : string) (expenseAmount : jsnum)
    (expenseDescription : string) (now rnd_ : Z) (nowIso nowSave rid : string) : M Notice :=
  let type_ := expenseType in
  let amount_ := parseMoney expenseAmount in
  let description_ := trim expenseDescription in
  if String.eqb type_ "" then ret (Toast "Falta dato") else
  if negb (Qlt_bool 0 amount_) then ret (Toast "Validación") else
  let exp := {| e_id := uuid now rnd_; e_at := nowIso; e_type := type_; amount := amount_;
                description := js_or (Some description_) None |} in
  let! state := getLive in
  let state' := set_expenses (expenses state ++ [exp])%list state in
  let! _ := setLive state' in
  let! _ := saveState state' noOptions nowSave rid in
  let! _ := rerender sortByName in
  ret (Toast "Gasto registrado").

(** Line 1231: the click handler of [expensesTbody] for [exp-del]. *)
Definition expensesTbody_click_del (id : Z) (confirmed : bool) (nowSave rid : string)
    : M Notice :=
  if negb confirmed then ret Silent else
  let! state := getLive in
  let state' := set_expenses (filter (fun x => e_id x ≠ id) (expenses state)) state in
  let! _ := setLive state' in
  let! _ := saveState state' noOptions nowSave rid in
  let! _ := rerender sortByName in
  ret (Toast "Eliminado").

Definition addPlayer (t : TableSession) : TableSession :=
  {| t_id := t_id t; table := table t; players := int_add (players t) 1; rate := rate t;
     startAt := startAt t; endAt := endAt t; active := active t; t_total := t_total t |}.

(** Lines 1297-1303: what [table-stop] writes into the session. [now] is
    [Date.now()], [nowIso] is [nowISO()]. A start that does not parse makes
    the minutes, and with them the total, [NaN]. *)
Definition stopSession (now : Z) (nowIso : string) (t : TableSession) : TableSession :=
  let total_ :=
    match Date_parse (startAt t) with
    | Some started =>
        match num_div (Finite (inject_Z (int_sub now started))) 60000 with
        | Finite elapsed =>
            let mins := Z.max 0 (Qfloor elapsed) in
            num_toFixed2
              (num_mul (num_mul (num_div (Finite (inject_Z mins)) 60) (Finite (rate t)))
                 (Finite (inject_Z (players t))))
        | NonFinite => NonFinite
        end
    | None => NonFinite
    end in
  {| t_id := t_id t; table := table t; players := players t; rate := rate t;
     startAt := startAt t; endAt := Some nowIso; active := false; t_total := Some total_ |}.

(** Line 1280: the click handler of [tablesTbody]. *)
Definition tablesTbody_click (act : string) (id : Z) (now : Z) (nowIso nowSave rid : string)
    : M Notice :=
  let! state := getLive in
  match find_first (fun x => t_id x =? id) (tables state) with
  | None => ret Silent
  | Some _ =>
      if String.eqb act "table-plus" then
        let state' := set_tables (update_first (fun x => t_id x =? id) addPlayer (tables state))
                        state in
        let! _ := setLive state' in
        let! _ := saveState state' noOptions nowSave rid in
        let! _ := rerender sortByName in
        ret (Toast "Jugador agregado")
      else if String.eqb act "table-stop" then
        let state' := set_tables (update_first (fun x => t_id x =? id) (stopSession now nowIso)
                                    (tables state)) state in
        let! _ := setLive state' in
        let! _ := saveState state' noOptions nowSave rid in
        let! _ := rerender sortByName in
        ret (Toast "Mesa finalizada")
      else ret Silent
  end.

(** Line 1383: the click handler of [btnSyncTest]. *)
Definition btnTest_click (form : SyncConfig) (getReply : HttpReply) : M Notice :=
  let! c := persistCfg form in
  if String.eqb (url c) "" then ret (Toast "Falta URL") else
  try_catch
    (let! _ := fetchRemoteSnapshot getReply in
     ret (Toast "Conexión"))
    (fun _ => ret (Toast "Error")).

(** Lines 1502-1524: the automatic sync at the start; the result is the
    status line. [online] is [navigator.onLine]. *)
Definition autoSync (online : bool) (getReply : HttpReply) (nowSave rid : string)
    : M AutoSyncOutcome :=
  let ready := Status (if online then "Listo (online)" else "Listo (offline)") in
  try_catch
    (let! c := getSyncConfig in
     if auto c && negb (String.eqb (url c) "") && online then
       let! remote := fetchRemoteSnapshot getReply in
       let! meta := getMeta in
       let localUpdatedAt := js_or (stateUpdatedAt meta) None in
       let remoteUpdatedAt :=
         match remote with
         | Some r => js_or (r_updatedAt r) None
         | None => None
         end in
       match remote with
       | Some r =>
           match r_state r with
           | StateObject o =>
               if isValidStateShape (r_state r)
                  && isoNewerThan Date_parse remoteUpdatedAt localUpdatedAt
               then
                 let state := adopt o in
                 let! _ := setLive state in
                 let! _ := saveState state
                             {| source := Some "sync-auto-pull";
                                updatedAt := js_or remoteUpdatedAt (Some nowSave);
                                updatedBy := js_or (r_updatedBy r) (deviceId meta) |}
                             nowSave rid in
                 let! _ := rerender sortByName in
                 ret (Status "Auto-sync: datos remotos aplicados")
               else ret (Status "Auto-sync: sin cambios")
           | StateUntyped j =>
               if isValidStateShape (r_state r)
                  && isoNewerThan Date_parse remoteUpdatedAt localUpdatedAt
               then
                 untyped (AppliedUntyped j)
                   (saveUntyped j
                      {| source := Some "sync-auto-pull";
                         updatedAt := js_or remoteUpdatedAt (Some nowSave);
                         updatedBy := js_or (r_updatedBy r) (deviceId meta) |}
                      nowSave rid)
               else ret (Status "Auto-sync: sin cambios")
           | _ => ret (Status "Auto-sync: sin cambios")
           end
       | None => ret (Status "Auto-sync: sin cambios")
       end
     else ret ready)
    (fun _ => ret ready).

(** Line 987: the click handler of [btnMigrateLegacy]. *)
Definition btnMigrateLegacy_click (confirmed : bool) (storage : LegacyStorage)
    (now : Z) (rnd : nat -> Z) (nowSave rid nowMeta nowDay nowSnap : string) : M Notice :=
  if negb confirmed then ret Silent else
  let! state := getLive in
  if negb (isStateEmpty state) then ret (Toast "No aplicado") else
  let res := migrateFromLegacyBillarLocalStorageIntoState Date_parse Date_toISOString toLowerCase
               now rnd state storage in
  if negb res.2 then ret (Toast "Sin datos") else
  let state' := res.1 in
  let! _ := setLive state' in
  let! _ := saveState state' (sourceOnly "migracion-manual") nowSave rid in
  let! meta := getMeta in
  let! _ := setMeta (set_legacyBillarMigratedAt (Some nowMeta) meta) in
  let! _ := try_catch (ensureDailySnapshot state' nowDay nowSnap) (fun _ => ret tt) in
  let! _ := rerender sortByName in
  ret (Toast "Migración").

(** Lines 893-923: the start of [init] from the ledger [state0] that line
    890 gave it, up to the daily snapshot. *)
Definition init_from (state0 : State) (storage : LegacyStorage) (env : StartupEnv)
    : M unit :=
  let! _ := setLive state0 in
  let! _ := try_catch (let! _ := ensureDeviceId (env_deviceRid env) in ret tt)
              (fun _ => ret tt) in
  let! migrated :=
    try_catch
      (let! meta := getMeta in
       if negb (truthy (legacyBillarMigratedAt meta)) && isStateEmpty state0 then
         let res := migrateFromLegacyBillarLocalStorageIntoState Date_parse Date_toISOString toLowerCase
                      (env_migrateNow env) (env_migrateRnd env) state0 storage in
         if res.2 then
           let! _ := setLive res.1 in
           let! _ := setMeta (set_legacyBillarMigratedAt (Some (env_migratedAt env)) meta) in
           let! _ := saveState res.1 (sourceOnly "migracion") (env_migrateSave env)
                       (env_saveRid env) in
           ret true
         else ret false
       else ret false)
      (fun _ => ret false) in
  let! state1 := getLive in
  let wasEmptyBeforeSeed := isStateEmpty state1 in
  let state2 := seedIfEmpty Date_toISOString state1 (env_seedNow env) (env_seedRnd env) in
  let! _ := setLive state2 in
  let stateChangedDuringInit := migrated || (wasEmptyBeforeSeed && negb (isStateEmpty state2)) in
  let! _ := if stateChangedDuringInit
            then saveState state2 (sourceOnly "init") (env_initSave env) (env_saveRid env)
            else ret tt in
  try_catch (ensureDailySnapshot state2 (env_dayNow env) (env_snapNow env)) (fun _ => ret tt).

(** Lines 890-923: the start of [init], up to the daily snapshot. Line 890
    is [(await loadState()) || emptyState()]: a falsy value gives the empty
    ledger. With a truthy value that is not a ledger the run is followed up
    to the device id (line 893); the migration, the seeding and the daily
    snapshot then read the fields of that value, and are not followed. *)
Definition init_load (item : LegacyItem) (storage : LegacyStorage) (env : StartupEnv)
    : M Startup :=
  let! loaded := loadState item in
  match loaded.1 with
  | Some (WellFormed s) => let! _ := init_from s storage env in ret Started
  | Some (Malformed j) =>
      if json_truthy j then
        let! _ := try_catch (let! _ := ensureDeviceId (env_deviceRid env) in ret tt)
                    (fun _ => ret tt) in
        ret (StartedUntyped j)
      else let! _ := init_from emptyState storage env in ret Started
  | None => let! _ := init_from emptyState storage env in ret Started
  end.

End MoreHandlers.

(** A world whose snapshot index is full, and where the third request from
    now is rejected. *)
Definition fullIndexWorld : World :=
  {| live := emptyState;
     idb := idb (createSnapshots (take 20 sampleCalls) (freshWorld emptyState)).2;
     faults := [false; false; true] |}.

(** The options the pull passes to [saveState] (lines 1480-1484), and the
    configuration [persistCfg] stores (line 1368). *)
Definition pullOptions (remote : RemoteDoc) (meta : Meta) (nowSave : string) : SaveOptions :=
  {| source := Some "sync-pull";
     updatedAt := js_or (js_or (r_updatedAt remote) None) (Some nowSave);
     updatedBy := js_or (r_updatedBy remote) (deviceId meta) |}.

Definition trimmedCfg (form : SyncConfig) : SyncConfig :=
  {| url := trim (url form); user := trim (user form); pass := pass form; auto := auto form |}.

(** The server's answers used below: the remote document is there, it is
    not there, the upload is accepted. *)
Definition get_2024_05 : HttpReply := Response 200 (Some remote_2024_05).
Definition get_nothing : HttpReply := Response 404 None.
Definition put_created : HttpReply := Response 201 None.

(** The world after Soda's ledger was saved on 1 June 2024, and a world in
    which the third request from now is rejected. *)
Definition savedWorld_2024_06 : World :=
  (saveState sodaState noOptions "2024-06-01T00:00:00.000Z" "device-a" (freshWorld sodaState)).2.

Definition thirdRequestFails : World :=
  {| live := sodaState; idb := ∅; faults := [false; false; true] |}.

(** The ledger of [remote_2024_05]. *)
Definition ledger_2024_05 : RemoteState :=
  {| r_version := 1; r_business := business emptyState;
     r_products := Arr []; r_sales := Arr [];
     r_expenses := Arr []; r_tables := Arr [] |}.

(** What the loops of the importer maintain: every product of the [byName]
    map is in [next.products], and every sale refers to one of them. *)
Definition salesReferToProducts (ps : list Product) (ss : list Sale) : Prop :=
  forall s, s ∈ ss -> exists p, p ∈ ps /\ p_id p = productId s.

Definition linked (acc : Import) : Prop :=
  (forall k p, byName acc !! k = Some p -> p ∈ i_products acc)
  /\ salesReferToProducts (i_products acc) (i_sales acc).

(** What every imported sale and session looks like. *)
Definition migratedSale (s : Sale) : Prop :=
  notes s = Some "Migrado" /\ 1 <= qty s <= 1000000.

Definition migratedSession (t : TableSession) : Prop :=
  active t = true /\ endAt t = None /\ t_total t = None
  /\ 1 <= table t <= 1000000 /\ 1 <= players t <= 100.

(** A ledger with one running session, on table 1. *)
Definition sessionState : State :=
  set_tables [ {| t_id := 7; table := 1; players := 2; rate := 10;
                  startAt := "2024-05-01T10:00:00.000Z"; endAt := None; active := true;
                  t_total := None |} ] emptyState.

(** A world whose sync configuration asks for the automatic sync. *)
Definition autoSyncWorld : World :=
  {| live := sodaState;
     idb := {[ IDB_SYNC_KEY := DSync {| url := "https://dav.example/ms.json"; user := "u";
                                        pass := "p"; auto := true |} ]};
     faults := [] |}.


(** A document that passes the shape check and is not a ledger (its only
    product is [null]), the remote document that carries it, and an object
    that has none of the collections. *)
Definition untyped_ledger : json :=
  JObject [("products", JArray [JNull]); ("sales", JArray []); ("expenses", JArray []);
           ("tables", JArray [])].

Definition remote_untyped : RemoteDoc := {|
  r_updatedAt := Some "2024-05-01T10:00:00.000Z";
  r_meta_updatedAt := None;
  r_updatedBy := Some "device-b";
  r_state := StateUntyped untyped_ledger;
|}.

Definition get_untyped : HttpReply := Response 200 (Some remote_untyped).

Definition legacy_foo : json := JObject [("foo", JNumber 1)].

(** An old storage with nothing under the three legacy keys, and the clock
    and random readings of a start on 1 May 2024. *)
Definition noLegacy : LegacyStorage :=
  {| readable := true; legacyProducts := None; legacySales := None; legacyTables := None |}.

Definition env_2024_05 : StartupEnv := {|
  env_deviceRid := "device-a";
  env_migrateNow := 1714557600000;
  env_migrateRnd := fun k => Z.of_nat k;
  env_migratedAt := "2024-05-01T10:00:00.000Z";
  env_migrateSave := "2024-05-01T10:00:00.001Z";
  env_seedNow := 1714557600000;
  env_seedRnd := 7;
  env_initSave := "2024-05-01T10:00:00.002Z";
  env_saveRid := "device-a";
  env_dayNow := "2024-05-01T10:00:00.003Z";
  env_snapNow := "2024-05-01T10:00:00.004Z";
|}.

(** * Properties *)

(** ** Rounding to the nearest double *)

Lemma round64_Qeq (a b : Q) : (a == b)%Q -> round64 a = round64 b.
Proof. intros Hab. unfold round64. rewrite (Qred_complete a b Hab). reflexivity. Qed.

Lemma fl_Qeq (a b : Q) : (a == b)%Q -> fl a = fl b.
Proof. intros Hab. unfold fl. rewrite (round64_Qeq a b Hab). reflexivity. Qed.

Lemma Qred_inject_Z (z : Z) : Qred (inject_Z z) = inject_Z z.
Proof.
  unfold inject_Z, Qred. cbn [Qnum Qden].
  pose proof (Z.ggcd_gcd z 1) as Hg. pose proof (Z.ggcd_correct_divisors z 1) as Hd.
  destruct (Z.ggcd z 1) as [g [aa bb]]. cbn [fst snd] in *.
  rewrite Z.gcd_1_r in Hg. subst g. destruct Hd as [Ha Hb].
  rewrite Z.mul_1_l in Ha, Hb. subst aa bb. reflexivity.
Qed.





Lemma round_half_even_1 (n : Z) : round_half_even n 1 = n.
Proof.
  unfold round_half_even. rewrite Z.mod_1_r, Z.div_1_r. reflexivity.
Qed.

Lemma round64_int (z : Z) : Z.abs z <= 2 ^ 53 -> round64 (inject_Z z) = inject_Z z.
Proof.
  intros Hz. unfold round64. rewrite Qred_inject_Z. cbn [inject_Z Qnum Qden].
  destruct (Z.eqb_spec (Z.abs z) 0) as [H0 | Hnz].
  { assert (z = 0) by lia. subst z. reflexivity. }
  set (n := Z.abs z) in *.
  assert (Hn : 0 < n) by lia.
  assert (Hlog : 0 <= Z.log2 n <= 53).
  { split; [apply Z.log2_nonneg |]. change 53 with (Z.log2 (2 ^ 53)).
    apply Z.log2_le_mono. exact Hz. }
  assert (Hfl : floor_log2 n 1 = Z.log2 n).
  { unfold floor_log2. change (Z.log2 1) with 0. rewrite Z.sub_0_r.
    assert (Hpow : 2 ^ Z.log2 n <= n) by (pose proof (Z.log2_spec n Hn); lia).
    assert (Hs1 : scale2 1 (Z.log2 n) = 2 ^ Z.log2 n).
    { unfold scale2. destruct (Z.leb_spec 0 (Z.log2 n)); lia. }
    assert (Hs2 : n <= scale2 n (- Z.log2 n)).
    { unfold scale2. destruct (Z.leb_spec 0 (- Z.log2 n)); [| lia].
      replace (- Z.log2 n) with 0 by lia. rewrite Z.pow_0_r. lia. }
    rewrite Hs1. destruct (Z.leb_spec (2 ^ Z.log2 n) (scale2 n (- Z.log2 n)));
      [reflexivity | lia]. }
  rewrite Hfl.
  assert (Heq : (Qmake
                   (scale2 (round_half_even (scale2 n (- Z.max (Z.log2 n - 52) (-1074)))
                              (scale2 1 (Z.max (Z.log2 n - 52) (-1074))))
                      (Z.max (Z.log2 n - 52) (-1074)))
                   (Z.to_pos (scale2 1 (- Z.max (Z.log2 n - 52) (-1074))))
                 == inject_Z n)%Q).
  { replace (Z.max (Z.log2 n - 52) (-1074)) with (Z.log2 n - 52) by lia.
    set (e := Z.log2 n - 52).
    destruct (Z.ltb_spec e 1) as [Hlow | Hhigh].
    - assert (Hs1 : scale2 n (- e) = n * 2 ^ (- e)).
      { unfold scale2. destruct (Z.leb_spec 0 (- e)); [reflexivity | lia]. }
      assert (Hs2 : scale2 1 e = 1).
      { unfold scale2. destruct (Z.leb_spec 0 e); [| reflexivity].
        replace e with 0 by lia. reflexivity. }
      assert (Hs3 : scale2 1 (- e) = 2 ^ (- e)).
      { unfold scale2. destruct (Z.leb_spec 0 (- e)); lia. }
      rewrite Hs1, Hs2, Hs3, round_half_even_1.
      assert (Hs4 : scale2 (n * 2 ^ (- e)) e = n * 2 ^ (- e)).
      { unfold scale2. destruct (Z.leb_spec 0 e); [| reflexivity].
        replace e with 0 by lia. change (2 ^ 0) with 1. lia. }
      rewrite Hs4. unfold Qeq, inject_Z. cbn [Qnum Qden].
      rewrite Z2Pos.id by (apply Z.pow_pos_nonneg; lia). lia.
    - assert (Hn53 : n = 2 ^ 53).
      { assert (Hl : Z.log2 n = 53) by (unfold e in Hhigh; lia).
        pose proof (Z.log2_spec n Hn) as Hs. rewrite Hl in Hs.
        change (2 ^ Z.succ 53) with (2 * 2 ^ 53) in Hs. lia. }
      replace e with 1 by (unfold e in *; lia).
      rewrite Hn53. vm_compute. reflexivity. }
  rewrite <- (Qred_inject_Z z). apply Qred_complete.
  destruct (Z.ltb_spec z 0) as [Hneg | Hpos]; rewrite Heq;
    unfold Qeq, Qopp, inject_Z; cbn [Qnum Qden]; unfold n; lia.
Qed.

Lemma int_sub_exact (a b : Z) :
  Z.abs a <= 2 ^ 53 -> Z.abs b <= 2 ^ 53 -> Z.abs (a - b) <= 2 ^ 53 -> int_sub a b = a - b.
Proof.
  intros Ha Hb Hab. unfold int_sub. rewrite (round64_int a Ha), (round64_int b Hb).
  rewrite (round64_Qeq _ (inject_Z (a - b))).
  - rewrite (round64_int _ Hab). apply Qfloor_Z.
  - unfold Zminus. rewrite inject_Z_plus, inject_Z_opp. reflexivity.
Qed.


Lemma is_double_round64 (q : Q) : is_double q -> round64 q = q.
Proof.
  unfold is_double, fl. intros H.
  destruct (_ || _); [discriminate H | injection H as H; exact H].
Qed.

Lemma fl_exact (x d : Q) : is_double d -> (x == d)%Q -> fl x = Finite d.
Proof. intros Hd Hx. rewrite (fl_Qeq x d Hx). exact Hd. Qed.

Lemma clampInt_bounds (n : jsnum) (min max : Z) :
  min <= max -> min <= clampInt n min max <= max.
Proof.
  intros Hle. destruct n as [q |]; cbn [clampInt]; [destruct (fl q) |]; lia.
Qed.

(** ** The primitives, run *)

Lemma iso_parse_empty : iso_parse "" = None.
Proof. reflexivity. Qed.

Example iso_parse_epoch : iso_parse "1970-01-01T00:00:00.000Z" = Some 0.
Proof. reflexivity. Qed.

Example iso_parse_2024 : iso_parse "2024-01-01T23:00:00.000Z" = Some 1704150000000.
Proof. vm_compute. reflexivity. Qed.

Example clampInt_floor : clampInt (Finite (27 # 10)) 1 100 = 2.
Proof. reflexivity. Qed.

Example clampInt_nan : clampInt NonFinite 1 100 = 1.
Proof. reflexivity. Qed.

Example clampInt_negative : clampInt (Finite (-5 # 2)) 0 1000000 = 0.
Proof. reflexivity. Qed.

Example clampInt_overflow : clampInt (Finite (inject_Z (10 ^ 400))) 1 100 = 1.
Proof. vm_compute. reflexivity. Qed.

(** 0.1 is not a double; 3 times 0.3 is not 0.9. *)
Example round64_tenth : round64 (1 # 10) = (3602879701896397 # 36028797018963968)%Q.
Proof. vm_compute. reflexivity. Qed.

Example num_mul_three_tenths :
  num_mul (Finite 3) (Finite (3 # 10)) = Finite (2026619832316723 # 2251799813685248)%Q
  /\ num_mul (Finite 3) (Finite (3 # 10)) <> fl (9 # 10).
Proof. split; [vm_compute; reflexivity | vm_compute; discriminate]. Qed.

Example toFixed2_up : toFixed2 (126 # 1000) = round64 (13 # 100).
Proof. vm_compute. reflexivity. Qed.

Example toFixed2_negative : toFixed2 (-126 # 1000) = round64 (-13 # 100).
Proof. vm_compute. reflexivity. Qed.

(** The double nearest to 1.005 is below it: [toFixed(2)] writes 1.00. *)
Example toFixed2_binary : toFixed2 (1005 # 1000) = 1%Q.
Proof. vm_compute. reflexivity. Qed.

Example toFixed2_tie : toFixed2 (125 # 1000) = round64 (13 # 100).
Proof. vm_compute. reflexivity. Qed.

(** A no-break space (C2 A0) in front and an ideographic space (E3 80 80)
    at the end are stripped; the bytes of an accented letter (C3 A9) are
    not. *)
Example trim_unicode_spaces :
  trim (String (ascii_of_nat 194) (String (ascii_of_nat 160) "Soda")
        ++ String (ascii_of_nat 227) (String (ascii_of_nat 128) (String (ascii_of_nat 128) "")))
  = "Soda".
Proof. vm_compute. reflexivity. Qed.

Example trim_keeps_letters :
  trim (" Caf" ++ String (ascii_of_nat 195) (String (ascii_of_nat 169) " "))
  = "Caf" ++ String (ascii_of_nat 195) (String (ascii_of_nat 169) "").
Proof. vm_compute. reflexivity. Qed.

Example trim_inner : trim "  a  b  " = "a  b".
Proof. vm_compute. reflexivity. Qed.

(** [new Date(null)] is the epoch, [new Date(undefined)] is invalid, a
    number is a time in milliseconds. *)
Example parseLegacyDate_values :
  parseLegacyDate iso_parse DateNull = Some 0
  /\ parseLegacyDate iso_parse DateUndefined = None
  /\ parseLegacyDate iso_parse (DateNumber (inject_Z 1714557600000)) = Some 1714557600000
  /\ parseLegacyDate iso_parse (DateNumber (inject_Z (10 ^ 16))) = None
  /\ parseLegacyDate iso_parse (DateNumber (-3 # 2)) = Some (-1)
  /\ parseLegacyDate iso_parse (DateText "2023-12-24T18:00:00.000Z") = Some 1703440800000
  /\ parseLegacyDate iso_parse (DateText "ayer") = None.
Proof. vm_compute. repeat split; reflexivity. Qed.

Example legacyIso_values :
  legacyIso iso_parse iso_format 1714557600000 DateNull = "1970-01-01T00:00:00.000Z"
  /\ legacyIso iso_parse iso_format 1714557600000 DateUndefined = "2024-05-01T10:00:00.000Z"
  /\ legacyIso iso_parse iso_format 1714557600000 (date_or DateNull (DateNumber 86400000))
     = "1970-01-02T00:00:00.000Z".
Proof. vm_compute. repeat split; reflexivity. Qed.

Example normalizeName_trims : normalizeName toLowerCase_ascii "  Coca Cola " = "coca cola".
Proof. reflexivity. Qed.

Example iso_format_2024 : iso_format 1704150000000 = "2024-01-01T23:00:00.000Z".
Proof. vm_compute. reflexivity. Qed.

Example iso_format_leap_day : iso_format 1709251199999 = "2024-02-29T23:59:59.999Z".
Proof. vm_compute. reflexivity. Qed.

Example iso_parse_format : iso_parse (iso_format 951782400123) = Some 951782400123.
Proof. vm_compute. reflexivity. Qed.

(** ** Timestamp comparison *)

Lemma truthy_false_str_or_empty (t : option string) :
  truthy t = false -> str_or_empty t = "".
Proof.
  unfold str_or_empty, js_or. intros ->. reflexivity.
Qed.

Section TimestampFacts.

Variable Date_parse : string -> option Z.
Hypothesis Date_parse_empty : Date_parse "" = None.

Lemma unusable_parse (t : option string) :
  absent_or_unparsable Date_parse t -> parseComparableIso Date_parse t = None.
Proof.
  intros [Hf | Hp]; [| exact Hp].
  unfold parseComparableIso. rewrite truthy_false_str_or_empty by exact Hf.
  exact Date_parse_empty.
Qed.

Lemma parse_unusable_or_present (t : option string) :
  absent_or_unparsable Date_parse t \/ exists ms, present_at Date_parse t ms.
Proof.
  destruct (parseComparableIso Date_parse t) as [ms |] eqn:Hp.
  - destruct (truthy t) eqn:Ht.
    + right. exists ms. split; assumption.
    + left. left. exact Ht.
  - left. right. exact Hp.
Qed.

(** C2. [isoNewerThan]: two timestamps that are absent or do not parse are
    not newer than each other; one that is present and parses is newer
    than one that is absent or does not parse, and not the other way
    round; two that parse compare by strict greater-than on their times. *)
Theorem isoNewerThan_cases (a b : option string) :
  (absent_or_unparsable Date_parse a -> absent_or_unparsable Date_parse b ->
     isoNewerThan Date_parse a b = false /\ isoNewerThan Date_parse b a = false)
  /\ (forall ta, present_at Date_parse a ta -> absent_or_unparsable Date_parse b ->
        isoNewerThan Date_parse a b = true /\ isoNewerThan Date_parse b a = false)
  /\ (forall ta tb, present_at Date_parse a ta -> present_at Date_parse b tb ->
        isoNewerThan Date_parse a b = bool_decide (ta > tb)).
Proof.
  split; [| split].
  - intros Ha%unusable_parse Hb%unusable_parse.
    unfold isoNewerThan. rewrite Ha, Hb. split; reflexivity.
  - intros ta [_ Ha] Hb%unusable_parse.
    unfold isoNewerThan. rewrite Ha, Hb. split; reflexivity.
  - intros ta tb [_ Ha] [_ Hb]. unfold isoNewerThan. rewrite Ha, Hb.
    destruct (Z.ltb_spec tb ta); symmetry.
    + apply bool_decide_eq_true. lia.
    + apply bool_decide_eq_false. lia.
Qed.

End TimestampFacts.

Lemma isoNewerThan_cases_witness :
  iso_parse "" = None
  /\ isoNewerThan iso_parse (Some "2024-05-01T10:00:00.000Z") None = true
  /\ isoNewerThan iso_parse None (Some "2024-05-01T10:00:00.000Z") = false.
Proof.
  split; [reflexivity |].
  destruct (isoNewerThan_cases iso_parse eq_refl (Some "2024-05-01T10:00:00.000Z") None)
    as (_ & Hpresent & _).
  apply (Hpresent 1714557600000).
  - split; vm_compute; reflexivity.
  - left. reflexivity.
Defined.

(** ** Conflict detection of push and pull *)

Section ConflictFacts.

Variable Date_parse : string -> option Z.
Hypothesis Date_parse_empty : Date_parse "" = None.

Lemma isoNewerThan_true_iff (a b : option string) :
  isoNewerThan Date_parse a b = true <->
  exists ta, parseComparableIso Date_parse a = Some ta
             /\ (parseComparableIso Date_parse b = None
                 \/ exists tb, parseComparableIso Date_parse b = Some tb /\ ta > tb).
Proof.
  unfold isoNewerThan.
  destruct (parseComparableIso Date_parse a) as [ta |],
           (parseComparableIso Date_parse b) as [tb |].
  - rewrite Z.ltb_lt. split.
    + intros Hlt. exists ta. split; [reflexivity |]. right. exists tb. split; [reflexivity | lia].
    + intros (ta' & [= <-] & [[=] | (tb' & [= <-] & Hgt)]). lia.
  - split; [| reflexivity]. intros _. exists ta. split; [reflexivity | left; reflexivity].
  - split; [discriminate |]. intros (ta' & [=] & _).
  - split; [discriminate |]. intros (ta' & [=] & _).
Qed.

Lemma needs_confirm_iff (newer older : option string) :
  truthy newer && isoNewerThan Date_parse newer older = true <->
  exists tn, present_at Date_parse newer tn
             /\ (absent_or_unparsable Date_parse older
                 \/ exists to, present_at Date_parse older to /\ tn > to).
Proof.
  rewrite andb_true_iff, isoNewerThan_true_iff. split.
  - intros (Ht & tn & Hn & Hold). exists tn. split; [split; assumption |].
    destruct Hold as [Hnone | (to & Ho & Hgt)].
    + left. right. exact Hnone.
    + destruct (truthy older) eqn:Hto.
      * right. exists to. repeat split; assumption.
      * left. left. exact Hto.
  - intros (tn & [Ht Hn] & Hold). split; [exact Ht |]. exists tn. split; [exact Hn |].
    destruct Hold as [Hun | (to & [_ Ho] & Hgt)].
    + left. apply unusable_parse; assumption.
    + right. exists to. split; assumption.
Qed.

(** C1 (as the code has it). With local [stateUpdatedAt = T1] and remote
    [updatedAt = T2]: push asks for confirmation exactly when T2 is present
    and parses and T1 is missing, does not parse, or is strictly older;
    pull asks exactly when T1 is present and parses and T2 is missing, does
    not parse, or is strictly older. Equal timestamps, two missing
    timestamps, a push with T2 missing and a pull with T1 missing ask for
    nothing. *)
Theorem conflict_confirmation (T1 T2 : option string) :
  (pushNeedsConfirm Date_parse T1 T2 = true <->
     exists t2, present_at Date_parse T2 t2
                /\ (absent_or_unparsable Date_parse T1
                    \/ exists t1, present_at Date_parse T1 t1 /\ t2 > t1))
  /\ (pullNeedsConfirm Date_parse T1 T2 = true <->
        exists t1, present_at Date_parse T1 t1
                   /\ (absent_or_unparsable Date_parse T2
                       \/ exists t2, present_at Date_parse T2 t2 /\ t1 > t2))
  /\ (parseComparableIso Date_parse T1 = parseComparableIso Date_parse T2 ->
        pushNeedsConfirm Date_parse T1 T2 = false
        /\ pullNeedsConfirm Date_parse T1 T2 = false)
  /\ (absent_or_unparsable Date_parse T2 -> pushNeedsConfirm Date_parse T1 T2 = false)
  /\ (absent_or_unparsable Date_parse T1 -> pullNeedsConfirm Date_parse T1 T2 = false).
Proof.
  split; [apply needs_confirm_iff |]. split; [apply needs_confirm_iff |].
  assert (Hmiss : forall a b, absent_or_unparsable Date_parse a ->
                              truthy a && isoNewerThan Date_parse a b = false).
  { intros a b Ha. apply andb_false_iff. right. unfold isoNewerThan.
    rewrite (unusable_parse _ Date_parse_empty a Ha).
    destruct (parseComparableIso Date_parse b); reflexivity. }
  split; [| split; apply Hmiss].
  intros Heq.
  assert (Hirr : forall a b, parseComparableIso Date_parse a = parseComparableIso Date_parse b ->
                             isoNewerThan Date_parse a b = false).
  { intros a b Hab. unfold isoNewerThan. rewrite Hab.
    destruct (parseComparableIso Date_parse b); [apply Z.ltb_irrefl | reflexivity]. }
  unfold pushNeedsConfirm, pullNeedsConfirm.
  rewrite (Hirr T1 T2 Heq), (Hirr T2 T1 (eq_sym Heq)), !andb_false_r. split; reflexivity.
Qed.

End ConflictFacts.

Lemma conflict_confirmation_witness :
  iso_parse "" = None
  /\ pushNeedsConfirm iso_parse (Some "2024-05-01T10:00:00.000Z")
       (Some "2024-05-01T10:00:00.000Z") = false.
Proof.
  split; [reflexivity |].
  destruct (conflict_confirmation iso_parse eq_refl (Some "2024-05-01T10:00:00.000Z")
              (Some "2024-05-01T10:00:00.000Z")) as (_ & _ & Hsame & _).
  apply Hsame. reflexivity.
Defined.

(** C1 as stated fails: with the local timestamp missing and the remote one
    present, a push asks for confirmation (and is cancelled when it is
    declined); with the remote timestamp missing and the local one present, so
    does a pull. *)
Lemma confirmation_with_a_missing_timestamp :
  stateUpdatedAt noMeta = None
  /\ pushNeedsConfirm iso_parse None (Some "2024-05-01T10:00:00.000Z") = true
  /\ fst (btnPush_click iso_parse dav_form (Response 200 (Some remote_2024_05))
            (Response 204 None) false "2024-05-02T08:00:00.000Z"
            "2024-05-02T08:00:01.000Z" "rid-1" (freshWorld emptyState))
     = Ok (Cancelled "Cancelado (remoto más reciente)")
  /\ pullNeedsConfirm iso_parse (Some "2024-05-01T10:00:00.000Z") None = true.
Proof.
  repeat split; vm_compute; reflexivity.
Qed.

(** ** The store: keys and single requests *)

Lemma state_key_ne_meta : IDB_STATE_KEY ≠ IDB_META_KEY.
Proof. discriminate. Qed.

Lemma snapshot_key_ne_index (id : string) :
  IDB_SNAPSHOT_PREFIX ++ id ≠ IDB_SNAPSHOT_INDEX_KEY.
Proof. discriminate. Qed.

Lemma snapshot_key_ne_meta (id : string) : IDB_SNAPSHOT_PREFIX ++ id ≠ IDB_META_KEY.
Proof. discriminate. Qed.

Lemma snapshot_key_ne_state (id : string) : IDB_SNAPSHOT_PREFIX ++ id ≠ IDB_STATE_KEY.
Proof. discriminate. Qed.

Lemma snapshot_key_inj (id1 id2 : string) :
  IDB_SNAPSHOT_PREFIX ++ id1 = IDB_SNAPSHOT_PREFIX ++ id2 -> id1 = id2.
Proof. apply String.app_inj. Qed.

(** A request on a world where no request fails. *)
Lemma request_ok {A} (act : gmap string doc -> A * gmap string doc) (w : World) :
  faults w = [] ->
  request act w = (Ok (act (idb w)).1, {| live := live w; idb := (act (idb w)).2; faults := [] |}).
Proof.
  intros Hf. unfold request. rewrite Hf. destruct (act (idb w)); reflexivity.
Qed.

(** ** [saveState] *)

Ltac run_requests :=
  unfold saveState, getMeta, setMeta, idbSet, idbGet, idbDelete, request, try_catch, bind, ret;
  cbn [faults idb live fst snd].

(** When its first request succeeds, [saveState] succeeds and the state
    document is stored. *)
Lemma saveState_stores (state : State) (options : SaveOptions) (now rid : string) (w : World) :
  head (faults w) ≠ Some true ->
  (saveState state options now rid w).1 = Ok tt
  /\ idb (saveState state options now rid w).2 !! IDB_STATE_KEY = Some (DState state).
Proof.
  destruct w as [l m fs]. cbn [faults]. intros Hhead.
  assert (Hstate : forall (v d : doc),
             <[IDB_META_KEY := d]> (<[IDB_STATE_KEY := v]> m) !! IDB_STATE_KEY = Some v).
  { intros v d. rewrite lookup_insert_ne by (apply not_eq_sym, state_key_ne_meta).
    apply lookup_insert_eq. }
  destruct fs as [| [|] [| [|] [| [|] fs]]]; run_requests;
    try (exfalso; apply Hhead; reflexivity);
    rewrite ?Hstate, ?lookup_insert_eq; split; reflexivity.
Qed.

(** C6. [saveState] writes the state document with its first request; if
    that request succeeds the call succeeds with the document stored,
    whatever happens to the requests on the metadata record. When those
    succeed too, the record carries [stateUpdatedAt], [stateUpdatedBy] and
    [stateUpdatedSource] from the options, and the current time, the device
    id and ["local"] where an option is missing. *)
Theorem saveState_state_first (state : State) (options : SaveOptions) (now rid : string)
    (w : World) :
  head (faults w) ≠ Some true ->
  let (r, w') := saveState state options now rid w in
  r = Ok tt
  /\ idb w' !! IDB_STATE_KEY = Some (DState state)
  /\ live w' = live w
  /\ (Forall (fun f => f = false) (take 3 (faults w)) ->
      let meta' := metaOf (idb w') in
      let device := if truthy (deviceId (metaOf (idb w))) then deviceId (metaOf (idb w))
                    else Some rid in
      deviceId meta' = device
      /\ stateUpdatedAt meta' =
           (if truthy (updatedAt options) then updatedAt options else Some now)
      /\ stateUpdatedBy meta' =
           (if truthy (updatedBy options) then updatedBy options else device)
      /\ stateUpdatedSource meta' =
           (if truthy (source options) then source options else Some "local")).
Proof.
  destruct w as [l m fs]. cbn [faults]. intros Hhead.
  assert (Hmeta : forall (v : doc) (mt : Meta),
             metaOf (<[IDB_META_KEY := DMeta mt]> (<[IDB_STATE_KEY := v]> m)) = mt).
  { intros v mt. unfold metaOf. rewrite lookup_insert_eq. reflexivity. }
  assert (Hold : forall v : doc, metaOf (<[IDB_STATE_KEY := v]> m) = metaOf m).
  { intros v. unfold metaOf. rewrite lookup_insert_ne by apply state_key_ne_meta. reflexivity. }
  assert (Hget : forall v : doc,
             match <[IDB_STATE_KEY := v]> m !! IDB_META_KEY with
             | Some (DMeta meta) => meta
             | _ => noMeta
             end = metaOf m).
  { intros v. rewrite <- (Hold v). reflexivity. }
  assert (Hstate : forall (v d : doc),
             <[IDB_META_KEY := d]> (<[IDB_STATE_KEY := v]> m) !! IDB_STATE_KEY = Some v).
  { intros v d. rewrite lookup_insert_ne by (apply not_eq_sym, state_key_ne_meta).
    apply lookup_insert_eq. }
  assert (Hfail : forall fs', ~ Forall (fun f => f = false) (take 3 (false :: true :: fs'))).
  { intros fs' Hall. cbn in Hall. apply Forall_cons in Hall as [_ Hall].
    apply Forall_cons in Hall as [Hbad _]. discriminate. }
  assert (Hfail' : forall fs',
             ~ Forall (fun f => f = false) (take 3 (false :: false :: true :: fs'))).
  { intros fs' Hall. cbn in Hall. apply Forall_cons in Hall as [_ Hall].
    apply Forall_cons in Hall as [_ Hall]. apply Forall_cons in Hall as [Hbad _].
    discriminate. }
  destruct fs as [| [|] fs]; [| exfalso; apply Hhead; reflexivity |].
  - run_requests. rewrite Hget, Hstate, Hmeta.
    refine (conj eq_refl (conj eq_refl (conj eq_refl _))). intros _.
    refine (conj eq_refl (conj eq_refl (conj eq_refl eq_refl))).
  - destruct fs as [| [|] fs].
    + run_requests. rewrite Hget, Hstate, Hmeta.
      refine (conj eq_refl (conj eq_refl (conj eq_refl _))). intros _.
      refine (conj eq_refl (conj eq_refl (conj eq_refl eq_refl))).
    + run_requests. rewrite lookup_insert_eq.
      refine (conj eq_refl (conj eq_refl (conj eq_refl _))).
      intros Hall. destruct (Hfail _ Hall).
    + destruct fs as [| [|] fs].
      * run_requests. rewrite Hget, Hstate, Hmeta.
        refine (conj eq_refl (conj eq_refl (conj eq_refl _))). intros _.
        refine (conj eq_refl (conj eq_refl (conj eq_refl eq_refl))).
      * run_requests. rewrite lookup_insert_eq.
        refine (conj eq_refl (conj eq_refl (conj eq_refl _))).
        intros Hall. destruct (Hfail' _ Hall).
      * run_requests. rewrite Hget, Hstate, Hmeta.
        refine (conj eq_refl (conj eq_refl (conj eq_refl _))). intros _.
        refine (conj eq_refl (conj eq_refl (conj eq_refl eq_refl))).
Qed.

Lemma saveState_state_first_witness :
  head (faults (freshWorld emptyState)) ≠ Some true
  /\ stateUpdatedSource
       (metaOf (idb (saveState emptyState noOptions "2024-05-01T10:00:00.000Z" "rid-1"
                       (freshWorld emptyState)).2)) = Some "local".
Proof.
  split; [discriminate |].
  pose proof (saveState_state_first emptyState noOptions "2024-05-01T10:00:00.000Z" "rid-1"
                (freshWorld emptyState)) as P.
  destruct (saveState emptyState noOptions "2024-05-01T10:00:00.000Z" "rid-1"
              (freshWorld emptyState)) as [r w'].
  destruct P as (_ & _ & _ & P); [discriminate |].
  apply P. cbn. constructor.
Defined.

(** ** Snapshot engine *)

(** Without a failing request the loop keeps the first [MAX_SNAPSHOTS]
    entries and deletes the bodies of the others; the fuel
    [createSnapshot] gives is enough. *)
Lemma trimLoop_ok (fuel : nat) (idx : list SnapshotEntry) (w : World) :
  faults w = [] ->
  (length idx - MAX_SNAPSHOTS <= fuel)%nat ->
  trimLoop fuel idx w =
    (Ok (take MAX_SNAPSHOTS idx),
     {| live := live w; idb := purge (drop MAX_SNAPSHOTS idx) (idb w); faults := [] |}).
Proof.
  revert idx w. induction fuel as [| fuel IH]; intros idx w Hf Hfuel.
  - cbn [trimLoop]. unfold ret.
    rewrite take_ge, drop_ge by lia. destruct w; cbn in *; subst; reflexivity.
  - cbn [trimLoop]. destruct (Nat.ltb_spec MAX_SNAPSHOTS (length idx)) as [Hlong | Hshort].
    + destruct (exists_last (l := idx)) as (idx' & r & ->).
      { intros ->. cbn in Hlong. lia. }
      rewrite length_app in Hlong, Hfuel. cbn [length] in Hlong, Hfuel.
      unfold pop. rewrite last_snoc, removelast_last.
      rewrite take_app_le, drop_app_le by lia.
      unfold purge at 1. rewrite foldr_app. cbn [foldr].
      destruct (negb (String.eqb (ent_id r) "")).
      * unfold bind, try_catch, idbDelete. rewrite request_ok by exact Hf. cbn [fst snd].
        rewrite IH by (cbn; lia || reflexivity). reflexivity.
      * unfold bind, ret. rewrite IH by (lia || assumption).
        reflexivity.
    + unfold ret. rewrite take_ge, drop_ge by lia.
      destruct w; cbn in *; subst; reflexivity.
Qed.

Lemma createSnapshot_ok (c : SnapshotCall) (w : World) :
  faults w = [] ->
  createSnapshot (call_state c) (call_reason c) (call_now c) w =
    (Ok (snapshotOf c),
     {| live := live w;
        idb := <[IDB_SNAPSHOT_INDEX_KEY :=
                   DIndex (take MAX_SNAPSHOTS (entryOf c :: indexOf (idb w)))]>
                 (purge (drop MAX_SNAPSHOTS (entryOf c :: indexOf (idb w)))
                    (<[IDB_SNAPSHOT_PREFIX ++ call_now c := DSnapshot (snapshotOf c)]> (idb w)));
        faults := [] |}).
Proof.
  intros Hf. unfold createSnapshot, listSnapshots, idbSet, idbGet, bind.
  rewrite request_ok by exact Hf. cbn [fst snd].
  rewrite request_ok by reflexivity. cbn [fst snd idb live faults]. unfold ret at 1.
  rewrite lookup_insert_ne by apply snapshot_key_ne_index.
  fold (indexOf (idb w)). fold (snapshotOf c). fold (entryOf c).
  rewrite trimLoop_ok by (reflexivity || cbn; lia).
  rewrite request_ok by reflexivity. reflexivity.
Qed.

Section Retention.

(** The index keeps [S n] entries. *)
Variable n : nat.

Lemma trimmed_entries {A} (l : list A) :
  drop n (take (S n) l) = match l !! n with Some e => [e] | None => [] end.
Proof.
  destruct (l !! n) as [e |] eqn:Hn.
  - rewrite (drop_S _ e) by (rewrite lookup_take_lt by lia; exact Hn).
    rewrite drop_ge by (rewrite length_take; lia). reflexivity.
  - apply lookup_ge_None in Hn. apply drop_ge. rewrite length_take. lia.
Qed.

Lemma snapshotKey_inj (c1 c2 : SnapshotCall) :
  snapshotKey c1 = snapshotKey c2 -> call_now c1 = call_now c2.
Proof. apply snapshot_key_inj. Qed.

(** One more call on a store that satisfies [retained]. *)
Lemma retained_step (recent : list SnapshotCall) (c : SnapshotCall) (m : gmap string doc) :
  NoDup (call_now <$> c :: recent) ->
  Forall (fun c => call_now c ≠ "") (c :: recent) ->
  retained (S n) recent m ->
  retained (S n) (c :: recent)
    (<[IDB_SNAPSHOT_INDEX_KEY := DIndex (take (S n) (entryOf c :: indexOf m))]>
       (purge (drop (S n) (entryOf c :: indexOf m))
          (<[snapshotKey c := DSnapshot (snapshotOf c)]> m))).
Proof.
  intros Hnd Hne (Hidx & Hkept & Hgone).
  rewrite fmap_cons in Hnd. apply NoDup_cons in Hnd as [Hfresh Hnd].
  apply Forall_cons in Hne as [_ Hne].
  assert (Hother : forall c', c' ∈ recent -> snapshotKey c ≠ snapshotKey c').
  { intros c' Hin Heq. apply Hfresh. rewrite (snapshotKey_inj _ _ Heq).
    apply list_elem_of_fmap_2. exact Hin. }
  rewrite Hidx.
  change (drop (S n) (entryOf c :: take (S n) (entryOf <$> recent)))
    with (drop n (take (S n) (entryOf <$> recent))).
  change (take (S n) (entryOf c :: take (S n) (entryOf <$> recent)))
    with (entryOf c :: take n (take (S n) (entryOf <$> recent))).
  rewrite take_take, Nat.min_l by lia.
  rewrite trimmed_entries, list_lookup_fmap.
  split; [| split].
  - unfold indexOf. rewrite lookup_insert_eq. reflexivity.
  - intros c' Hin. unfold snapshotKey at 1.
    rewrite lookup_insert_ne by (apply not_eq_sym, snapshot_key_ne_index).
    fold (snapshotKey c').
    change (take (S n) (c :: recent)) with (c :: take n recent) in Hin.
    apply elem_of_cons in Hin as [-> | Hin].
    + destruct (recent !! n) as [x |] eqn:Hx; cbn [fmap option_fmap option_map purge foldr].
      * apply Forall_lookup_1 with (i := n) (x := x) in Hne as Hxne; [| exact Hx].
        cbn [entryOf ent_id]. destruct (String.eqb_spec (call_now x) "") as [| _]; [done |].
        cbn [negb]. fold (snapshotKey x).
        rewrite lookup_delete_ne
          by (apply not_eq_sym, Hother, (list_elem_of_lookup_2 _ n), Hx).
        apply lookup_insert_eq.
      * apply lookup_insert_eq.
    + apply elem_of_take in Hin as (i & Hi & Hlt).
      assert (Hc' : c' ∈ recent) by (apply (list_elem_of_lookup_2 _ i), Hi).
      assert (Hold : m !! snapshotKey c' = Some (DSnapshot (snapshotOf c'))).
      { apply Hkept, elem_of_take. exists i. split; [exact Hi | lia]. }
      destruct (recent !! n) as [x |] eqn:Hx; cbn [fmap option_fmap option_map purge foldr].
      * apply Forall_lookup_1 with (i := n) (x := x) in Hne as Hxne; [| exact Hx].
        cbn [entryOf ent_id]. destruct (String.eqb_spec (call_now x) "") as [| _]; [done |].
        cbn [negb]. fold (snapshotKey x).
        rewrite lookup_delete_ne.
        -- rewrite lookup_insert_ne by (apply Hother, Hc'). exact Hold.
        -- intros Heq. apply snapshotKey_inj in Heq.
           assert (n = i); [| lia].
           apply (NoDup_lookup _ _ _ (call_now x) Hnd); rewrite list_lookup_fmap.
           ++ rewrite Hx. reflexivity.
           ++ rewrite Hi. cbn. f_equal. symmetry. exact Heq.
      * rewrite lookup_insert_ne by (apply Hother, Hc'). exact Hold.
  - intros c' Hin. unfold snapshotKey at 1.
    rewrite lookup_insert_ne by (apply not_eq_sym, snapshot_key_ne_index).
    fold (snapshotKey c').
    change (drop (S n) (c :: recent)) with (drop n recent) in Hin.
    destruct (recent !! n) as [x |] eqn:Hx; cbn [fmap option_fmap option_map purge foldr].
    + apply Forall_lookup_1 with (i := n) (x := x) in Hne as Hxne; [| exact Hx].
      cbn [entryOf ent_id]. destruct (String.eqb_spec (call_now x) "") as [| _]; [done |].
      cbn [negb]. fold (snapshotKey x).
      rewrite (drop_S _ x) in Hin by exact Hx.
      apply elem_of_cons in Hin as [-> | Hin]; [apply lookup_delete_eq |].
      destruct (decide (snapshotKey x = snapshotKey c')) as [-> | Hk];
        [apply lookup_delete_eq |].
      rewrite lookup_delete_ne by exact Hk.
      rewrite lookup_insert_ne by (apply Hother, (subseteq_drop (S n) recent), Hin).
      apply Hgone, Hin.
    + apply lookup_ge_None in Hx. rewrite drop_ge in Hin by lia.
      apply elem_of_nil in Hin. destruct Hin.
Qed.

End Retention.

Lemma createSnapshots_snoc (calls : list SnapshotCall) (c : SnapshotCall) (w : World) :
  createSnapshots (calls ++ [c]) w =
    match createSnapshots calls w with
    | (Ok _, w1) => createSnapshots [c] w1
    | (Throw e, w1) => (Throw e, w1)
    end.
Proof.
  revert w. induction calls as [| c0 calls IH]; intros w; [reflexivity |].
  cbn [createSnapshots app]. unfold bind.
  destruct (createSnapshot (call_state c0) (call_reason c0) (call_now c0) w) as [[a | e] w0].
  - rewrite IH. reflexivity.
  - reflexivity.
Qed.

(** The calls of a sequence all succeed when no request fails, and leave the
    store as [retained] describes. *)
Lemma createSnapshots_retained (calls : list SnapshotCall) (w : World) :
  faults w = [] ->
  indexOf (idb w) = [] ->
  NoDup (call_now <$> calls) ->
  Forall (fun c => call_now c ≠ "") calls ->
  exists w', createSnapshots calls w = (Ok tt, w')
             /\ faults w' = [] /\ live w' = live w
             /\ retained MAX_SNAPSHOTS (reverse calls) (idb w').
Proof.
  intros Hf Hidx. induction calls as [| c calls IH] using rev_ind; intros Hnd Hne.
  - exists w. repeat split; try assumption; intros c Hc; apply elem_of_nil in Hc; destruct Hc.
  - rewrite fmap_app in Hnd. apply NoDup_app in Hnd as (Hnd & Hfresh & _).
    apply Forall_app in Hne as [Hne Hc].
    destruct (IH Hnd Hne) as (w1 & Hrun & Hf1 & Hlive & Hret).
    rewrite createSnapshots_snoc, Hrun. cbn [createSnapshots]. unfold bind, ret.
    rewrite createSnapshot_ok by exact Hf1.
    eexists. split; [reflexivity |]. cbn [faults live idb].
    split; [reflexivity |]. split; [exact Hlive |].
    rewrite reverse_snoc.
    apply (retained_step 19).
    + rewrite fmap_cons. apply NoDup_cons. split.
      * intros Hin. apply list_elem_of_fmap in Hin as (c' & Heq & Hc').
        apply (Hfresh (call_now c)).
        -- rewrite Heq. apply list_elem_of_fmap_2, elem_of_reverse, Hc'.
        -- cbn. apply list_elem_of_singleton. reflexivity.
      * rewrite fmap_reverse, reverse_Permutation. exact Hnd.
    + apply Forall_cons. split.
      * exact (proj1 (Forall_singleton _ _) Hc).
      * apply Forall_reverse, Hne.
    + exact Hret.
Qed.

(** C3. From a store without a snapshot index and with no failing request,
    after any sequence of [createSnapshot] calls at distinct times the index
    has [min N 20] entries, lists the newest calls first with the last call
    at its head, the bodies of the 20 newest calls are stored and the bodies
    of the older calls are gone. *)
Theorem snapshot_retention (calls : list SnapshotCall) (w : World) :
  faults w = [] ->
  indexOf (idb w) = [] ->
  NoDup (call_now <$> calls) ->
  Forall (fun c => call_now c ≠ "") calls ->
  let (r, w') := createSnapshots calls w in
  r = Ok tt
  /\ length (indexOf (idb w')) = Nat.min (length calls) MAX_SNAPSHOTS
  /\ indexOf (idb w') = take MAX_SNAPSHOTS (entryOf <$> reverse calls)
  /\ head (indexOf (idb w')) = entryOf <$> last calls
  /\ (forall c, c ∈ take MAX_SNAPSHOTS (reverse calls) ->
        idb w' !! (IDB_SNAPSHOT_PREFIX ++ call_now c) = Some (DSnapshot (snapshotOf c)))
  /\ (forall c, c ∈ drop MAX_SNAPSHOTS (reverse calls) ->
        idb w' !! (IDB_SNAPSHOT_PREFIX ++ call_now c) = None).
Proof.
  intros Hf Hidx Hnd Hne.
  destruct (createSnapshots_retained calls w Hf Hidx Hnd Hne)
    as (w' & -> & _ & _ & Hindex & Hkept & Hgone).
  split; [reflexivity |]. split; [| split; [exact Hindex | split; [| split]]].
  - rewrite Hindex, length_take, length_fmap, length_reverse. lia.
  - rewrite Hindex. destruct calls as [| c calls] using rev_ind; [reflexivity |].
    rewrite reverse_snoc, last_snoc. reflexivity.
  - exact Hkept.
  - exact Hgone.
Qed.

Lemma snapshot_retention_witness :
  faults (freshWorld emptyState) = []
  /\ indexOf (idb (freshWorld emptyState)) = []
  /\ NoDup (call_now <$> sampleCalls)
  /\ Forall (fun c => call_now c ≠ "") sampleCalls
  /\ length (indexOf (idb (createSnapshots sampleCalls (freshWorld emptyState)).2)) = 20%nat.
Proof.
  assert (Hnd : NoDup (call_now <$> sampleCalls)).
  { compute_done. }
  assert (Hne : Forall (fun c => call_now c ≠ "") sampleCalls).
  { compute_done. }
  split; [reflexivity |]. split; [reflexivity |]. split; [exact Hnd |]. split; [exact Hne |].
  pose proof (snapshot_retention sampleCalls (freshWorld emptyState) eq_refl eq_refl Hnd Hne) as P.
  destruct (createSnapshots sampleCalls (freshWorld emptyState)) as [r w'].
  destruct P as (_ & Hlen & _). exact Hlen.
Defined.

(** ** Daily snapshot *)

Lemma purge_lookup_other (removed : list SnapshotEntry) (m : gmap string doc) (k : string) :
  (forall r, r ∈ removed -> IDB_SNAPSHOT_PREFIX ++ ent_id r ≠ k) ->
  purge removed m !! k = m !! k.
Proof.
  induction removed as [| r removed IH]; intros Hk; [reflexivity |].
  cbn [purge foldr]. fold (purge removed m).
  assert (Hrest : purge removed m !! k = m !! k).
  { apply IH. intros r' Hr'. apply Hk. apply elem_of_cons. right. exact Hr'. }
  destruct (negb (String.eqb (ent_id r) "")); [| exact Hrest].
  rewrite lookup_delete_ne; [exact Hrest |]. apply Hk, elem_of_cons. left. reflexivity.
Qed.

Lemma index_key_ne_meta : IDB_SNAPSHOT_INDEX_KEY ≠ IDB_META_KEY.
Proof. discriminate. Qed.

Lemma ensureDaily_empty (state : State) (nowDay nowSnap : string) (w : World) :
  isStateEmpty state = true ->
  ensureDailySnapshot state nowDay nowSnap w = (Ok tt, w).
Proof.
  intros Hempty. unfold ensureDailySnapshot. rewrite Hempty. reflexivity.
Qed.

(** The first daily snapshot of a day, when no request fails. *)
Lemma ensureDaily_first (state : State) (nowDay nowSnap : string) (w : World) :
  let c := {| call_state := state; call_reason := "auto-diario"; call_now := nowSnap |} in
  let today := substring 0 10 nowDay in
  isStateEmpty state = false ->
  faults w = [] ->
  lastSnapshotDay (metaOf (idb w)) ≠ Some today ->
  ensureDailySnapshot state nowDay nowSnap w =
    (Ok tt,
     {| live := live w;
        idb := <[IDB_META_KEY := DMeta (set_lastSnapshotDay (Some today) (metaOf (idb w)))]>
                 (<[IDB_SNAPSHOT_INDEX_KEY :=
                      DIndex (take MAX_SNAPSHOTS (entryOf c :: indexOf (idb w)))]>
                    (purge (drop MAX_SNAPSHOTS (entryOf c :: indexOf (idb w)))
                       (<[IDB_SNAPSHOT_PREFIX ++ nowSnap := DSnapshot (snapshotOf c)]> (idb w))));
        faults := [] |}).
Proof.
  intros c today Hne Hf Hday. unfold ensureDailySnapshot. rewrite Hne.
  unfold getMeta, setMeta, idbGet, idbSet, bind at 1 2.
  rewrite request_ok by exact Hf. cbn [fst snd]. unfold ret at 1.
  fold (metaOf (idb w)). fold today.
  rewrite bool_decide_eq_false_2 by exact Hday.
  unfold bind.
  rewrite (createSnapshot_ok c) by reflexivity.
  rewrite request_ok by reflexivity. reflexivity.
Qed.

(** The next call on the same day does nothing. *)
Lemma ensureDaily_again (state : State) (nowDay nowSnap : string) (w : World) :
  faults w = [] ->
  lastSnapshotDay (metaOf (idb w)) = Some (substring 0 10 nowDay) ->
  ensureDailySnapshot state nowDay nowSnap w = (Ok tt, w).
Proof.
  intros Hf Hday. unfold ensureDailySnapshot.
  destruct (isStateEmpty state); [reflexivity |].
  unfold getMeta, idbGet, bind. rewrite request_ok by exact Hf. cbn [fst snd].
  unfold ret at 1. fold (metaOf (idb w)).
  rewrite bool_decide_eq_true_2 by exact Hday.
  unfold ret. destruct w as [l m fs]. cbn in Hf. subst fs. reflexivity.
Qed.

(** What [ensureDailySnapshot] does guarantee. On an empty ledger it does
    nothing. On a ledger that is not empty, when no request fails
    ([faults w = []]), the id of the new snapshot is not in the index yet and
    no daily snapshot was taken on the UTC date of the first call, two calls
    whose clock readings have the same UTC date (the first ten characters of
    [toISOString()]) create one snapshot, with the reason ["auto-diario"]:
    the second call leaves the world as the first one left it. The day is
    the UTC one, not the local one. *)
Theorem ensureDaily_once_per_utc_day (state : State) (day1 snap1 day2 snap2 : string)
    (w : World) :
  (isStateEmpty state = true -> ensureDailySnapshot state day1 snap1 w = (Ok tt, w))
  /\ (isStateEmpty state = false ->
      faults w = [] ->
      lastSnapshotDay (metaOf (idb w)) ≠ Some (substring 0 10 day1) ->
      snap1 ∉ ent_id <$> indexOf (idb w) ->
      substring 0 10 day1 = substring 0 10 day2 ->
      let (r1, w1) := ensureDailySnapshot state day1 snap1 w in
      let (r2, w2) := ensureDailySnapshot state day2 snap2 w1 in
      let entry := {| ent_id := snap1; ent_at := snap1; ent_reason := "auto-diario" |} in
      r1 = Ok tt /\ r2 = Ok tt /\ w2 = w1
      /\ indexOf (idb w1) = take MAX_SNAPSHOTS (entry :: indexOf (idb w))
      /\ idb w1 !! (IDB_SNAPSHOT_PREFIX ++ snap1) =
           Some (DSnapshot {| snap_id := snap1; snap_at := snap1;
                              snap_reason := "auto-diario"; snap_state := state |})
      /\ lastSnapshotDay (metaOf (idb w1)) = Some (substring 0 10 day1)
      /\ live w1 = live w).
Proof.
  split; [apply ensureDaily_empty |].
  intros Hne Hf Hday Hfresh Hsame.
  rewrite ensureDaily_first by assumption.
  rewrite ensureDaily_again.
  - split; [reflexivity |]. split; [reflexivity |]. split; [reflexivity |].
    cbn [idb live]. split; [| split; [| split]].
    + unfold indexOf at 1.
      rewrite lookup_insert_ne by (apply not_eq_sym, index_key_ne_meta).
      rewrite lookup_insert_eq. reflexivity.
    + rewrite lookup_insert_ne by (apply not_eq_sym, snapshot_key_ne_meta).
      rewrite lookup_insert_ne by (apply not_eq_sym, snapshot_key_ne_index).
      rewrite purge_lookup_other; [apply lookup_insert_eq |].
      intros r Hr Heq. apply snapshot_key_inj in Heq. apply Hfresh.
      apply list_elem_of_fmap. exists r. split; [symmetry; exact Heq |].
      change (drop MAX_SNAPSHOTS (?e :: ?l)) with (drop 19 l) in Hr.
      apply (subseteq_drop 19 _ _ Hr).
    + unfold metaOf at 1. rewrite lookup_insert_eq. reflexivity.
    + reflexivity.
  - reflexivity.
  - cbn [idb]. unfold metaOf at 1. rewrite lookup_insert_eq. cbn. f_equal. exact Hsame.
Qed.

Lemma ensureDaily_once_per_utc_day_witness :
  isStateEmpty sodaState = false
  /\ substring 0 10 "2024-01-01T09:00:00.000Z" = substring 0 10 "2024-01-01T21:30:00.000Z"
  /\ indexOf (idb (ensureDailySnapshot sodaState "2024-01-01T21:30:00.000Z"
                     "2024-01-01T21:30:00.004Z"
                     (ensureDailySnapshot sodaState "2024-01-01T09:00:00.000Z"
                        "2024-01-01T09:00:00.003Z" (freshWorld sodaState)).2).2)
     = [{| ent_id := "2024-01-01T09:00:00.003Z"; ent_at := "2024-01-01T09:00:00.003Z";
           ent_reason := "auto-diario" |}].
Proof.
  split; [reflexivity |]. split; [reflexivity |].
  destruct (ensureDaily_once_per_utc_day sodaState "2024-01-01T09:00:00.000Z"
              "2024-01-01T09:00:00.003Z" "2024-01-01T21:30:00.000Z"
              "2024-01-01T21:30:00.004Z" (freshWorld sodaState)) as [_ P].
  specialize (P eq_refl eq_refl).
  assert (Hday : lastSnapshotDay (metaOf (idb (freshWorld sodaState)))
                 ≠ Some (substring 0 10 "2024-01-01T09:00:00.000Z")) by discriminate.
  assert (Hfresh : "2024-01-01T09:00:00.003Z" ∉ ent_id <$> indexOf (idb (freshWorld sodaState))).
  { apply not_elem_of_nil. }
  specialize (P Hday Hfresh eq_refl).
  destruct (ensureDailySnapshot sodaState "2024-01-01T09:00:00.000Z"
              "2024-01-01T09:00:00.003Z" (freshWorld sodaState)) as [r1 w1].
  cbn [snd].
  destruct (ensureDailySnapshot sodaState "2024-01-01T21:30:00.000Z"
              "2024-01-01T21:30:00.004Z" w1) as [r2 w2].
  cbn [snd].
  destruct P as (_ & _ & -> & Hindex & _). exact Hindex.
Defined.

(** C4. [ensureDailySnapshot] on an empty ledger creates no snapshot and
    changes nothing, as specified. But the day it compares is not the local
    one: line 334 takes the first ten characters of [toISOString()], the UTC
    date. 17:00 and 19:00 of 1 January 2024 in Guatemala (UTC-6) are one
    local calendar day and two UTC dates, and two calls at these times on a
    ledger that is not empty, with no failing request, create two
    ["auto-diario"] snapshots where the specification allows one. *)
Theorem two_daily_snapshots_on_one_local_day :
  (forall state day snap w,
     isStateEmpty state = true -> ensureDailySnapshot state day snap w = (Ok tt, w))
  /\ localCalendarDay guatemala "2024-01-01T23:00:00.000Z" = Some 19723
  /\ localCalendarDay guatemala "2024-01-02T01:00:00.000Z" = Some 19723
  /\ substring 0 10 "2024-01-01T23:00:00.000Z" ≠ substring 0 10 "2024-01-02T01:00:00.000Z"
  /\ isStateEmpty sodaState = false
  /\ faults (freshWorld sodaState) = []
  /\ indexOf (idb (freshWorld sodaState)) = []
  /\ indexOf (idb (ensureDailySnapshot sodaState "2024-01-02T01:00:00.000Z"
                     "2024-01-02T01:00:00.004Z"
                     (ensureDailySnapshot sodaState "2024-01-01T23:00:00.000Z"
                        "2024-01-01T23:00:00.003Z" (freshWorld sodaState)).2).2)
     = [{| ent_id := "2024-01-02T01:00:00.004Z"; ent_at := "2024-01-02T01:00:00.004Z";
           ent_reason := "auto-diario" |};
        {| ent_id := "2024-01-01T23:00:00.003Z"; ent_at := "2024-01-01T23:00:00.003Z";
           ent_reason := "auto-diario" |}].
Proof.
  split; [intros state day snap w; apply ensureDaily_empty |].
  repeat split; try (vm_compute; reflexivity). vm_compute. discriminate.
Qed.

(** Without the hypothesis on the requests: when the write of the metadata
    record at the end of the first call is rejected, [lastSnapshotDay] stays
    unset and a second call on the same UTC date takes a second snapshot. *)
Example rejected_setMeta_repeats_the_daily_snapshot :
  let w := {| live := sodaState; idb := ∅; faults := [false; false; false; false; true] |} in
  let (r1, w1) := ensureDailySnapshot sodaState "2024-01-01T09:00:00.000Z"
                    "2024-01-01T09:00:00.003Z" w in
  let (r2, w2) := ensureDailySnapshot sodaState "2024-01-01T21:30:00.000Z"
                    "2024-01-01T21:30:00.004Z" w1 in
  r1 = Throw "IDBRequest error"
  /\ r2 = Ok tt
  /\ ent_id <$> indexOf (idb w2) = ["2024-01-01T21:30:00.004Z"; "2024-01-01T09:00:00.003Z"].
Proof. vm_compute. repeat split; reflexivity. Qed.

(** ** Pull of a document with the wrong shape *)


Lemma sync_key_ne_meta : IDB_SYNC_KEY ≠ IDB_META_KEY.
Proof. discriminate. Qed.




(** ** The ledger handlers *)

Lemma saveState_live (state : State) (options : SaveOptions) (now rid : string) (w : World) :
  live (saveState state options now rid w).2 = live w.
Proof.
  destruct w as [l m fs].
  destruct fs as [| [|] [| [|] [| [|] fs]]]; run_requests; reflexivity.
Qed.

Lemma find_first_split {A} (pred : A -> bool) (f : A -> A) (l : list A) (x : A) :
  find_first pred l = Some x ->
  exists before after,
    l = (before ++ x :: after)%list
    /\ update_first pred f l = (before ++ f x :: after)%list
    /\ Forall (fun y => pred y = false) before
    /\ pred x = true.
Proof.
  induction l as [| y l IH]; [discriminate |].
  cbn [find_first update_first]. destruct (pred y) eqn:Hy.
  - intros [= ->]. exists [], l. repeat split; [constructor | exact Hy].
  - intros Hfind. destruct (IH Hfind) as (before & after & -> & Hupd & Hbefore & Hx).
    exists (y :: before), after. rewrite Hupd. repeat split; [| exact Hx].
    constructor; assumption.
Qed.

Section LedgerFacts.

Variable sortByName : list Product -> list Product.
Hypothesis sortByName_perm : forall l, sortByName l ≡ₚ l.

(** What [saveState] followed by [rerender] leaves in the [state] variable:
    the ledger that was saved, its products possibly in another order. *)
Lemma save_then_rerender (state' : State) (note : Notice) (nowSave rid : string) (w : World) :
  live w = state' ->
  let (r, w') := (let! _ := saveState state' noOptions nowSave rid in
                  let! _ := rerender sortByName in
                  ret note) w in
  products (live w') ≡ₚ products state'
  /\ sales (live w') = sales state'
  /\ expenses (live w') = expenses state'
  /\ tables (live w') = tables state'
  /\ version (live w') = version state'
  /\ business (live w') = business state'.
Proof.
  intros Hlive. unfold bind.
  pose proof (saveState_live state' noOptions nowSave rid w) as Hsaved.
  destruct (saveState state' noOptions nowSave rid w) as [[[] | e] w1]; cbn [snd] in Hsaved.
  - unfold rerender, bind, getLive, setLive, ret, set_live. cbn [live].
    rewrite Hsaved, Hlive. cbn [set_products products sales expenses tables version business].
    split; [apply sortByName_perm |]. repeat split.
  - rewrite Hsaved, Hlive. repeat split; reflexivity.
Qed.

(** C8. A sale of [qty] units of the product the form selects, when its
    stock is at least [qty], appends a sale with the product's price and
    cost as unit price and unit cost, [total = qty * unitPrice] and
    [profit = qty * (unitPrice - unitCost)] in the arithmetic of the
    language (each operation rounded to the nearest double, so the exact
    product whenever that is a double), and replaces the product by one
    whose stock is [stock - qty] and whose other fields are the same;
    nothing else in the ledger changes. When the stock is lower than [qty]
    the sale is refused and nothing changes. *)
Theorem sale_recorded (productId_ : Z) (qtyField : jsnum) (notesField : string)
    (now rnd_ : Z) (nowIso nowSave rid : string) (w : World) (p : Product) :
  let qty_ := clampInt qtyField 1 1000000 in
  find_first (fun x => p_id x =? productId_) (products (live w)) = Some p ->
  let (r, w') := saleForm_submit sortByName productId_ qtyField notesField now rnd_
                   nowIso nowSave rid w in
  (stock p < qty_ -> r = Ok (Toast "Stock insuficiente") /\ w' = w)
  /\ (qty_ <= stock p ->
      exists sale sold before after,
        sales (live w') = (sales (live w) ++ [sale])%list
        /\ qty sale = qty_ /\ productId sale = p_id p
        /\ unitPrice sale = price p /\ unitCost sale = cost p
        /\ total sale = num_mul (Finite (inject_Z qty_)) (Finite (price p))
        /\ profit sale
           = num_mul (Finite (inject_Z qty_)) (num_sub (Finite (price p)) (Finite (cost p)))
        /\ (forall exact : Q,
              is_double (price p) -> is_double exact ->
              (exact == inject_Z qty_ * price p)%Q -> total sale = Finite exact)
        /\ (forall margin exact : Q,
              is_double (price p) -> is_double (cost p) ->
              is_double margin -> (margin == price p - cost p)%Q ->
              is_double exact -> (exact == inject_Z qty_ * margin)%Q ->
              profit sale = Finite exact)
        /\ products (live w) = (before ++ p :: after)%list
        /\ products (live w') ≡ₚ (before ++ sold :: after)%list
        /\ stock sold = int_sub (stock p) qty_
        /\ (stock p <= 2 ^ 53 -> stock sold = stock p - qty_)
        /\ p_id sold = p_id p /\ p_name sold = p_name p /\ category sold = category p
        /\ cost sold = cost p /\ price sold = price p /\ stockMin sold = stockMin p
        /\ expenses (live w') = expenses (live w)
        /\ tables (live w') = tables (live w)).
Proof.
  intros qty_ Hfind. unfold saleForm_submit, bind at 1, getLive. rewrite Hfind.
  fold qty_. destruct (Z.ltb_spec (stock p) qty_) as [Hlow | Henough].
  - split; [intros _; split; reflexivity | lia].
  - destruct (find_first_split _ (fun x => set_stock (int_sub (stock x) qty_) x) _ _ Hfind)
      as (before & after & Hsplit & Hupd & _ & _).
    unfold bind at 1, setLive. rewrite Hupd.
    match goal with
    | |- context [set_live ?s w] =>
        pose proof (save_then_rerender s (Toast "Venta registrada") nowSave rid
                      (set_live s w) eq_refl) as Hrun
    end.
    match type of Hrun with
    | (let (_, _) := ?run in _) => destruct run as [r w']
    end.
    destruct Hrun as (Hproducts & Hsales & Hexpenses & Htables & _).
    split; [lia |]. intros _.
    assert (Hqty : 1 <= qty_ <= 1000000) by (apply clampInt_bounds; lia).
    assert (Hq64 : round64 (inject_Z qty_) = inject_Z qty_) by (apply round64_int; lia).
    eexists _, (set_stock (int_sub (stock p) qty_) p), before, after.
    rewrite Hsales, Hexpenses, Htables.
    cbn [set_products set_sales products sales expenses tables] in *.
    split; [reflexivity |].
    cbn [qty productId unitPrice unitCost total profit].
    repeat (split; [reflexivity |]).
    split.
    { intros exact Hprice Hexact Heq. cbn [num_mul].
      rewrite Hq64, (is_double_round64 _ Hprice). apply fl_exact; [exact Hexact |].
      symmetry. exact Heq. }
    split.
    { intros margin exact Hprice Hcost Hmargin Hm Hexact Heq. cbn [num_sub].
      rewrite (is_double_round64 _ Hprice), (is_double_round64 _ Hcost).
      rewrite (fl_exact _ margin Hmargin) by (symmetry; exact Hm).
      cbn [num_mul]. rewrite Hq64, (is_double_round64 _ Hmargin).
      apply fl_exact; [exact Hexact |]. symmetry. exact Heq. }
    split; [exact Hsplit |]. split; [exact Hproducts |].
    cbn [set_stock stock p_id p_name category cost price stockMin].
    split; [reflexivity |].
    split; [intros Hsafe; apply int_sub_exact; lia |].
    repeat split; reflexivity.
Qed.

End LedgerFacts.

Lemma insertByName_perm (p : Product) (l : list Product) : insertByName p l ≡ₚ p :: l.
Proof.
  induction l as [| q l IH]; [reflexivity |].
  cbn [insertByName]. destruct (String.leb (p_name p) (p_name q)); [reflexivity |].
  rewrite IH. apply Permutation_swap.
Qed.

Lemma sortByCodePoint_perm (l : list Product) : sortByCodePoint l ≡ₚ l.
Proof.
  induction l as [| p l IH]; [reflexivity |].
  unfold sortByCodePoint. cbn [foldr]. fold (sortByCodePoint l).
  rewrite insertByName_perm, IH. reflexivity.
Qed.

(** The scenario of the specification, run: Soda (cost 5, price 8, stock 10),
    a sale of 3. *)
Example soda_sale_run :
  let w' := (saleForm_submit sortByCodePoint 1 (Finite 3) "" 1714557600000 7
               "2024-05-01T10:00:00.000Z" "2024-05-01T10:00:00.001Z" "rid-1"
               (freshWorld sodaState)).2 in
  total <$> sales (live w') = [Finite 24%Q]
  /\ profit <$> sales (live w') = [Finite 9%Q]
  /\ products (live w') = [set_stock 7 soda]
  /\ stock <$> products (live w') = [7].
Proof. vm_compute. repeat split. Qed.

Lemma sale_recorded_witness :
  (forall l, sortByCodePoint l ≡ₚ l)
  /\ find_first (fun x => p_id x =? 1) (products (live (freshWorld sodaState))) = Some soda
  /\ clampInt (Finite 3) 1 1000000 <= stock soda
  /\ exists sale sold,
       sales (live (saleForm_submit sortByCodePoint 1 (Finite 3) "" 1714557600000 7
                      "2024-05-01T10:00:00.000Z" "2024-05-01T10:00:00.001Z" "rid-1"
                      (freshWorld sodaState)).2) = [sale]
       /\ total sale = Finite 24%Q /\ profit sale = Finite 9%Q
       /\ products (live (saleForm_submit sortByCodePoint 1 (Finite 3) "" 1714557600000 7
                            "2024-05-01T10:00:00.000Z" "2024-05-01T10:00:00.001Z" "rid-1"
                            (freshWorld sodaState)).2) ≡ₚ [sold]
       /\ stock sold = 7 /\ p_name sold = "Soda".
Proof.
  split; [exact sortByCodePoint_perm |]. split; [reflexivity |].
  assert (Hq : clampInt (Finite 3) 1 1000000 <= stock soda) by (vm_compute; discriminate).
  split; [exact Hq |].
  pose proof (sale_recorded sortByCodePoint sortByCodePoint_perm 1 (Finite 3) "" 1714557600000 7
                "2024-05-01T10:00:00.000Z" "2024-05-01T10:00:00.001Z" "rid-1"
                (freshWorld sodaState) soda eq_refl) as P.
  destruct (saleForm_submit sortByCodePoint 1 (Finite 3) "" 1714557600000 7
              "2024-05-01T10:00:00.000Z" "2024-05-01T10:00:00.001Z" "rid-1"
              (freshWorld sodaState)) as [r w'].
  destruct P as [_ P].
  destruct (P Hq) as (sale & sold & before & after & Hsales & _ & _ & _ & _ & Htotal
                      & Hprofit & _ & _ & Hsplit & Hproducts & _ & Hstock & _ & Hname & _).
  exists sale, sold. split; [exact Hsales |].
  split; [rewrite Htotal; vm_compute; reflexivity |].
  split; [rewrite Hprofit; vm_compute; reflexivity |].
  cbn [snd]. split.
  - destruct before as [| x [| y before]]; cbn in Hsplit.
    + injection Hsplit as <-. exact Hproducts.
    + destruct after; discriminate Hsplit.
    + destruct before; discriminate Hsplit.
  - split; [rewrite Hstock by (vm_compute; discriminate); reflexivity | exact Hname].
Defined.

Section DeletionFacts.

Variable sortByName : list Product -> list Product.
Hypothesis sortByName_perm : forall l, sortByName l ≡ₚ l.

(** When the request that writes the state document succeeds, the document
    stored is the ledger as it was saved, before any re-rendering. *)
Lemma save_then_rerender_stored (state' : State) (note : Notice) (nowSave rid : string)
    (w : World) :
  head (faults w) ≠ Some true ->
  let (r, w') := (let! _ := saveState state' noOptions nowSave rid in
                  let! _ := rerender sortByName in
                  ret note) w in
  r = Ok note /\ idb w' !! IDB_STATE_KEY = Some (DState state').
Proof.
  intros Hhead. unfold bind.
  pose proof (saveState_stores state' noOptions nowSave rid w Hhead) as Hsaved.
  destruct (saveState state' noOptions nowSave rid w) as [r1 w1].
  cbn [fst snd] in Hsaved. destruct Hsaved as (-> & Hstored).
  unfold rerender, bind, getLive, setLive, ret, set_live. cbn [idb].
  split; [reflexivity | exact Hstored].
Qed.

(** C10. Deleting a sale, once confirmed, removes from the sales the entries
    with the given id and nothing else: the products (their stock included),
    the expenses and the table sessions are the same, the products possibly
    listed in another order after the re-rendering; the state document
    written holds the products exactly as they were. Without a sale of that
    id, or unconfirmed, nothing changes. *)
Theorem sale_deleted (id : Z) (confirmed : bool) (nowSave rid : string) (w : World) :
  let (r, w') := salesTbody_click_del sortByName id confirmed nowSave rid w in
  (is_Some (find_first (fun s => s_id s =? id) (sales (live w))) -> confirmed = true ->
     sales (live w') = filter (fun s => s_id s ≠ id) (sales (live w))
     /\ products (live w') ≡ₚ products (live w)
     /\ expenses (live w') = expenses (live w)
     /\ tables (live w') = tables (live w)
     /\ (head (faults w) ≠ Some true ->
         exists stored,
           idb w' !! IDB_STATE_KEY = Some (DState stored)
           /\ sales stored = filter (fun s => s_id s ≠ id) (sales (live w))
           /\ products stored = products (live w)
           /\ expenses stored = expenses (live w)
           /\ tables stored = tables (live w)))
  /\ (find_first (fun s => s_id s =? id) (sales (live w)) = None \/ confirmed = false ->
      r = Ok Silent /\ w' = w).
Proof.
  unfold salesTbody_click_del, bind at 1, getLive.
  destruct (find_first (fun s => s_id s =? id) (sales (live w))) as [s |] eqn:Hfind.
  - destruct confirmed; cbn [negb].
    + unfold bind at 1, setLive.
      match goal with
      | |- context [set_live ?s' w] =>
          pose proof (save_then_rerender sortByName sortByName_perm s'
                        (Toast "Eliminada") nowSave rid
                        (set_live s' w) eq_refl) as Hrun;
          pose proof (save_then_rerender_stored s'
                        (Toast "Eliminada") nowSave rid
                        (set_live s' w)) as Hstored
      end.
      match type of Hrun with
      | (let (_, _) := ?run in _) => destruct run as [r w']
      end.
      destruct Hrun as (Hproducts & Hsales & Hexpenses & Htables & _).
      split.
      * intros _ _. rewrite Hsales, Hexpenses, Htables.
        repeat (split; [first [reflexivity | exact Hproducts] |]).
        intros Hhead. destruct (Hstored Hhead) as [_ Hdoc].
        eexists. split; [exact Hdoc |]. repeat split.
      * intros [[=] | [=]].
    + split; [intros _ [=] |]. intros _. split; reflexivity.
  - split; [intros [? [=]] |]. intros _. split; reflexivity.
Qed.

End DeletionFacts.

Lemma sale_deleted_witness :
  (forall l, sortByCodePoint l ≡ₚ l)
  /\ is_Some (find_first (fun s => s_id s =? 41) (sales (live (freshWorld stateWithSales))))
  /\ sales (live (salesTbody_click_del sortByCodePoint 41 true "2024-05-01T10:00:00.001Z"
                    "rid-1" (freshWorld stateWithSales)).2) = [sale_of 42]
  /\ products (live (salesTbody_click_del sortByCodePoint 41 true "2024-05-01T10:00:00.001Z"
                       "rid-1" (freshWorld stateWithSales)).2) ≡ₚ [set_stock 4 soda].
Proof.
  split; [exact sortByCodePoint_perm |].
  assert (Hfound : is_Some (find_first (fun s => s_id s =? 41)
                              (sales (live (freshWorld stateWithSales))))).
  { eexists. reflexivity. }
  split; [exact Hfound |].
  pose proof (sale_deleted sortByCodePoint sortByCodePoint_perm 41 true
                "2024-05-01T10:00:00.001Z" "rid-1" (freshWorld stateWithSales)) as P.
  destruct (salesTbody_click_del sortByCodePoint 41 true "2024-05-01T10:00:00.001Z"
              "rid-1" (freshWorld stateWithSales)) as [r w'].
  destruct P as [P _]. destruct (P Hfound eq_refl) as (Hsales & Hproducts & _).
  split; [exact Hsales | exact Hproducts].
Defined.

(** ** Invariants of products and table sessions *)

(** C7 on the legacy importer: an old product whose price is below its cost
    is imported as it is, and the placeholder product of a sale at a loss
    gets a cost above its price. *)
Theorem legacy_import_breaks_price_ge_cost :
  (migrate_at_2024_05 legacyProductsOnly).2 = true
  /\ (fun p => (p_name p, cost p, price p)) <$> products (migrate_at_2024_05 legacyProductsOnly).1
     = [("Cerveza", 10%Q, 5%Q)]
  /\ ~ Forall validProduct (products (migrate_at_2024_05 legacyProductsOnly).1)
  /\ (migrate_at_2024_05 legacySalesOnly).2 = true
  /\ (fun p => (p_name p, cost p, price p)) <$> products (migrate_at_2024_05 legacySalesOnly).1
     = [("Dulce", 8%Q, 5%Q)]
  /\ ~ Forall validProduct (products (migrate_at_2024_05 legacySalesOnly).1).
Proof.
  assert (Hbelow : forall c, (c <= 5)%Q -> (c == 10)%Q \/ (c == 8)%Q -> False).
  { intros c Hle [Hc | Hc]; rewrite Hc in Hle; apply Hle; reflexivity. }
  split; [vm_compute; reflexivity |]. split; [vm_compute; reflexivity |]. split.
  { intros Hall. apply Forall_cons in Hall as [(Hle & _) _].
    apply (Hbelow _ Hle). left. reflexivity. }
  split; [vm_compute; reflexivity |]. split; [vm_compute; reflexivity |].
  intros Hall.
  assert (Hps : products (migrate_at_2024_05 legacySalesOnly).1
                = [{| p_id := 1714557600000; p_name := "Dulce"; category := "otro";
                      cost := 8; price := 5; stock := 0; stockMin := 0 |}])
    by (vm_compute; reflexivity).
  rewrite Hps in Hall. apply Forall_cons in Hall as [(Hle & _) _].
  apply (Hbelow _ Hle). right. reflexivity.
Qed.

(** C9 on the legacy importer: two old entries for table 1 become two active
    sessions of table 1. *)
Theorem legacy_import_two_active_sessions :
  (migrate_at_2024_05 legacyTablesOnly).2 = true
  /\ (fun t => (table t, players t, active t)) <$> tables (migrate_at_2024_05 legacyTablesOnly).1
     = [(1, 2, true); (1, 4, true)]
  /\ ~ oneActivePerTable (tables (migrate_at_2024_05 legacyTablesOnly).1).
Proof.
  split; [vm_compute; reflexivity |]. split; [vm_compute; reflexivity |].
  unfold oneActivePerTable.
  assert (Hts : table <$> filter (fun t => active t = true)
                            (tables (migrate_at_2024_05 legacyTablesOnly).1) = [1; 1])
    by (vm_compute; reflexivity).
  rewrite Hts. intros Hnd. apply NoDup_cons in Hnd as [Hnotin _].
  apply Hnotin. apply elem_of_cons. left. reflexivity.
Qed.

Lemma Forall_update_first {A} (P : A -> Prop) (pred : A -> bool) (f : A -> A) (l : list A) :
  (forall x, P x -> P (f x)) -> Forall P l -> Forall P (update_first pred f l).
Proof.
  intros Hf. induction 1 as [| x l Hx Hl IH]; cbn [update_first]; [constructor |].
  destruct (pred x); constructor; auto.
Qed.

Lemma find_first_None {A} (pred : A -> bool) (l : list A) :
  find_first pred l = None -> Forall (fun x => pred x = false) l.
Proof.
  induction l as [| x l IH]; [constructor |].
  cbn [find_first]. destruct (pred x) eqn:Hx; [discriminate |].
  intros Hnone. constructor; auto.
Qed.

Section FormFacts.

Variable sortByName : list Product -> list Product.
Hypothesis sortByName_perm : forall l, sortByName l ≡ₚ l.

(** The product form, the other way a product is made, keeps
    [price >= cost], [stock >= 0] and [stockMin >= 0]. *)
Lemma productForm_keeps_valid (form : ProductForm) (now rnd_ : Z) (nowIso rid : string)
    (w : World) :
  Forall validProduct (products (live w)) ->
  Forall validProduct
    (products (live (productForm_submit sortByName form now rnd_ nowIso rid w).2)).
Proof.
  intros Hvalid. unfold productForm_submit.
  destruct (String.eqb (trim (productName form)) ""); [exact Hvalid |].
  destruct (negb (Qle_bool 0 (parseMoney (productCost form)))
            || negb (Qle_bool 0 (parseMoney (productPrice form)))
            || Qlt_bool (parseMoney (productPrice form)) (parseMoney (productCost form)))
    eqn:Hcheck; [exact Hvalid |].
  apply orb_false_iff in Hcheck as [_ Hlt]. unfold Qlt_bool in Hlt.
  apply negb_false_iff, Qle_bool_iff in Hlt.
  assert (Hnew : forall id,
             validProduct {| p_id := id; p_name := trim (productName form);
                             category := productCategory form;
                             cost := parseMoney (productCost form);
                             price := parseMoney (productPrice form);
                             stock := clampInt (productStock form) 0 1000000;
                             stockMin := clampInt (productStockMin form) 0 1000000 |}).
  { intros id. split; [exact Hlt |]. cbn [stock stockMin].
    split; apply clampInt_bounds; lia. }
  assert (Hcommit : forall (ps : list Product) (note : Notice),
             Forall validProduct ps ->
             Forall validProduct
               (products (live ((let! _ := setLive (set_products ps (live w)) in
                                 let! _ := rerender sortByName in
                                 let! state'' := getLive in
                                 let! _ := try_catch (saveState state'' noOptions nowIso rid)
                                             (fun _ => ret tt) in
                                 ret note) w).2))).
  { intros ps note Hps. unfold rerender. unfold bind, setLive, getLive, try_catch, ret, set_live.
    cbn [live idb faults set_products products].
    match goal with
    | |- context [saveState ?s ?o ?n ?r ?w1] =>
        pose proof (saveState_live s o n r w1) as Hsaved;
        destruct (saveState s o n r w1) as [[[] | e] w2]
    end; cbn [snd] in *; rewrite Hsaved; cbn [live products set_products];
      rewrite sortByName_perm; exact Hps. }
  unfold bind at 1, getLive.
  destruct (negb (productId_field form =? 0)).
  - destruct (find_first _ (products (live w))); [| exact Hvalid].
    apply Hcommit. apply Forall_update_first; [intros _ _; apply Hnew | exact Hvalid].
  - apply Hcommit. apply Forall_app. split; [exact Hvalid |].
    apply Forall_singleton, Hnew.
Qed.

(** The table form refuses a second active session of a table and keeps at
    most one active session per table. *)
Lemma tableForm_keeps_one_active (tableNumber tablePlayers tableRate : jsnum)
    (now rnd_ : Z) (nowIso nowSave rid : string) (w : World) :
  oneActivePerTable (tables (live w)) ->
  let (r, w') := tableForm_submit sortByName tableNumber tablePlayers tableRate now rnd_
                   nowIso nowSave rid w in
  oneActivePerTable (tables (live w'))
  /\ (Qlt_bool 0 (parseMoney tableRate) = true ->
      is_Some (find_first (fun t => active t && (table t =? clampInt tableNumber 1 100))
                 (tables (live w))) ->
      r = Ok (Toast "Mesa activa") /\ w' = w).
Proof.
  intros Hone. unfold tableForm_submit.
  destruct (Qlt_bool 0 (parseMoney tableRate)); cbn [negb].
  2: { split; [exact Hone | discriminate]. }
  unfold bind at 1, getLive.
  destruct (find_first _ (tables (live w))) as [t |] eqn:Hfind.
  { split; [exact Hone |]. intros _ _. split; reflexivity. }
  apply find_first_None in Hfind.
  unfold bind at 1, setLive.
  match goal with
  | |- context [set_live ?s' w] =>
      pose proof (save_then_rerender sortByName sortByName_perm s'
                    (Toast "Mesa iniciada") nowSave rid (set_live s' w) eq_refl) as Hrun
  end.
  match type of Hrun with
  | (let (_, _) := ?run in _) => destruct run as [r w']
  end.
  destruct Hrun as (_ & _ & _ & Htables & _).
  split; [| intros _ [? [=]]].
  rewrite Htables. cbn [set_tables tables]. unfold oneActivePerTable in *.
  rewrite filter_app, fmap_app, filter_cons_True, filter_nil by reflexivity.
  apply NoDup_app. split; [exact Hone |]. split; [| apply NoDup_singleton].
  intros n Hin Hnew. apply list_elem_of_singleton in Hnew. cbn [table] in Hnew. subst n.
  apply list_elem_of_fmap in Hin as (t & Heq & Ht).
  apply list_elem_of_filter in Ht as [Hactive Ht].
  rewrite Forall_forall in Hfind. specialize (Hfind t Ht). cbn beta in Hfind.
  rewrite Hactive in Hfind. cbn [andb] in Hfind. lia.
Qed.

End FormFacts.

(** The [|| null] of lines 1412-1413 and 1469-1470 does not change what the
    guards compute. *)
Lemma guard_ignores_or_null (Date_parse : string -> option Z) (T1 T2 : option string) :
  pushNeedsConfirm Date_parse (js_or T1 None) (js_or T2 None) = pushNeedsConfirm Date_parse T1 T2
  /\ pullNeedsConfirm Date_parse (js_or T1 None) (js_or T2 None)
     = pullNeedsConfirm Date_parse T1 T2.
Proof.
  assert (Hnorm : forall T, truthy (js_or T None) = truthy T
                            /\ str_or_empty (js_or T None) = str_or_empty T).
  { intros T. unfold str_or_empty, js_or. destruct (truthy T) eqn:HT.
    - rewrite HT. split; reflexivity.
    - split; reflexivity. }
  unfold pushNeedsConfirm, pullNeedsConfirm, isoNewerThan, parseComparableIso.
  destruct (Hnorm T1) as [-> ->]. destruct (Hnorm T2) as [-> ->]. split; reflexivity.
Qed.

(** ** The guards inside the handlers *)

Section Guards.

Variable Date_parse : string -> option Z.
Variable sortByName : list Product -> list Product.

(** In a push that reached the comparison, the answer to [confirm] is
    consulted exactly when the guard holds: a declined confirmation cancels
    the push, and without the guard the answer changes nothing. *)
Lemma push_confirmation_guard (form : SyncConfig) (getReply putReply : HttpReply)
    (remote : option RemoteDoc) (nowPayload nowPush rid : string) (w : World) :
  faults w = [] ->
  trim (url form) ≠ "" ->
  (forall w0, fetchRemoteSnapshot getReply w0 = (Ok remote, w0)) ->
  let guard := pushNeedsConfirm Date_parse (push_localUpdatedAt (metaOf (idb w)))
                 (push_remoteUpdatedAt remote) in
  (guard = true ->
     (btnPush_click Date_parse form getReply putReply false nowPayload nowPush rid w).1
     = Ok (Cancelled "Cancelado (remoto más reciente)"))
  /\ (guard = false ->
      btnPush_click Date_parse form getReply putReply false nowPayload nowPush rid w
      = btnPush_click Date_parse form getReply putReply true nowPayload nowPush rid w).
Proof.
  intros Hf Hurl Hfetch guard.
  assert (Hnonempty : String.eqb (trim (url form)) "" = false) by (apply String.eqb_neq, Hurl).
  destruct w as [l m fs]. cbn [faults idb] in *. subst fs.
  unfold btnPush_click, persistCfg, getMeta, idbSet, idbGet, try_catch, bind, request, ret.
  cbn [faults idb live fst snd url]. rewrite Hnonempty, !Hfetch.
  cbn [faults idb live fst snd].
  rewrite (lookup_insert_ne m _ _ _ sync_key_ne_meta).
  fold (metaOf m). fold guard.
  split; intros ->; reflexivity.
Qed.

(** The same for a pull of a document with the right shape. *)
Lemma pull_confirmation_guard (form : SyncConfig) (getReply : HttpReply) (remote : RemoteDoc)
    (o : RemoteState) (nowSave nowPull rid : string) (w : World) :
  faults w = [] ->
  trim (url form) ≠ "" ->
  (forall w0, fetchRemoteSnapshot getReply w0 = (Ok (Some remote), w0)) ->
  r_state remote = StateObject o ->
  isValidStateShape (StateObject o) = true ->
  let guard := pullNeedsConfirm Date_parse (js_or (stateUpdatedAt (metaOf (idb w))) None)
                 (js_or (r_updatedAt remote) None) in
  (guard = true ->
     (btnPull_click Date_parse sortByName form getReply false nowSave nowPull rid w).1
     = Ok (Cancelled "Cancelado (local más reciente)"))
  /\ (guard = false ->
      btnPull_click Date_parse sortByName form getReply false nowSave nowPull rid w
      = btnPull_click Date_parse sortByName form getReply true nowSave nowPull rid w).
Proof.
  intros Hf Hurl Hfetch Hstate Hshape guard.
  assert (Hnonempty : String.eqb (trim (url form)) "" = false) by (apply String.eqb_neq, Hurl).
  destruct w as [l m fs]. cbn [faults idb] in *. subst fs.
  unfold btnPull_click, persistCfg, getMeta, idbSet, idbGet, try_catch, bind, request, ret.
  cbn [faults idb live fst snd url]. rewrite Hnonempty, !Hfetch.
  cbn [faults idb live fst snd]. rewrite !Hstate, !Hshape.
  cbn [faults idb live fst snd negb].
  rewrite (lookup_insert_ne m _ _ _ sync_key_ne_meta).
  fold (metaOf m). fold guard.
  split; intros ->; reflexivity.
Qed.

End Guards.

(** ** What the importer and the sale form do keep *)

Section ImporterFacts.

Variable Date_parse : string -> option Z.
Variable Date_toISOString : Z -> string.
Variable toLowerCase : string -> string.
Variable now : Z.
Variable rnd : nat -> Z.

Lemma foldl_products_invariant {A} (step : Import -> A -> Import) (l : list A) (acc : Import) :
  (forall acc x, Forall stockNonNegative (i_products acc) ->
                 Forall stockNonNegative (i_products (step acc x))) ->
  Forall stockNonNegative (i_products acc) ->
  Forall stockNonNegative (i_products (foldl step acc l)).
Proof.
  intros Hstep. revert acc. induction l as [| x l IH]; intros acc Hacc; [exact Hacc |].
  cbn [foldl]. apply IH, Hstep, Hacc.
Qed.

(** The imported products, placeholders included, have [stock >= 0] and
    [stockMin >= 0]. *)
Lemma legacy_import_stock_nonnegative (state : State) (storage : LegacyStorage) :
  Forall stockNonNegative (products state) ->
  Forall stockNonNegative
    (products (migrateFromLegacyBillarLocalStorageIntoState Date_parse Date_toISOString toLowerCase
                 now rnd state storage).1).
Proof.
  intros Hstate. unfold migrateFromLegacyBillarLocalStorageIntoState.
  destruct (negb (isStateEmpty state)); [exact Hstate |].
  destruct (negb (readable storage)); [exact Hstate |].
  destruct (negb _); [exact Hstate |].
  cbn [fst products].
  apply foldl_products_invariant; [| apply foldl_products_invariant;
                                     [| apply foldl_products_invariant; [| constructor]]].
  - intros acc lt Hacc. unfold importTable. destruct (negb _); exact Hacc.
  - intros acc ls Hacc. unfold importSale.
    destruct (byName acc !! _); cbn [i_products]; [exact Hacc |].
    apply Forall_app. split; [exact Hacc |]. apply Forall_singleton.
    split; cbn [placeholderProduct stock stockMin]; lia.
  - intros acc lp Hacc. unfold importProduct.
    destruct (String.eqb _ ""); [exact Hacc |]. cbn [i_products].
    apply Forall_app. split; [exact Hacc |]. apply Forall_singleton.
    split; cbn [stock stockMin]; apply clampInt_bounds; lia.
Qed.

End ImporterFacts.

Section SaleFacts.

Variable sortByName : list Product -> list Product.
Hypothesis sortByName_perm : forall l, sortByName l ≡ₚ l.

(** A sale never takes more than the stock: the products stay valid, for
    stocks in the range where every integer is a double. *)
Lemma saleForm_keeps_valid (productId_ : Z) (qtyField : jsnum) (notesField : string)
    (now rnd_ : Z) (nowIso nowSave rid : string) (w : World) :
  Forall (fun p => validProduct p /\ stock p <= 2 ^ 53) (products (live w)) ->
  Forall validProduct
    (products (live (saleForm_submit sortByName productId_ qtyField notesField now rnd_
                       nowIso nowSave rid w).2)).
Proof.
  intros Hsafe.
  assert (Hvalid : Forall validProduct (products (live w))).
  { eapply Forall_impl; [exact Hsafe |]. intros x [Hx _]. exact Hx. }
  unfold saleForm_submit, bind at 1, getLive.
  destruct (find_first _ (products (live w))) as [p |] eqn:Hfind; [| exact Hvalid].
  destruct (Z.ltb_spec (stock p) (clampInt qtyField 1 1000000)) as [_ | Henough];
    [exact Hvalid |].
  destruct (find_first_split _
              (fun x => set_stock (int_sub (stock x) (clampInt qtyField 1 1000000)) x)
              _ _ Hfind) as (before & after & Hsplit & Hupd & _ & _).
  unfold bind at 1, setLive. rewrite Hupd.
  match goal with
  | |- context [set_live ?s w] =>
      pose proof (save_then_rerender sortByName sortByName_perm s (Toast "Venta registrada")
                    nowSave rid (set_live s w) eq_refl) as Hrun
  end.
  match type of Hrun with
  | (let (_, _) := ?run in _) => destruct run as [r w']
  end.
  destruct Hrun as (Hproducts & _). cbn [snd]. rewrite Hproducts.
  cbn [set_products products]. rewrite Hsplit in Hvalid, Hsafe.
  apply Forall_app in Hvalid as [Hbefore Hrest].
  apply Forall_cons in Hrest as [(Hprice & Hstock & Hmin) Hafter].
  apply Forall_app in Hsafe as [_ Hsafe].
  apply Forall_cons in Hsafe as [[_ Hbound] _].
  pose proof (clampInt_bounds qtyField 1 1000000 ltac:(lia)) as Hqty.
  apply Forall_app. split; [exact Hbefore |]. apply Forall_cons. split; [| exact Hafter].
  split; [exact Hprice |]. cbn [set_stock stock stockMin].
  rewrite int_sub_exact by lia. split; [lia | exact Hmin].
Qed.

End SaleFacts.

(** * More properties of the source *)

(** ** What a computation leaves alone *)

Lemma keysKept_refl (P : string -> Prop) (w : World) : keysKept P w w.
Proof. intros k _. reflexivity. Qed.

Lemma keysKept_trans (P : string -> Prop) (w1 w2 w3 : World) :
  keysKept P w1 w2 -> keysKept P w2 w3 -> keysKept P w1 w3.
Proof. intros H12 H23 k Hk. rewrite (H23 k Hk). apply H12, Hk. Qed.

Lemma keysKept_weaken (P Q : string -> Prop) (w w' : World) :
  (forall k, Q k -> P k) -> keysKept P w w' -> keysKept Q w w'.
Proof. intros HQP Hkept k Hk. apply Hkept, HQP, Hk. Qed.

Lemma untouched_refl (P : string -> Prop) (w : World) : untouched P w w.
Proof. split; [reflexivity | apply keysKept_refl]. Qed.

Lemma untouched_trans (P : string -> Prop) (w1 w2 w3 : World) :
  untouched P w1 w2 -> untouched P w2 w3 -> untouched P w1 w3.
Proof.
  intros [Hl12 Hk12] [Hl23 Hk23]. split; [congruence |].
  eapply keysKept_trans; eassumption.
Qed.

Lemma untouched_weaken (P Q : string -> Prop) (w w' : World) :
  (forall k, Q k -> P k) -> untouched P w w' -> untouched Q w w'.
Proof. intros HQP [Hl Hk]. split; [exact Hl |]. eapply keysKept_weaken; eassumption. Qed.

Section Preservation.

Variable R : World -> World -> Prop.
Hypothesis R_refl : forall w, R w w.
Hypothesis R_trans : forall w1 w2 w3, R w1 w2 -> R w2 w3 -> R w1 w3.

Lemma preserves_ret {A} (a : A) : preserves R (ret a).
Proof. intros w. apply R_refl. Qed.

Lemma preserves_throw {A} (msg : string) : preserves R (@throw A msg).
Proof. intros w. apply R_refl. Qed.

Lemma preserves_bind {A B} (m : M A) (k : A -> M B) :
  preserves R m -> (forall a, preserves R (k a)) -> preserves R (bind m k).
Proof.
  intros Hm Hk w. unfold bind. specialize (Hm w).
  destruct (m w) as [[a | e] w1]; cbn [snd] in *; [| exact Hm].
  eapply R_trans; [exact Hm | apply Hk].
Qed.

Lemma preserves_try_catch {A} (m : M A) (h : string -> M A) :
  preserves R m -> (forall e, preserves R (h e)) -> preserves R (try_catch m h).
Proof.
  intros Hm Hh w. unfold try_catch. specialize (Hm w).
  destruct (m w) as [[a | e] w1]; cbn [snd] in *; [exact Hm |].
  eapply R_trans; [exact Hm | apply Hh].
Qed.

End Preservation.

(** A request that leaves the keys in [P] alone. *)
Lemma request_untouched {A} (P : string -> Prop)
    (act : gmap string doc -> A * gmap string doc) :
  (forall m k, P k -> (act m).2 !! k = m !! k) ->
  preserves (untouched P) (request act).
Proof.
  intros Hact [l m fs]. unfold request. cbn [faults idb live].
  destruct fs as [| [|] fs];
    [| split; [reflexivity | intros k _; reflexivity] |];
    specialize (Hact m); destruct (act m) as [a m']; cbn [snd] in *;
    (split; [reflexivity | intros k Hk; apply Hact, Hk]).
Qed.

Lemma untouched_kept {A} (P : string -> Prop) (m : M A) :
  preserves (untouched P) m -> preserves (keysKept P) m.
Proof. intros Hm w. apply Hm. Qed.

Lemma idbGet_untouched (P : string -> Prop) (key : string) :
  preserves (untouched P) (idbGet key).
Proof. apply request_untouched. reflexivity. Qed.

Lemma idbSet_untouched (P : string -> Prop) (key : string) (value : doc) :
  ~ P key -> preserves (untouched P) (idbSet key value).
Proof.
  intros Hkey. apply request_untouched. intros m k Hk. cbn [snd].
  apply lookup_insert_ne. intros ->. contradiction.
Qed.

Lemma idbDelete_untouched (P : string -> Prop) (key : string) :
  ~ P key -> preserves (untouched P) (idbDelete key).
Proof.
  intros Hkey. apply request_untouched. intros m k Hk. cbn [snd].
  apply lookup_delete_ne. intros ->. contradiction.
Qed.

Lemma setLive_kept (P : string -> Prop) (s : State) : preserves (keysKept P) (setLive s).
Proof. intros w k _. reflexivity. Qed.

Lemma getLive_untouched (P : string -> Prop) : preserves (untouched P) getLive.
Proof. intros w. apply untouched_refl. Qed.

Ltac frame_trans := first [apply untouched_trans | apply keysKept_trans].
Ltac frame_refl := first [apply untouched_refl | apply keysKept_refl].

(** One step through a computation built from [bind], [try_catch], [ret],
    [throw] and reads. *)
Ltac frame_step :=
  first
    [ apply idbGet_untouched
    | apply untouched_kept, idbGet_untouched
    | apply getLive_untouched
    | apply untouched_kept, getLive_untouched
    | apply setLive_kept
    | apply preserves_ret; frame_refl
    | apply preserves_throw; frame_refl
    | apply preserves_bind; [frame_trans | | intros ?]
    | apply preserves_try_catch; [frame_trans | | intros ?] ].

Ltac frame_write :=
  first [apply idbSet_untouched | apply untouched_kept, idbSet_untouched
        | apply idbDelete_untouched | apply untouched_kept, idbDelete_untouched].

Lemma getMeta_frame (P : string -> Prop) : preserves (untouched P) getMeta.
Proof. unfold getMeta. repeat frame_step. Qed.

Lemma saveState_frame (P : string -> Prop) (state : State) (options : SaveOptions)
    (now rid : string) :
  ~ P IDB_STATE_KEY -> ~ P IDB_META_KEY ->
  preserves (untouched P) (saveState state options now rid).
Proof.
  intros Hstate Hmeta. unfold saveState, setMeta, getMeta. repeat frame_step; frame_write; assumption.
Qed.

Lemma saveUntyped_frame (P : string -> Prop) (j : json) (options : SaveOptions)
    (now rid : string) :
  ~ P IDB_STATE_KEY -> ~ P IDB_META_KEY ->
  preserves (untouched P) (saveUntyped j options now rid).
Proof.
  intros Hstate Hmeta. unfold saveUntyped, setMeta, getMeta.
  repeat frame_step; frame_write; assumption.
Qed.

Lemma preserves_untyped {A B} (R : World -> World -> Prop) (b : B) (m : M A) :
  preserves R m -> preserves R (untyped b m).
Proof. intros Hm w. exact (Hm w). Qed.

Lemma setMeta_frame (P : string -> Prop) (meta : Meta) :
  ~ P IDB_META_KEY -> preserves (untouched P) (setMeta meta).
Proof. intros Hmeta. unfold setMeta. frame_write. exact Hmeta. Qed.

Lemma rerender_kept (P : string -> Prop) (sortByName : list Product -> list Product) :
  preserves (keysKept P) (rerender sortByName).
Proof. unfold rerender. repeat frame_step. Qed.

Lemma trimLoop_frame (P : string -> Prop) (fuel : nat) (idx : list SnapshotEntry) :
  (forall id, ~ P (IDB_SNAPSHOT_PREFIX ++ id)) ->
  preserves (untouched P) (trimLoop fuel idx).
Proof.
  intros Hbody. revert idx. induction fuel as [| fuel IH]; intros idx; cbn [trimLoop].
  - frame_step.
  - destruct (MAX_SNAPSHOTS <? length idx)%nat; [| frame_step].
    unfold pop. frame_step; [| apply IH].
    destruct (last idx) as [r |]; [| frame_step].
    destruct (negb (String.eqb (ent_id r) "")); [| frame_step].
    frame_step; [| frame_step]. frame_write. apply Hbody.
Qed.

Lemma createSnapshot_frame (P : string -> Prop) (state : State) (reason now : string) :
  (forall id, ~ P (IDB_SNAPSHOT_PREFIX ++ id)) -> ~ P IDB_SNAPSHOT_INDEX_KEY ->
  preserves (untouched P) (createSnapshot state reason now).
Proof.
  intros Hbody Hindex. unfold createSnapshot, listSnapshots.
  repeat first [frame_step | apply trimLoop_frame; exact Hbody];
    frame_write; first [apply Hbody | exact Hindex].
Qed.

Lemma ensureDailySnapshot_frame (P : string -> Prop) (state : State) (nowDay nowSnap : string) :
  (forall id, ~ P (IDB_SNAPSHOT_PREFIX ++ id)) -> ~ P IDB_SNAPSHOT_INDEX_KEY ->
  ~ P IDB_META_KEY ->
  preserves (untouched P) (ensureDailySnapshot state nowDay nowSnap).
Proof.
  intros Hbody Hindex Hmeta. unfold ensureDailySnapshot, setMeta.
  destruct (isStateEmpty state); [frame_step |].
  frame_step; [apply getMeta_frame |].
  destruct (bool_decide _); [frame_step |].
  frame_step; [apply createSnapshot_frame; assumption |].
  frame_write. exact Hmeta.
Qed.

Lemma not_snapshot_key (k : string) :
  k = IDB_STATE_KEY \/ k = IDB_META_KEY \/ k = IDB_SYNC_KEY \/ k = IDB_SNAPSHOT_INDEX_KEY ->
  ~ isSnapshotKey k.
Proof.
  intros Hk [id ->]. destruct Hk as [H | [H | [H | H]]]; discriminate H.
Qed.

(** X1. For every pattern of failing requests, [saveState] leaves the
    [state] variable alone and writes under no key but those of the state
    document and the metadata record: snapshots, their index and the sync
    configuration are never touched. *)
Theorem saveState_writes_only_state_and_meta (state : State) (options : SaveOptions)
    (now rid : string) :
  preserves (untouched (fun k => k ≠ IDB_STATE_KEY /\ k ≠ IDB_META_KEY))
    (saveState state options now rid).
Proof.
  apply saveState_frame; intros [H1 H2]; [apply H1 | apply H2]; reflexivity.
Qed.

(** X2. For every pattern of failing requests, [createSnapshot] changes
    neither the [state] variable nor any document other than snapshot bodies
    and the snapshot index, and [ensureDailySnapshot] none other than those
    and the metadata record: taking a snapshot never alters the ledger it
    captures, stored or live. *)
Theorem snapshots_leave_the_ledger_alone (state : State) (reason now nowDay : string) :
  preserves (untouched (fun k => ~ isSnapshotKey k /\ k ≠ IDB_SNAPSHOT_INDEX_KEY))
    (createSnapshot state reason now)
  /\ preserves (untouched (fun k => ~ isSnapshotKey k /\ k ≠ IDB_SNAPSHOT_INDEX_KEY
                                    /\ k ≠ IDB_META_KEY))
       (ensureDailySnapshot state nowDay now).
Proof.
  split.
  - apply createSnapshot_frame.
    + intros id [Hk _]. apply Hk. exists id. reflexivity.
    + intros [_ Hk]. apply Hk. reflexivity.
  - apply ensureDailySnapshot_frame.
    + intros id [Hk _]. apply Hk. exists id. reflexivity.
    + intros (_ & Hk & _). apply Hk. reflexivity.
    + intros (_ & _ & Hk). apply Hk. reflexivity.
Qed.

(** ** What the handlers write *)

Lemma fetchRemoteSnapshot_frame (R : World -> World -> Prop) (reply : HttpReply) :
  (forall w, R w w) -> preserves R (fetchRemoteSnapshot reply).
Proof.
  intros Hrefl w. unfold fetchRemoteSnapshot.
  destruct reply as [msg | status [body |]]; [apply Hrefl | |];
    destruct (status =? 404); try apply Hrefl;
    destruct (negb (res_ok status)); apply Hrefl.
Qed.

Lemma pushRemoteSnapshot_frame (R : World -> World -> Prop) (reply : HttpReply) :
  (forall w, R w w) -> preserves R (pushRemoteSnapshot reply).
Proof.
  intros Hrefl w. unfold pushRemoteSnapshot.
  destruct reply as [msg | status body]; [apply Hrefl |].
  destruct (negb (res_ok status)); apply Hrefl.
Qed.

Lemma persistCfg_frame (P : string -> Prop) (form : SyncConfig) :
  ~ P IDB_SYNC_KEY -> preserves (untouched P) (persistCfg form).
Proof. intros Hsync. unfold persistCfg. repeat frame_step. frame_write. exact Hsync. Qed.

Lemma ensureDeviceId_frame (P : string -> Prop) (rid : string) :
  ~ P IDB_META_KEY -> preserves (untouched P) (ensureDeviceId rid).
Proof.
  intros Hmeta. unfold ensureDeviceId, setMeta.
  frame_step; [apply getMeta_frame |].
  destruct (negb (truthy (deviceId a))); repeat frame_step. frame_write. exact Hmeta.
Qed.

(** The branches of a handler. *)
Ltac frame_branch :=
  match goal with
  | |- preserves _ (if ?b then _ else _) => destruct b
  | |- preserves _ (match ?x with _ => _ end) => destruct x
  end.

(** A handler that persists through [saveState] and re-renders. *)
Ltac frame_handler Hstate Hmeta :=
  repeat first
    [ apply untouched_kept, saveState_frame; [exact Hstate | exact Hmeta]
    | apply saveState_frame; [exact Hstate | exact Hmeta]
    | apply untouched_kept, saveUntyped_frame; [exact Hstate | exact Hmeta]
    | apply saveUntyped_frame; [exact Hstate | exact Hmeta]
    | apply preserves_untyped
    | apply rerender_kept
    | apply untouched_kept, getMeta_frame
    | apply getMeta_frame
    | apply fetchRemoteSnapshot_frame; frame_refl
    | apply pushRemoteSnapshot_frame; frame_refl
    | frame_step
    | frame_branch ].

Section HandlerFrames.

Variable Date_parse : string -> option Z.
Variable Date_toISOString : Z -> string.
Variable sortByName : list Product -> list Product.
Variable P : string -> Prop.
Hypothesis P_state : ~ P IDB_STATE_KEY.
Hypothesis P_meta : ~ P IDB_META_KEY.

Lemma productForm_frame (form : ProductForm) (now rnd_ : Z) (nowIso rid : string) :
  preserves (keysKept P) (productForm_submit sortByName form now rnd_ nowIso rid).
Proof. unfold productForm_submit. frame_handler P_state P_meta. Qed.

Lemma saleForm_frame (productId_ : Z) (qtyField : jsnum) (notesField : string)
    (now rnd_ : Z) (nowIso nowSave rid : string) :
  preserves (keysKept P)
    (saleForm_submit sortByName productId_ qtyField notesField now rnd_ nowIso nowSave rid).
Proof. unfold saleForm_submit. frame_handler P_state P_meta. Qed.

Lemma saleDel_frame (id : Z) (confirmed : bool) (nowSave rid : string) :
  preserves (keysKept P) (salesTbody_click_del sortByName id confirmed nowSave rid).
Proof. unfold salesTbody_click_del. frame_handler P_state P_meta. Qed.

Lemma tableForm_frame (tableNumber tablePlayers tableRate : jsnum) (now rnd_ : Z)
    (nowIso nowSave rid : string) :
  preserves (keysKept P)
    (tableForm_submit sortByName tableNumber tablePlayers tableRate now rnd_ nowIso nowSave rid).
Proof. unfold tableForm_submit. frame_handler P_state P_meta. Qed.

Lemma tablesTbody_frame (act : string) (id now : Z) (nowIso nowSave rid : string) :
  preserves (keysKept P)
    (tablesTbody_click Date_parse sortByName act id now nowIso nowSave rid).
Proof. unfold tablesTbody_click. frame_handler P_state P_meta. Qed.

Lemma expenseForm_frame (expenseType : string) (expenseAmount : jsnum)
    (expenseDescription : string) (now rnd_ : Z) (nowIso nowSave rid : string) :
  preserves (keysKept P)
    (expenseForm_submit sortByName expenseType expenseAmount expenseDescription now rnd_
       nowIso nowSave rid).
Proof. unfold expenseForm_submit. frame_handler P_state P_meta. Qed.

Lemma expenseDel_frame (id : Z) (confirmed : bool) (nowSave rid : string) :
  preserves (keysKept P) (expensesTbody_click_del sortByName id confirmed nowSave rid).
Proof. unfold expensesTbody_click_del. frame_handler P_state P_meta. Qed.

Lemma productsTbody_frame (act : string) (id : Z) (confirmed : bool) (nowSave rid : string) :
  preserves (keysKept P) (productsTbody_click sortByName act id confirmed nowSave rid).
Proof. unfold productsTbody_click. frame_handler P_state P_meta. Qed.

Lemma fileImport_frame (file : ImportFile) (nowSave rid : string) :
  preserves (keysKept P) (fileImport_change sortByName file nowSave rid).
Proof. unfold fileImport_change. frame_handler P_state P_meta. Qed.

Lemma snapshotList_frame (act id : string) (confirmed : bool) (nowSave rid : string) :
  preserves (keysKept P) (snapshotList_click sortByName act id confirmed nowSave rid).
Proof. unfold snapshotList_click. frame_handler P_state P_meta. Qed.

Lemma autoSync_frame (online : bool) (getReply : HttpReply) (nowSave rid : string) :
  preserves (keysKept P) (autoSync Date_parse sortByName online getReply nowSave rid).
Proof. unfold autoSync, getSyncConfig. frame_handler P_state P_meta. Qed.

End HandlerFrames.

Lemma btnPull_frame (Date_parse : string -> option Z) (sortByName : list Product -> list Product)
    (P : string -> Prop) (form : SyncConfig) (getReply : HttpReply) (confirmed : bool)
    (nowSave nowPull rid : string) :
  ~ P IDB_STATE_KEY -> ~ P IDB_META_KEY -> ~ P IDB_SYNC_KEY ->
  preserves (keysKept P)
    (btnPull_click Date_parse sortByName form getReply confirmed nowSave nowPull rid).
Proof.
  intros Hstate Hmeta Hsync. unfold btnPull_click, setMeta.
  frame_step; [apply untouched_kept, persistCfg_frame, Hsync |].
  frame_handler Hstate Hmeta; frame_write; exact Hmeta.
Qed.

(** X3. For every pattern of failing requests and every answer of the
    server, a push writes under no key but those of the sync configuration
    and the metadata record, and a connection test under none but the sync
    configuration; neither changes the [state] variable: uploading never
    alters the local ledger, its stored copy or the snapshots. *)
Theorem push_and_test_leave_the_ledger_alone (Date_parse : string -> option Z)
    (form : SyncConfig) (getReply putReply : HttpReply) (confirmed : bool)
    (nowPayload nowPush rid : string) :
  preserves (untouched (fun k => k ≠ IDB_SYNC_KEY /\ k ≠ IDB_META_KEY))
    (btnPush_click Date_parse form getReply putReply confirmed nowPayload nowPush rid)
  /\ preserves (untouched (fun k => k ≠ IDB_SYNC_KEY)) (btnTest_click form getReply).
Proof.
  split.
  - set (P := fun k => k ≠ IDB_SYNC_KEY /\ k ≠ IDB_META_KEY).
    assert (Hsync : ~ P IDB_SYNC_KEY) by (intros [H _]; apply H; reflexivity).
    assert (Hmeta : ~ P IDB_META_KEY) by (intros [_ H]; apply H; reflexivity).
    unfold btnPush_click, setMeta.
    frame_step; [apply persistCfg_frame, Hsync |].
    repeat first
      [ apply getMeta_frame
      | apply ensureDeviceId_frame, Hmeta
      | apply fetchRemoteSnapshot_frame; frame_refl
      | apply pushRemoteSnapshot_frame; frame_refl
      | frame_step
      | frame_branch ]; frame_write; exact Hmeta.
  - unfold btnTest_click.
    frame_step; [apply persistCfg_frame; intros H; apply H; reflexivity |].
    repeat first [apply fetchRemoteSnapshot_frame; frame_refl | frame_step | frame_branch].
Qed.

(** X4. For every pattern of failing requests, the handlers of the product,
    sale, expense and table forms and lists write under no key but those of
    the state document and the metadata record: recording or deleting an
    entry never touches a snapshot, the snapshot index or the sync
    configuration. *)
Theorem ledger_handlers_write_only_state_and_meta (Date_parse : string -> option Z)
    (sortByName : list Product -> list Product) :
  let kept := keysKept (fun k => k ≠ IDB_STATE_KEY /\ k ≠ IDB_META_KEY) in
  (forall form now rnd_ nowIso rid,
      preserves kept (productForm_submit sortByName form now rnd_ nowIso rid))
  /\ (forall act id confirmed nowSave rid,
         preserves kept (productsTbody_click sortByName act id confirmed nowSave rid))
  /\ (forall productId_ qtyField notesField now rnd_ nowIso nowSave rid,
         preserves kept (saleForm_submit sortByName productId_ qtyField notesField now rnd_
                           nowIso nowSave rid))
  /\ (forall id confirmed nowSave rid,
         preserves kept (salesTbody_click_del sortByName id confirmed nowSave rid))
  /\ (forall expenseType expenseAmount expenseDescription now rnd_ nowIso nowSave rid,
         preserves kept (expenseForm_submit sortByName expenseType expenseAmount
                           expenseDescription now rnd_ nowIso nowSave rid))
  /\ (forall id confirmed nowSave rid,
         preserves kept (expensesTbody_click_del sortByName id confirmed nowSave rid))
  /\ (forall tableNumber tablePlayers tableRate now rnd_ nowIso nowSave rid,
         preserves kept (tableForm_submit sortByName tableNumber tablePlayers tableRate now
                           rnd_ nowIso nowSave rid))
  /\ (forall act id now nowIso nowSave rid,
         preserves kept (tablesTbody_click Date_parse sortByName act id now nowIso nowSave rid)).
Proof.
  intros kept.
  assert (Hstate : ~ (IDB_STATE_KEY ≠ IDB_STATE_KEY /\ IDB_STATE_KEY ≠ IDB_META_KEY))
    by (intros [H _]; apply H; reflexivity).
  assert (Hmeta : ~ (IDB_META_KEY ≠ IDB_STATE_KEY /\ IDB_META_KEY ≠ IDB_META_KEY))
    by (intros [_ H]; apply H; reflexivity).
  repeat split; intros.
  - apply productForm_frame; assumption.
  - apply productsTbody_frame; assumption.
  - apply saleForm_frame; assumption.
  - apply saleDel_frame; assumption.
  - apply expenseForm_frame; assumption.
  - apply expenseDel_frame; assumption.
  - apply tableForm_frame; assumption.
  - apply tablesTbody_frame; assumption.
Qed.

(** X5. For every pattern of failing requests, replacing the ledger by a
    file import, a snapshot restore, a pull or the automatic sync never
    rewrites or deletes a snapshot body or the snapshot index. *)
Theorem replacing_the_ledger_keeps_the_snapshots (Date_parse : string -> option Z)
    (sortByName : list Product -> list Product) :
  let kept := keysKept (fun k => isSnapshotKey k \/ k = IDB_SNAPSHOT_INDEX_KEY) in
  (forall file nowSave rid, preserves kept (fileImport_change sortByName file nowSave rid))
  /\ (forall act id confirmed nowSave rid,
         preserves kept (snapshotList_click sortByName act id confirmed nowSave rid))
  /\ (forall form getReply confirmed nowSave nowPull rid,
         preserves kept (btnPull_click Date_parse sortByName form getReply confirmed nowSave
                           nowPull rid))
  /\ (forall online getReply nowSave rid,
         preserves kept (autoSync Date_parse sortByName online getReply nowSave rid)).
Proof.
  intros kept.
  assert (Hnot : forall k, k = IDB_STATE_KEY \/ k = IDB_META_KEY \/ k = IDB_SYNC_KEY ->
                           ~ (isSnapshotKey k \/ k = IDB_SNAPSHOT_INDEX_KEY)).
  { intros k Hk [Hs | ->].
    - revert Hs. apply not_snapshot_key. tauto.
    - destruct Hk as [H | [H | H]]; discriminate H. }
  repeat split; intros.
  - apply fileImport_frame; apply Hnot; tauto.
  - apply snapshotList_frame; apply Hnot; tauto.
  - apply btnPull_frame; apply Hnot; tauto.
  - apply autoSync_frame; apply Hnot; tauto.
Qed.

(** ** Loading the ledger *)

Lemma saveState_ok (state : State) (options : SaveOptions) (now rid : string) (w : World) :
  faults w = [] ->
  saveState state options now rid w =
    (Ok tt,
     {| live := live w;
        idb := <[IDB_META_KEY := DMeta (stampMeta options now rid (metaOf (idb w)))]>
                 (<[IDB_STATE_KEY := DState state]> (idb w));
        faults := [] |}).
Proof.
  intros Hf. destruct w as [l m fs]. cbn [faults] in Hf. subst fs.
  run_requests. rewrite lookup_insert_ne by apply state_key_ne_meta. reflexivity.
Qed.

Lemma saveUntyped_ok (j : json) (options : SaveOptions) (now rid : string) (w : World) :
  faults w = [] ->
  saveUntyped j options now rid w =
    (Ok tt,
     {| live := live w;
        idb := <[IDB_META_KEY := DMeta (stampMeta options now rid (metaOf (idb w)))]>
                 (<[IDB_STATE_KEY := DUntyped j]> (idb w));
        faults := [] |}).
Proof.
  intros Hf. destruct w as [l m fs]. cbn [faults] in Hf. subst fs.
  unfold saveUntyped. run_requests.
  rewrite lookup_insert_ne by apply state_key_ne_meta. reflexivity.
Qed.

(** X6. Round trip: when no request fails, [loadState] after [saveState]
    returns the ledger that was saved, whatever the old [localStorage] holds,
    and does not reach for the legacy copy. *)
Theorem save_then_load (state : State) (options : SaveOptions) (now rid : string)
    (item : LegacyItem) (w : World) :
  faults w = [] ->
  (loadState item (saveState state options now rid w).2).1
  = Ok (Some (WellFormed state), false).
Proof.
  intros Hf. rewrite saveState_ok by exact Hf. cbn [snd].
  unfold loadState, try_catch, bind, idbGet, request, ret. cbn [faults idb live fst snd].
  rewrite lookup_insert_ne by (apply not_eq_sym, state_key_ne_meta).
  rewrite lookup_insert_eq. reflexivity.
Qed.

Lemma save_then_load_witness :
  faults (freshWorld sodaState) = []
  /\ (loadState ItemGarbage
        (saveState sodaState noOptions "2024-05-01T10:00:00.000Z" "rid-1"
           (freshWorld sodaState)).2).1 = Ok (Some (WellFormed sodaState), false).
Proof.
  split; [reflexivity |].
  apply (save_then_load sodaState noOptions "2024-05-01T10:00:00.000Z" "rid-1" ItemGarbage
           (freshWorld sodaState)).
  reflexivity.
Defined.

Lemma loadState_lookup (w : World) :
  exists found w1,
    try_catch
      (let! state := idbGet IDB_STATE_KEY in
       ret match state with
           | Some (DState s) => Some (WellFormed s)
           | Some (DUntyped j) => if json_truthy j then Some (Malformed j) else None
           | _ => None
           end)
      (fun _ => ret None) w = (Ok found, w1)
    /\ idb w1 = idb w /\ live w1 = live w
    /\ (idb w !! IDB_STATE_KEY = None -> found = None)
    /\ (head (faults w) <> Some true ->
        (forall s, idb w !! IDB_STATE_KEY = Some (DState s) -> found = Some (WellFormed s))
        /\ (forall j, idb w !! IDB_STATE_KEY = Some (DUntyped j) ->
                      found = if json_truthy j then Some (Malformed j) else None))
    /\ (forall j, found = Some (Malformed j) ->
                  idb w !! IDB_STATE_KEY = Some (DUntyped j) /\ json_truthy j = true).
Proof.
  destruct w as [l m fs]. unfold try_catch, bind, idbGet, request, ret.
  cbn [faults idb live].
  destruct fs as [| [|] fs]; eexists _, _; (split; [reflexivity |]); cbn [idb live];
    (split; [reflexivity |]); (split; [reflexivity |]);
    (split; [first [intros ->; reflexivity | intros _; reflexivity] |]);
    (split;
     [intros Hhead; try (exfalso; apply Hhead; reflexivity); split; intros x ->; reflexivity |]);
    intros j Hj; try discriminate Hj;
    destruct (m !! IDB_STATE_KEY) as [[? | ? | ? | ? | ? | j'] |]; try discriminate Hj;
    destruct (json_truthy j') eqn:Htruthy; try discriminate Hj;
    injection Hj as <-; (split; [reflexivity | exact Htruthy]).
Qed.

Lemma loadState_store (d : doc) (w : World) :
  exists removed w2,
    try_catch (let! _ := idbSet IDB_STATE_KEY d in ret true)
      (fun _ => ret false) w = (Ok removed, w2)
    /\ live w2 = live w
    /\ idb w2 = (if removed then <[IDB_STATE_KEY := d]> (idb w) else idb w)
    /\ (head (faults w) <> Some true -> removed = true).
Proof.
  destruct w as [l m fs]. unfold try_catch, bind, idbSet, request, ret.
  cbn [faults idb live].
  destruct fs as [| [|] fs]; eexists _, _; (split; [reflexivity |]); cbn [idb live];
    (split; [reflexivity |]); (split; [reflexivity |]); intros Hhead;
    try reflexivity; exfalso; apply Hhead; reflexivity.
Qed.

(** X7. [loadState] never throws, whatever requests fail and whatever the
    old [localStorage] holds; it leaves the [state] variable and every key
    but the state key alone. With nothing under the state key it returns the
    value parsed from the legacy copy when there is one, be it a ledger or
    not, and the legacy copy is removed exactly when that value was stored
    under the state key; a legacy copy that is missing, unreadable or
    unparsable gives nothing and writes nothing. *)
Theorem loadState_total (item : LegacyItem) (w : World) :
  let (r, w') := loadState item w in
  (exists loaded removed, r = Ok (loaded, removed)
     /\ (idb w !! IDB_STATE_KEY = None ->
         match item with
         | ItemParsed parsed =>
             loaded = Some (WellFormed parsed)
             /\ (if removed then idb w' !! IDB_STATE_KEY = Some (DState parsed)
                 else idb w' !! IDB_STATE_KEY = None)
         | ItemUntyped j =>
             loaded = Some (Malformed j)
             /\ (if removed then idb w' !! IDB_STATE_KEY = Some (DUntyped j)
                 else idb w' !! IDB_STATE_KEY = None)
         | _ => loaded = None /\ removed = false /\ idb w' = idb w
         end))
  /\ untouched (fun k => k ≠ IDB_STATE_KEY) w w'.
Proof.
  unfold loadState, bind at 1.
  destruct (loadState_lookup w) as (found & w1 & -> & Hidb & Hlive & Hnone & _ & _).
  unfold untouched, keysKept. rewrite <- Hidb, <- Hlive.
  destruct found as [s |].
  - split; [| split; [reflexivity | intros; reflexivity]].
    eexists _, _. split; [reflexivity |]. intros H. rewrite Hidb in H.
    specialize (Hnone H). discriminate.
  - destruct item as [| | | parsed | j];
      try (split; [eexists _, _; split; [reflexivity |]; intros _; repeat split
                  | split; [reflexivity | intros; reflexivity]]).
    + unfold bind at 1.
      destruct (loadState_store (DState parsed) w1) as (removed & w2 & -> & Hlive2 & Hidb2 & _).
      cbn [ret fst snd]. rewrite Hlive2, Hidb2. split.
      * eexists _, _. split; [reflexivity |]. intros H. split; [reflexivity |].
        destruct removed; [apply lookup_insert_eq | exact H].
      * split; [reflexivity |]. intros k Hk. destruct removed; [| reflexivity].
        apply lookup_insert_ne. congruence.
    + unfold bind at 1.
      destruct (loadState_store (DUntyped j) w1) as (removed & w2 & -> & Hlive2 & Hidb2 & _).
      cbn [ret fst snd]. rewrite Hlive2, Hidb2. split.
      * eexists _, _. split; [reflexivity |]. intros H. split; [reflexivity |].
        destruct removed; [apply lookup_insert_eq | exact H].
      * split; [reflexivity |]. intros k Hk. destruct removed; [| reflexivity].
        apply lookup_insert_ne. congruence.
Qed.

(** ** The device id *)

Lemma ensureDeviceId_ok (rid : string) (w : World) :
  faults w = [] ->
  ensureDeviceId rid w =
    if truthy (deviceId (metaOf (idb w)))
    then (Ok (deviceId (metaOf (idb w))),
          {| live := live w; idb := idb w; faults := [] |})
    else (Ok (Some rid),
          {| live := live w;
             idb := <[IDB_META_KEY :=
                        DMeta {| deviceId := Some rid;
                                 stateUpdatedAt := stateUpdatedAt (metaOf (idb w));
                                 stateUpdatedBy := stateUpdatedBy (metaOf (idb w));
                                 stateUpdatedSource := stateUpdatedSource (metaOf (idb w));
                                 lastSnapshotDay := lastSnapshotDay (metaOf (idb w));
                                 legacyBillarMigratedAt :=
                                   legacyBillarMigratedAt (metaOf (idb w));
                                 lastSyncPushAt := lastSyncPushAt (metaOf (idb w));
                                 lastSyncPullAt := lastSyncPullAt (metaOf (idb w)) |}]>
                      (idb w);
             faults := [] |}).
Proof.
  intros Hf. destruct w as [l m fs]. cbn [faults] in Hf. subst fs.
  unfold ensureDeviceId, getMeta, setMeta, idbGet, idbSet, bind, request, ret.
  cbn [faults idb live fst snd]. fold (metaOf m).
  destruct (truthy (deviceId (metaOf m))); reflexivity.
Qed.

Lemma metaOf_insert (meta : Meta) (m : gmap string doc) :
  metaOf (<[IDB_META_KEY := DMeta meta]> m) = meta.
Proof. unfold metaOf. rewrite lookup_insert_eq. reflexivity. Qed.

(** X8. The device id is generated once: when no request fails and the
    random id is not empty, [ensureDeviceId] returns a non-empty id and
    leaves it in the metadata record; an id that is already there is
    returned with nothing written; and after any [saveState] a second call
    returns the same id, whatever the random source gives then. *)
Theorem deviceId_is_stable (rid1 rid2 : string) (state : State) (options : SaveOptions)
    (now rid3 : string) (w : World) :
  faults w = [] ->
  rid1 ≠ "" ->
  let (r1, w1) := ensureDeviceId rid1 w in
  let (r2, w2) := ensureDeviceId rid2 (saveState state options now rid3 w1).2 in
  exists id,
    r1 = Ok (Some id) /\ r2 = Ok (Some id) /\ id ≠ ""
    /\ deviceId (metaOf (idb w1)) = Some id
    /\ (truthy (deviceId (metaOf (idb w))) = true ->
        deviceId (metaOf (idb w)) = Some id /\ idb w1 = idb w).
Proof.
  intros Hf Hrid. rewrite ensureDeviceId_ok by exact Hf.
  assert (Htruthy : forall o, truthy o = true -> exists id, o = Some id /\ id ≠ "").
  { intros [id |] Ho; [| discriminate]. exists id. split; [reflexivity |].
    cbn in Ho. apply negb_true_iff, String.eqb_neq in Ho. exact Ho. }
  assert (Hrid_truthy : truthy (Some rid1) = true).
  { cbn. apply negb_true_iff, String.eqb_neq. exact Hrid. }
  destruct (truthy (deviceId (metaOf (idb w)))) eqn:Hold.
  - destruct (Htruthy _ Hold) as (id & Hid & Hne).
    rewrite saveState_ok by reflexivity. cbn [snd].
    rewrite ensureDeviceId_ok by reflexivity. cbn [idb live].
    rewrite !metaOf_insert. cbn [stampMeta deviceId].
    unfold js_or. rewrite Hold. rewrite Hold. cbn [fst].
    exists id. rewrite Hid. split; [reflexivity |]. split; [reflexivity |]. split; [exact Hne |].
    split; [reflexivity |]. intros _. split; reflexivity.
  - rewrite saveState_ok by reflexivity. cbn [snd].
    rewrite ensureDeviceId_ok by reflexivity. cbn [idb live].
    rewrite !metaOf_insert. cbn [stampMeta deviceId].
    unfold js_or. rewrite Hrid_truthy. rewrite Hrid_truthy. cbn [fst].
    exists rid1. split; [reflexivity |]. split; [reflexivity |]. split; [exact Hrid |].
    split; [reflexivity |]. intros Hfalse. discriminate Hfalse.
Qed.

Lemma deviceId_is_stable_witness :
  faults (freshWorld sodaState) = []
  /\ "rid-1" ≠ ""
  /\ (ensureDeviceId "rid-2"
        (saveState sodaState noOptions "2024-05-01T10:00:00.000Z" "rid-3"
           (ensureDeviceId "rid-1" (freshWorld sodaState)).2).2).1 = Ok (Some "rid-1").
Proof.
  split; [reflexivity |]. split; [discriminate |].
  pose proof (deviceId_is_stable "rid-1" "rid-2" sodaState noOptions
                "2024-05-01T10:00:00.000Z" "rid-3" (freshWorld sodaState) eq_refl) as P.
  assert (Hrid : "rid-1" ≠ "") by discriminate.
  specialize (P Hrid).
  destruct (ensureDeviceId "rid-1" (freshWorld sodaState)) as [r1 w1] eqn:H1.
  cbn [snd].
  destruct (ensureDeviceId "rid-2"
              (saveState sodaState noOptions "2024-05-01T10:00:00.000Z" "rid-3" w1).2)
    as [r2 w2].
  destruct P as (id & Hr1 & Hr2 & _). cbn [fst]. rewrite Hr2. f_equal.
  vm_compute in H1. injection H1 as <- _. injection Hr1 as <-. reflexivity.
Defined.

(** ** Snapshots: trimming and restoring *)

Lemma purge_removes (removed : list SnapshotEntry) (m : gmap string doc) (r : SnapshotEntry) :
  r ∈ removed -> ent_id r ≠ "" ->
  purge removed m !! (IDB_SNAPSHOT_PREFIX ++ ent_id r) = None.
Proof.
  intros Hin Hid. induction removed as [| r' removed IH]; [apply elem_of_nil in Hin; destruct Hin |].
  cbn [purge foldr]. fold (purge removed m).
  apply elem_of_cons in Hin as [<- | Hin].
  - destruct (String.eqb_spec (ent_id r) "") as [Hempty | _]; [contradiction |].
    apply lookup_delete_eq.
  - destruct (negb (String.eqb (ent_id r') "")); [| apply IH, Hin].
    destruct (decide (IDB_SNAPSHOT_PREFIX ++ ent_id r' = IDB_SNAPSHOT_PREFIX ++ ent_id r))
      as [-> | Hne]; [apply lookup_delete_eq |].
    rewrite lookup_delete_ne by exact Hne. apply IH, Hin.
Qed.

(** X9. Whatever the snapshot index holds, even more entries than the
    limit, one [createSnapshot] without a failing request leaves an index of
    at most 20 entries headed by the new snapshot, and the body of every
    entry that fell off the index is gone. *)
Theorem createSnapshot_bounds_the_index (c : SnapshotCall) (w : World) :
  faults w = [] ->
  let (r, w') := createSnapshot (call_state c) (call_reason c) (call_now c) w in
  r = Ok (snapshotOf c)
  /\ indexOf (idb w') = take MAX_SNAPSHOTS (entryOf c :: indexOf (idb w))
  /\ (length (indexOf (idb w')) <= MAX_SNAPSHOTS)%nat
  /\ head (indexOf (idb w')) = Some (entryOf c)
  /\ (forall e, e ∈ drop MAX_SNAPSHOTS (entryOf c :: indexOf (idb w)) -> ent_id e ≠ "" ->
        idb w' !! (IDB_SNAPSHOT_PREFIX ++ ent_id e) = None).
Proof.
  intros Hf. rewrite createSnapshot_ok by exact Hf. cbn [idb].
  assert (Hindex : forall m' : gmap string doc,
             indexOf (<[IDB_SNAPSHOT_INDEX_KEY :=
                          DIndex (take MAX_SNAPSHOTS (entryOf c :: indexOf (idb w)))]> m')
             = take MAX_SNAPSHOTS (entryOf c :: indexOf (idb w))).
  { intros m'. unfold indexOf at 1. rewrite lookup_insert_eq. reflexivity. }
  rewrite Hindex. split; [reflexivity |]. split; [reflexivity |].
  split; [rewrite length_take; lia |]. split; [reflexivity |].
  intros e He Hid.
  rewrite lookup_insert_ne by (apply not_eq_sym, snapshot_key_ne_index).
  apply purge_removes; assumption.
Qed.

Lemma createSnapshot_bounds_the_index_witness :
  faults (freshWorld emptyState) = []
  /\ (length (indexOf (idb (createSnapshot emptyState "manual" "t22"
                             (createSnapshots sampleCalls (freshWorld emptyState)).2).2))
      <= MAX_SNAPSHOTS)%nat.
Proof.
  split; [reflexivity |].
  pose proof (createSnapshot_bounds_the_index (sampleCall 22)
                (createSnapshots sampleCalls (freshWorld emptyState)).2) as P.
  change (call_state (sampleCall 22)) with emptyState in P.
  change (call_reason (sampleCall 22)) with "manual" in P.
  assert (Hf : faults (createSnapshots sampleCalls (freshWorld emptyState)).2 = [])
    by (vm_compute; reflexivity).
  specialize (P Hf).
  assert (Hnow : call_now (sampleCall 22) = "t22") by (vm_compute; reflexivity).
  rewrite Hnow in P.
  destruct (createSnapshot emptyState "manual" "t22"
              (createSnapshots sampleCalls (freshWorld emptyState)).2) as [r w'].
  destruct P as (_ & _ & Hlen & _). exact Hlen.
Defined.

Lemma trimLoop_short (fuel : nat) (idx : list SnapshotEntry) (w : World) :
  (length idx <= MAX_SNAPSHOTS)%nat -> trimLoop fuel idx w = (Ok idx, w).
Proof.
  intros Hshort. destruct fuel as [| fuel]; [reflexivity |]. cbn [trimLoop].
  destruct (Nat.ltb_spec MAX_SNAPSHOTS (length idx)); [lia | reflexivity].
Qed.

(** X10. Trimming is best effort: when the index is full and the request
    that deletes the body of its oldest entry fails, [createSnapshot] still
    succeeds, the entry leaves the index, and its body stays in the store,
    no longer listed. *)
Theorem createSnapshot_survives_failed_delete (c : SnapshotCall) (oldest : SnapshotEntry)
    (fs : list bool) (w : World) :
  faults w = false :: false :: true :: fs ->
  head fs ≠ Some true ->
  length (indexOf (idb w)) = MAX_SNAPSHOTS ->
  last (indexOf (idb w)) = Some oldest ->
  ent_id oldest ≠ "" ->
  ent_id oldest ≠ call_now c ->
  let (r, w') := createSnapshot (call_state c) (call_reason c) (call_now c) w in
  r = Ok (snapshotOf c)
  /\ indexOf (idb w') = entryOf c :: removelast (indexOf (idb w))
  /\ idb w' !! (IDB_SNAPSHOT_PREFIX ++ ent_id oldest)
     = idb w !! (IDB_SNAPSHOT_PREFIX ++ ent_id oldest).
Proof.
  intros Hf Hhead Hlen Hlast Hid Hfresh. destruct w as [l m fs0]. cbn [faults idb] in *.
  subst fs0.
  unfold createSnapshot, listSnapshots, idbSet, idbGet, bind at 1 2 3, request, ret.
  cbn [faults idb live fst snd].
  rewrite lookup_insert_ne by apply snapshot_key_ne_index. fold (indexOf m).
  fold (snapshotOf c). fold (entryOf c).
  destruct (exists_last (l := indexOf m)) as (older & r & Hidx).
  { intros Hnil. rewrite Hnil in Hlen. discriminate Hlen. }
  rewrite Hidx in Hlast, Hlen |- *. rewrite last_snoc in Hlast. injection Hlast as ->.
  rewrite length_app in Hlen. cbn [length] in Hlen.
  rewrite removelast_last.
  change (length (entryOf c :: older ++ [oldest])) with (S (length (older ++ [oldest]))).
  cbn [trimLoop]. change (length (entryOf c :: older ++ [oldest]))
    with (S (length (older ++ [oldest]))).
  rewrite length_app. cbn [length].
  destruct (Nat.ltb_spec MAX_SNAPSHOTS (S (length older + 1))) as [_ | Hbad];
    [| unfold MAX_SNAPSHOTS in *; lia].
  unfold pop.
  change (entryOf c :: older ++ [oldest])%list with ((entryOf c :: older) ++ [oldest])%list.
  rewrite last_snoc, removelast_last.
  destruct (String.eqb_spec (ent_id oldest) "") as [Hempty | _]; [contradiction |].
  cbn [negb]. unfold bind, try_catch, idbDelete, request, ret. cbn [faults idb live fst snd].
  rewrite trimLoop_short by (cbn [length]; unfold MAX_SNAPSHOTS in *; lia).
  cbn [faults idb live fst snd].
  assert (Hbody : forall d d' : doc,
             <[IDB_SNAPSHOT_INDEX_KEY := d]>
               (<[IDB_SNAPSHOT_PREFIX ++ call_now c := d']> m)
             !! (IDB_SNAPSHOT_PREFIX ++ ent_id oldest)
             = m !! (IDB_SNAPSHOT_PREFIX ++ ent_id oldest)).
  { intros d d'. rewrite lookup_insert_ne by (apply not_eq_sym, snapshot_key_ne_index).
    apply lookup_insert_ne. intros Heq. apply snapshot_key_inj in Heq. congruence. }
  destruct fs as [| [|] fs]; [| exfalso; apply Hhead; reflexivity |];
    cbn [fst snd idb]; unfold indexOf at 1; rewrite lookup_insert_eq;
    (split; [reflexivity |]); (split; [reflexivity |]); apply Hbody.
Qed.

Lemma createSnapshot_survives_failed_delete_witness :
  let w' := (createSnapshot emptyState "manual" "t20" fullIndexWorld).2 in
  indexOf (idb w') = entryOf (sampleCall 20) :: removelast (indexOf (idb fullIndexWorld))
  /\ idb w' !! (IDB_SNAPSHOT_PREFIX ++ "t0") = idb fullIndexWorld !! (IDB_SNAPSHOT_PREFIX ++ "t0").
Proof.
  pose proof (createSnapshot_survives_failed_delete (sampleCall 20) (entryOf (sampleCall 0)) []
                fullIndexWorld) as P.
  assert (Hnow : call_now (sampleCall 20) = "t20") by (vm_compute; reflexivity).
  change (call_state (sampleCall 20)) with emptyState in P.
  change (call_reason (sampleCall 20)) with "manual" in P.
  rewrite Hnow in P.
  assert (Hid : ent_id (entryOf (sampleCall 0)) = "t0") by (vm_compute; reflexivity).
  rewrite Hid in P.
  destruct (createSnapshot emptyState "manual" "t20" fullIndexWorld) as [r w'].
  cbn [snd].
  destruct P as (_ & Hindex & Hbody);
    [ reflexivity | discriminate | vm_compute; reflexivity | vm_compute; reflexivity
    | discriminate | discriminate | ].
  split; [exact Hindex | exact Hbody].
Defined.

Section Installing.

Variable sortByName : list Product -> list Product.
Hypothesis sortByName_perm : forall l, sortByName l ≡ₚ l.

(** What every handler that replaces the ledger does once the new ledger is
    at hand, on a world where no request fails. *)
Lemma install_ok {A} (state : State) (options : SaveOptions) (note : A) (nowSave rid : string)
    (w : World) :
  faults w = [] ->
  (let! _ := setLive state in
   let! _ := saveState state options nowSave rid in
   let! _ := rerender sortByName in
   ret note) w
  = (Ok note,
     {| live := set_products (sortByName (products state)) state;
        idb := <[IDB_META_KEY := DMeta (stampMeta options nowSave rid (metaOf (idb w)))]>
                 (<[IDB_STATE_KEY := DState state]> (idb w));
        faults := [] |}).
Proof.
  intros Hf. unfold bind at 1, setLive. cbn [fst snd].
  unfold bind at 1. rewrite saveState_ok by exact Hf. cbn [fst snd].
  reflexivity.
Qed.



(** X12. The snapshot list never acts without a body to act on: a click
    with no id or no action, a declined confirmation, a [download], or a
    [restore] of an id under which no snapshot is stored leaves the ledger
    and every document as they were, whatever requests fail; [download]
    hands out the stored ledger under a file name with [:] replaced. *)
Theorem snapshotList_without_a_body (act id : string) (confirmed : bool) (nowSave rid : string)
    (w : World) :
  act <> "restore" \/ confirmed = false
  \/ (forall s, idb w !! (IDB_SNAPSHOT_PREFIX ++ id) <> Some (DSnapshot s)) ->
  let (r, w') := snapshotList_click sortByName act id confirmed nowSave rid w in
  live w' = live w /\ idb w' = idb w
  /\ (r <> Ok (SnapToast "Restaurado"))
  /\ (forall name content, r = Ok (SnapDownload name content) ->
        act = "download"
        /\ (exists s, idb w !! (IDB_SNAPSHOT_PREFIX ++ id) = Some (DSnapshot s)
                      /\ content = snap_state s)
        /\ name = "ms_finanzas_snapshot_" ++ replaceAll ":" "-" id ++ ".json").
Proof.
  intros Hcase. unfold snapshotList_click.
  destruct (String.eqb act "" || String.eqb id "") eqn:Hblank.
  { cbn. repeat split; try reflexivity; discriminate. }
  destruct (String.eqb_spec act "restore") as [-> | Hact].
  - destruct confirmed; cbn [negb].
    + destruct Hcase as [Hcase | [Hcase | Hcase]]; [contradiction | discriminate |].
      unfold bind, idbGet, request, ret. destruct w as [l m [| [|] fs]]; cbn [faults idb live fst snd] in *.
      2: { repeat split; try reflexivity; discriminate. }
      all: destruct (m !! (IDB_SNAPSHOT_PREFIX ++ id)) as [[? | ? | ? | ? | s | ?] |] eqn:Hbody;
        try (exfalso; exact (Hcase s eq_refl)); cbn [fst snd live idb];
        repeat split; try reflexivity; discriminate.
    + cbn. repeat split; try reflexivity; discriminate.
  - destruct (String.eqb_spec act "download") as [-> | Hact'].
    + unfold bind, idbGet, request, ret. destruct w as [l m [| [|] fs]]; cbn [faults idb live fst snd] in *.
      2: { repeat split; try reflexivity; discriminate. }
      all: destruct (m !! (IDB_SNAPSHOT_PREFIX ++ id)) as [[? | ? | ? | ? | s | ?] |] eqn:Hbody;
        cbn [fst snd live idb]; (split; [reflexivity |]); (split; [reflexivity |]);
        (split; [discriminate |]); intros name content Heq; try discriminate Heq;
        injection Heq as <- <-; (split; [reflexivity |]);
        (split; [exists s; split; reflexivity | reflexivity]).
    + cbn. repeat split; try reflexivity; discriminate.
Qed.

End Installing.


Lemma snapshotList_without_a_body_witness :
  live (snapshotList_click sortByCodePoint "restore" "t0" true "2024-05-02T08:00:00.000Z"
          "device-a" (freshWorld sodaState)).2 = sodaState.
Proof.
  pose proof (snapshotList_without_a_body sortByCodePoint "restore" "t0" true
                "2024-05-02T08:00:00.000Z" "device-a" (freshWorld sodaState)) as P.
  destruct (snapshotList_click sortByCodePoint "restore" "t0" true "2024-05-02T08:00:00.000Z"
              "device-a" (freshWorld sodaState)) as [r w'].
  destruct P as (Hlive & _).
  - right. right. intros s. cbn [freshWorld idb]. rewrite lookup_empty. discriminate.
  - exact Hlive.
Defined.

(** ** Synchronisation *)

Section SyncRuns.

Variable Date_parse : string -> option Z.
Variable sortByName : list Product -> list Product.
Hypothesis sortByName_perm : forall l, sortByName l ≡ₚ l.

Lemma btnPull_ok (form : SyncConfig) (getReply : HttpReply) (remote : RemoteDoc)
    (o : RemoteState) (confirmed : bool) (nowSave nowPull rid : string) (w : World) :
  faults w = [] ->
  trim (url form) ≠ "" ->
  (forall w0, fetchRemoteSnapshot getReply w0 = (Ok (Some remote), w0)) ->
  r_state remote = StateObject o ->
  isValidStateShape (StateObject o) = true ->
  (pullNeedsConfirm Date_parse (js_or (stateUpdatedAt (metaOf (idb w))) None)
     (js_or (r_updatedAt remote) None) = true -> confirmed = true) ->
  btnPull_click Date_parse sortByName form getReply confirmed nowSave nowPull rid w
  = (Ok Downloaded,
     {| live := set_products (sortByName (products (adopt o))) (adopt o);
        idb := <[IDB_META_KEY :=
                   DMeta (set_lastSyncPullAt (Some nowPull)
                            (stampMeta (pullOptions remote (metaOf (idb w)) nowSave) nowSave rid
                               (metaOf (idb w))))]>
                 (<[IDB_META_KEY :=
                      DMeta (stampMeta (pullOptions remote (metaOf (idb w)) nowSave) nowSave rid
                               (metaOf (idb w)))]>
                    (<[IDB_STATE_KEY := DState (adopt o)]>
                       (<[IDB_SYNC_KEY := DSync (trimmedCfg form)]> (idb w))));
        faults := [] |}).
Proof.
  intros Hf Hurl Hfetch Hstate Hshape Hconfirm.
  assert (Hnonempty : String.eqb (trim (url form)) "" = false) by (apply String.eqb_neq, Hurl).
  destruct w as [l m fs]. cbn [faults idb] in *. subst fs.
  unfold btnPull_click, persistCfg, saveState, setMeta, getMeta, setLive, rerender, getLive,
    idbSet, idbGet, try_catch, bind, request, ret.
  cbn [faults idb live fst snd url]. rewrite Hnonempty, !Hfetch.
  cbn [faults idb live fst snd]. rewrite !Hstate, !Hshape.
  cbn [faults idb live fst snd negb].
  rewrite (lookup_insert_ne m _ _ _ sync_key_ne_meta).
  fold (metaOf m).
  assert (Hinstall :
    (if pullNeedsConfirm Date_parse (js_or (stateUpdatedAt (metaOf m)) None)
          (js_or (r_updatedAt remote) None)
     then negb confirmed else false) = false).
  { destruct (pullNeedsConfirm _ _ _); [rewrite Hconfirm by reflexivity |]; reflexivity. }
  destruct (pullNeedsConfirm Date_parse _ _); [rewrite (Hconfirm eq_refl) |];
    cbn [negb set_live faults idb live fst snd];
    rewrite (lookup_insert_ne _ _ _ _ state_key_ne_meta),
      (lookup_insert_ne m _ _ _ sync_key_ne_meta); fold (metaOf m);
    rewrite lookup_insert_eq; reflexivity.
Qed.

Lemma js_or_idem (a b : option string) : js_or (js_or a None) b = js_or a b.
Proof. unfold js_or. destruct (truthy a) eqn:Ha; [rewrite Ha |]; reflexivity. Qed.

Lemma isoNewerThan_irrefl (a : option string) : isoNewerThan Date_parse a a = false.
Proof.
  unfold isoNewerThan. destruct (parseComparableIso Date_parse a); [apply Z.ltb_irrefl | reflexivity].
Qed.

Lemma valid_untyped_truthy (j : json) :
  isValidStateShape (StateUntyped j) = true -> json_truthy j = true.
Proof.
  cbn [isValidStateShape]. destruct (json_truthy j); [reflexivity | discriminate].
Qed.

Lemma btnPull_untyped_ok (form : SyncConfig) (getReply : HttpReply) (remote : RemoteDoc)
    (j : json) (confirmed : bool) (nowSave nowPull rid : string) (w : World) :
  faults w = [] ->
  trim (url form) ≠ "" ->
  (forall w0, fetchRemoteSnapshot getReply w0 = (Ok (Some remote), w0)) ->
  r_state remote = StateUntyped j ->
  isValidStateShape (StateUntyped j) = true ->
  (pullNeedsConfirm Date_parse (js_or (stateUpdatedAt (metaOf (idb w))) None)
     (js_or (r_updatedAt remote) None) = true -> confirmed = true) ->
  btnPull_click Date_parse sortByName form getReply confirmed nowSave nowPull rid w
  = (Ok (DownloadedUntyped j),
     {| live := live w;
        idb := <[IDB_META_KEY :=
                   DMeta (set_lastSyncPullAt (Some nowPull)
                            (stampMeta (pullOptions remote (metaOf (idb w)) nowSave) nowSave rid
                               (metaOf (idb w))))]>
                 (<[IDB_META_KEY :=
                      DMeta (stampMeta (pullOptions remote (metaOf (idb w)) nowSave) nowSave rid
                               (metaOf (idb w)))]>
                    (<[IDB_STATE_KEY := DUntyped j]>
                       (<[IDB_SYNC_KEY := DSync (trimmedCfg form)]> (idb w))));
        faults := [] |}).
Proof.
  intros Hf Hurl Hfetch Hstate Hshape Hconfirm.
  assert (Hnonempty : String.eqb (trim (url form)) "" = false) by (apply String.eqb_neq, Hurl).
  pose proof (valid_untyped_truthy j Hshape) as Htruthy.
  destruct w as [l m fs]. cbn [faults idb] in *. subst fs.
  unfold btnPull_click, persistCfg, untyped, saveUntyped, setMeta, getMeta, setLive, rerender,
    getLive, idbSet, idbGet, try_catch, bind, request, ret.
  cbn [faults idb live fst snd url]. rewrite Hnonempty, !Hfetch.
  cbn [faults idb live fst snd]. rewrite !Hstate, Htruthy, !Hshape.
  cbn [faults idb live fst snd negb].
  rewrite (lookup_insert_ne m _ _ _ sync_key_ne_meta).
  fold (metaOf m).
  destruct (pullNeedsConfirm Date_parse _ _); [rewrite (Hconfirm eq_refl) |];
    cbn [negb set_live faults idb live fst snd];
    rewrite (lookup_insert_ne _ _ _ _ state_key_ne_meta),
      (lookup_insert_ne m _ _ _ sync_key_ne_meta); fold (metaOf m);
    rewrite lookup_insert_eq; reflexivity.
Qed.

(** X13. A pull that goes through (the server answers with a document that
    passes the shape check, the confirmation is not declined, no request
    fails) stamps the metadata with the remote [updatedAt] when there is one
    (the pull time otherwise), with the source [sync-pull], and records the
    pull time; the time of the last push is kept. When the [state] of the
    document is a ledger, the pull stores it under the state key and shows
    it. When it passes the check without being a ledger (the check looks at
    no element), the pull stores that value under the state key all the
    same, and ends with it in the [state] variable. *)
Theorem pull_installs_the_remote_ledger (form : SyncConfig) (getReply : HttpReply)
    (remote : RemoteDoc) (confirmed : bool) (nowSave nowPull rid : string)
    (w : World) :
  faults w = [] ->
  trim (url form) ≠ "" ->
  (forall w0, fetchRemoteSnapshot getReply w0 = (Ok (Some remote), w0)) ->
  isValidStateShape (r_state remote) = true ->
  (pullNeedsConfirm Date_parse (js_or (stateUpdatedAt (metaOf (idb w))) None)
     (js_or (r_updatedAt remote) None) = true -> confirmed = true) ->
  let (r, w') := btnPull_click Date_parse sortByName form getReply confirmed nowSave nowPull rid
                   w in
  match r_state remote with
  | StateObject o =>
      r = Ok Downloaded
      /\ idb w' !! IDB_STATE_KEY = Some (DState (adopt o))
      /\ products (live w') ≡ₚ elements_of (r_products o)
      /\ set_products [] (live w') = set_products [] (adopt o)
  | StateUntyped j =>
      r = Ok (DownloadedUntyped j)
      /\ idb w' !! IDB_STATE_KEY = Some (DUntyped j)
      /\ live w' = live w
  | _ => False
  end
  /\ stateUpdatedAt (metaOf (idb w'))
     = js_or (js_or (r_updatedAt remote) (Some nowSave)) (Some nowSave)
  /\ stateUpdatedSource (metaOf (idb w')) = Some "sync-pull"
  /\ lastSyncPullAt (metaOf (idb w')) = Some nowPull
  /\ lastSyncPushAt (metaOf (idb w')) = lastSyncPushAt (metaOf (idb w)).
Proof.
  intros Hf Hurl Hfetch Hshape Hconfirm.
  destruct (r_state remote) as [| | o | j] eqn:Hstate; try discriminate Hshape.
  - rewrite (btnPull_ok form getReply remote o confirmed nowSave nowPull rid w
               Hf Hurl Hfetch Hstate Hshape Hconfirm).
    cbn [live idb]. rewrite metaOf_insert.
    split.
    { split; [reflexivity |].
      split; [rewrite !lookup_insert_ne by discriminate; apply lookup_insert_eq |].
      split; [apply sortByName_perm | reflexivity]. }
    cbn [set_lastSyncPullAt stampMeta pullOptions stateUpdatedAt stateUpdatedSource
         lastSyncPullAt lastSyncPushAt updatedAt source].
    rewrite (js_or_idem (r_updatedAt remote) (Some nowSave)). repeat split; reflexivity.
  - rewrite (btnPull_untyped_ok form getReply remote j confirmed nowSave nowPull rid w
               Hf Hurl Hfetch Hstate Hshape Hconfirm).
    cbn [live idb]. rewrite metaOf_insert.
    split.
    { split; [reflexivity |].
      split; [rewrite !lookup_insert_ne by discriminate; apply lookup_insert_eq |].
      reflexivity. }
    cbn [set_lastSyncPullAt stampMeta pullOptions stateUpdatedAt stateUpdatedSource
         lastSyncPullAt lastSyncPushAt updatedAt source].
    rewrite (js_or_idem (r_updatedAt remote) (Some nowSave)). repeat split; reflexivity.
Qed.

(** X14. After such a pull of a document that carries an [updatedAt] the
    two sides agree: the local stamp is the remote one, so pulling the same
    document again installs it without asking, and the push guard is down
    as well. *)
Theorem pull_then_no_confirmation (form : SyncConfig) (getReply : HttpReply)
    (remote : RemoteDoc) (o : RemoteState) (confirmed : bool) (nowSave nowPull rid : string)
    (nowSave' nowPull' rid' : string) (w : World) :
  faults w = [] ->
  trim (url form) ≠ "" ->
  (forall w0, fetchRemoteSnapshot getReply w0 = (Ok (Some remote), w0)) ->
  r_state remote = StateObject o ->
  isValidStateShape (StateObject o) = true ->
  (pullNeedsConfirm Date_parse (js_or (stateUpdatedAt (metaOf (idb w))) None)
     (js_or (r_updatedAt remote) None) = true -> confirmed = true) ->
  truthy (r_updatedAt remote) = true ->
  let w' := (btnPull_click Date_parse sortByName form getReply confirmed nowSave nowPull rid
               w).2 in
  stateUpdatedAt (metaOf (idb w')) = r_updatedAt remote
  /\ (btnPull_click Date_parse sortByName form getReply false nowSave' nowPull' rid' w').1
     = Ok Downloaded
  /\ pushNeedsConfirm Date_parse (push_localUpdatedAt (metaOf (idb w')))
       (push_remoteUpdatedAt (Some remote)) = false.
Proof.
  intros Hf Hurl Hfetch Hstate Hshape Hconfirm Hremote.
  rewrite (btnPull_ok form getReply remote o confirmed nowSave nowPull rid w
             Hf Hurl Hfetch Hstate Hshape Hconfirm).
  cbn [snd].
  set (w' := {| live := _; idb := _; faults := [] |}).
  assert (Hor : forall b, js_or (r_updatedAt remote) b = r_updatedAt remote).
  { intros b. unfold js_or. rewrite Hremote. reflexivity. }
  assert (Hstamp : stateUpdatedAt (metaOf (idb w')) = r_updatedAt remote).
  { unfold w'. cbn [idb]. rewrite metaOf_insert.
    cbn [set_lastSyncPullAt stampMeta pullOptions stateUpdatedAt updatedAt].
    rewrite !Hor. reflexivity. }
  split; [exact Hstamp |]. split.
  - rewrite (btnPull_ok form getReply remote o false nowSave' nowPull' rid' w');
      [reflexivity | reflexivity | exact Hurl | exact Hfetch | exact Hstate | exact Hshape |].
    rewrite Hstamp. unfold pullNeedsConfirm. rewrite isoNewerThan_irrefl, andb_false_r.
    discriminate.
  - unfold pushNeedsConfirm, push_localUpdatedAt, push_remoteUpdatedAt. rewrite Hstamp, !Hor.
    rewrite isoNewerThan_irrefl. apply andb_false_r.
Qed.

Ltac run_push Hnonempty Hfetch Hput m :=
  unfold btnPush_click, persistCfg, ensureDeviceId, setMeta, getMeta, getLive,
    idbSet, idbGet, try_catch, bind, request, ret;
  cbn [faults idb live fst snd url]; rewrite Hnonempty, !Hfetch;
  cbn [faults idb live fst snd];
  rewrite (lookup_insert_ne m _ _ _ sync_key_ne_meta); fold (metaOf m).

(** X15. A push that goes through (both requests to the server succeed,
    the confirmation is not declined, no request to the store fails) sends
    the ledger on screen, stamped with the local [stateUpdatedAt] (the
    current time when there is none) and the device id, and records the push
    time; the ledger and its stamp are not changed. *)
Theorem push_uploads_the_live_ledger (form : SyncConfig) (getReply putReply : HttpReply)
    (remote : option RemoteDoc) (confirmed : bool) (nowPayload nowPush rid : string)
    (w : World) :
  faults w = [] ->
  trim (url form) ≠ "" ->
  (forall w0, fetchRemoteSnapshot getReply w0 = (Ok remote, w0)) ->
  (forall w0, pushRemoteSnapshot putReply w0 = (Ok tt, w0)) ->
  (pushNeedsConfirm Date_parse (push_localUpdatedAt (metaOf (idb w)))
     (push_remoteUpdatedAt remote) = true -> confirmed = true) ->
  let (r, w') := btnPush_click Date_parse form getReply putReply confirmed nowPayload nowPush
                   rid w in
  r = Ok (Uploaded {| pl_app := "ms-finanzas"; pl_format := 1;
                      pl_updatedAt := js_or (stateUpdatedAt (metaOf (idb w))) (Some nowPayload);
                      pl_updatedBy := js_or (deviceId (metaOf (idb w))) (Some rid);
                      pl_state := live w |})
  /\ live w' = live w
  /\ idb w' !! IDB_STATE_KEY = idb w !! IDB_STATE_KEY
  /\ lastSyncPushAt (metaOf (idb w')) = Some nowPush
  /\ deviceId (metaOf (idb w')) = js_or (deviceId (metaOf (idb w))) (Some rid)
  /\ stateUpdatedAt (metaOf (idb w')) = stateUpdatedAt (metaOf (idb w)).
Proof.
  intros Hf Hurl Hfetch Hput Hconfirm.
  assert (Hnonempty : String.eqb (trim (url form)) "" = false) by (apply String.eqb_neq, Hurl).
  destruct w as [l m fs]. cbn [faults idb live] in *. subst fs.
  run_push Hnonempty Hfetch Hput m.
  unfold push_localUpdatedAt in *.
  rewrite (js_or_idem (stateUpdatedAt (metaOf m)) (Some nowPayload)).
  assert (Hby : js_or (deviceId (metaOf m)) (Some rid)
                = if truthy (deviceId (metaOf m)) then deviceId (metaOf m) else Some rid)
    by reflexivity.
  rewrite !Hby. clear Hby.
  destruct (pushNeedsConfirm Date_parse _ _); [rewrite (Hconfirm eq_refl) |];
    cbn [negb];
    destruct (truthy (deviceId (metaOf m))) eqn:Hdev;
    cbn [faults idb live fst snd negb]; rewrite ?Hput; cbn [faults idb live fst snd];
    rewrite ?(lookup_insert_ne m _ _ _ sync_key_ne_meta); fold (metaOf m);
    rewrite ?Hdev; cbn [faults idb live fst snd negb]; rewrite ?Hput;
    cbn [faults idb live fst snd]; rewrite ?lookup_insert_eq;
    rewrite ?(lookup_insert_ne m _ _ _ sync_key_ne_meta); fold (metaOf m);
    cbn [faults idb live fst snd deviceId];
    (split; [reflexivity |]); (split; [reflexivity |]);
    (split; [rewrite ?lookup_insert_ne by discriminate; reflexivity |]);
    rewrite metaOf_insert; cbn [set_lastSyncPushAt lastSyncPushAt deviceId stateUpdatedAt];
    repeat split; reflexivity.
Qed.

(** X16. A push whose upload is refused or does not reach the server ends
    with the error of the upload and does not record a push time. *)
Theorem failed_push_is_not_recorded (form : SyncConfig) (getReply putReply : HttpReply)
    (remote : option RemoteDoc) (confirmed : bool) (err nowPayload nowPush rid : string)
    (w : World) :
  faults w = [] ->
  trim (url form) ≠ "" ->
  (forall w0, fetchRemoteSnapshot getReply w0 = (Ok remote, w0)) ->
  (forall w0, pushRemoteSnapshot putReply w0 = (Throw err, w0)) ->
  (pushNeedsConfirm Date_parse (push_localUpdatedAt (metaOf (idb w)))
     (push_remoteUpdatedAt remote) = true -> confirmed = true) ->
  let (r, w') := btnPush_click Date_parse form getReply putReply confirmed nowPayload nowPush
                   rid w in
  r = Ok (SyncError err)
  /\ lastSyncPushAt (metaOf (idb w')) = lastSyncPushAt (metaOf (idb w)).
Proof.
  intros Hf Hurl Hfetch Hput Hconfirm.
  assert (Hnonempty : String.eqb (trim (url form)) "" = false) by (apply String.eqb_neq, Hurl).
  destruct w as [l m fs]. cbn [faults idb live] in *. subst fs.
  run_push Hnonempty Hfetch Hput m.
  destruct (pushNeedsConfirm Date_parse _ _); [rewrite (Hconfirm eq_refl) |];
    cbn [negb];
    destruct (truthy (deviceId (metaOf m))) eqn:Hdev;
    cbn [faults idb live fst snd negb]; rewrite ?Hput; cbn [faults idb live fst snd];
    rewrite ?(lookup_insert_ne m _ _ _ sync_key_ne_meta); fold (metaOf m);
    rewrite ?Hdev; cbn [faults idb live fst snd negb]; rewrite ?Hput;
    cbn [faults idb live fst snd];
    (split; [reflexivity |]);
    unfold metaOf at 1; rewrite ?lookup_insert_eq;
    rewrite ?(lookup_insert_ne m _ _ _ sync_key_ne_meta); reflexivity.
Qed.


(** X18. The pull assigns the remote ledger to [state] before it is
    written: when the write of the ledger is rejected, the handler reports
    the error, the store keeps the old ledger and its metadata, and the
    ledger in memory is already the remote one. *)
Theorem pull_with_a_failed_write (form : SyncConfig) (getReply : HttpReply)
    (remote : RemoteDoc) (o : RemoteState) (confirmed : bool) (nowSave nowPull rid : string)
    (fs : list bool) (w : World) :
  faults w = false :: false :: true :: fs ->
  trim (url form) ≠ "" ->
  (forall w0, fetchRemoteSnapshot getReply w0 = (Ok (Some remote), w0)) ->
  r_state remote = StateObject o ->
  isValidStateShape (StateObject o) = true ->
  (pullNeedsConfirm Date_parse (js_or (stateUpdatedAt (metaOf (idb w))) None)
     (js_or (r_updatedAt remote) None) = true -> confirmed = true) ->
  let (r, w') := btnPull_click Date_parse sortByName form getReply confirmed nowSave nowPull rid
                   w in
  r = Ok (SyncError "IDBRequest error")
  /\ live w' = adopt o
  /\ idb w' !! IDB_STATE_KEY = idb w !! IDB_STATE_KEY
  /\ idb w' !! IDB_META_KEY = idb w !! IDB_META_KEY.
Proof.
  intros Hf Hurl Hfetch Hstate Hshape Hconfirm.
  assert (Hnonempty : String.eqb (trim (url form)) "" = false) by (apply String.eqb_neq, Hurl).
  destruct w as [l m fs0]. cbn [faults idb live] in *. subst fs0.
  unfold btnPull_click, persistCfg, saveState, setMeta, getMeta, setLive, rerender, getLive,
    idbSet, idbGet, try_catch, bind, request, ret.
  cbn [faults idb live fst snd url]. rewrite Hnonempty, !Hfetch.
  cbn [faults idb live fst snd]. rewrite !Hstate, !Hshape.
  cbn [faults idb live fst snd negb].
  rewrite (lookup_insert_ne m _ _ _ sync_key_ne_meta).
  fold (metaOf m).
  destruct (pullNeedsConfirm Date_parse _ _); [rewrite (Hconfirm eq_refl) |];
    cbn [negb set_live faults idb live fst snd];
    (split; [reflexivity |]); (split; [reflexivity |]);
    split; apply lookup_insert_ne; discriminate.
Qed.

End SyncRuns.

Lemma pull_installs_the_remote_ledger_witness :
  (let w' := (btnPull_click iso_parse sortByCodePoint dav_form get_2024_05 false
                "2024-05-02T08:00:00.000Z" "2024-05-02T08:00:00.001Z" "device-a"
                (freshWorld sodaState)).2 in
   idb w' !! IDB_STATE_KEY = Some (DState emptyState)
   /\ stateUpdatedSource (metaOf (idb w')) = Some "sync-pull")
  /\ (let (r, w') := btnPull_click iso_parse sortByCodePoint dav_form get_untyped false
                       "2024-05-02T08:00:00.000Z" "2024-05-02T08:00:00.001Z" "device-a"
                       (freshWorld sodaState) in
      r = Ok (DownloadedUntyped untyped_ledger)
      /\ idb w' !! IDB_STATE_KEY = Some (DUntyped untyped_ledger)).
Proof.
  split.
  - pose proof (pull_installs_the_remote_ledger iso_parse sortByCodePoint sortByCodePoint_perm
                  dav_form get_2024_05 remote_2024_05 false
                  "2024-05-02T08:00:00.000Z" "2024-05-02T08:00:00.001Z" "device-a"
                  (freshWorld sodaState) eq_refl) as P.
    cbn zeta.
    destruct (btnPull_click iso_parse sortByCodePoint dav_form get_2024_05 false
                "2024-05-02T08:00:00.000Z" "2024-05-02T08:00:00.001Z" "device-a"
                (freshWorld sodaState)) as [r w'].
    destruct P as ((_ & Hstored & _) & _ & Hsource & _);
      [ vm_compute; discriminate | intros w0; reflexivity | reflexivity
      | intros Hguard; vm_compute in Hguard; discriminate Hguard | ].
    split; [exact Hstored | exact Hsource].
  - pose proof (pull_installs_the_remote_ledger iso_parse sortByCodePoint sortByCodePoint_perm
                  dav_form get_untyped remote_untyped false
                  "2024-05-02T08:00:00.000Z" "2024-05-02T08:00:00.001Z" "device-a"
                  (freshWorld sodaState) eq_refl) as P.
    destruct (btnPull_click iso_parse sortByCodePoint dav_form get_untyped false
                "2024-05-02T08:00:00.000Z" "2024-05-02T08:00:00.001Z" "device-a"
                (freshWorld sodaState)) as [r w'].
    destruct P as ((Hr & Hstored & _) & _);
      [ vm_compute; discriminate | intros w0; reflexivity | reflexivity
      | intros Hguard; vm_compute in Hguard; discriminate Hguard | ].
    split; [exact Hr | exact Hstored].
Defined.

Lemma pull_then_no_confirmation_witness :
  let w' := (btnPull_click iso_parse sortByCodePoint dav_form get_2024_05 false
               "2024-05-02T08:00:00.000Z" "2024-05-02T08:00:00.001Z" "device-a"
               (freshWorld sodaState)).2 in
  pushNeedsConfirm iso_parse (push_localUpdatedAt (metaOf (idb w')))
    (push_remoteUpdatedAt (Some remote_2024_05)) = false.
Proof.
  pose proof (pull_then_no_confirmation iso_parse sortByCodePoint
                dav_form get_2024_05 remote_2024_05 ledger_2024_05 false
                "2024-05-02T08:00:00.000Z" "2024-05-02T08:00:00.001Z" "device-a"
                "2024-05-03T08:00:00.000Z" "2024-05-03T08:00:00.001Z" "device-a"
                (freshWorld sodaState) eq_refl) as P.
  cbn zeta in *.
  destruct P as (_ & _ & Hpush);
    [ vm_compute; discriminate | intros w0; reflexivity | reflexivity | reflexivity
    | intros Hguard; vm_compute in Hguard; discriminate Hguard | reflexivity | ].
  exact Hpush.
Defined.

Lemma push_uploads_the_live_ledger_witness :
  exists p, (btnPush_click iso_parse dav_form get_nothing put_created false
               "2024-05-02T08:00:00.000Z" "2024-05-02T08:00:00.001Z" "device-a"
               (freshWorld sodaState)).1 = Ok (Uploaded p)
            /\ pl_state p = sodaState.
Proof.
  pose proof (push_uploads_the_live_ledger iso_parse dav_form get_nothing put_created None false
                "2024-05-02T08:00:00.000Z" "2024-05-02T08:00:00.001Z" "device-a"
                (freshWorld sodaState) eq_refl) as P.
  destruct (btnPush_click iso_parse dav_form get_nothing put_created false
              "2024-05-02T08:00:00.000Z" "2024-05-02T08:00:00.001Z" "device-a"
              (freshWorld sodaState)) as [r w'].
  destruct P as (Hr & _);
    [ vm_compute; discriminate | intros w0; reflexivity | intros w0; reflexivity
    | intros Hguard; vm_compute in Hguard; discriminate Hguard | ].
  eexists. split; [exact Hr | reflexivity].
Defined.

Lemma failed_push_is_not_recorded_witness :
  (btnPush_click iso_parse dav_form get_nothing (NetworkError "offline") false
     "2024-05-02T08:00:00.000Z" "2024-05-02T08:00:00.001Z" "device-a"
     (freshWorld sodaState)).1 = Ok (SyncError "offline").
Proof.
  pose proof (failed_push_is_not_recorded iso_parse dav_form get_nothing (NetworkError "offline")
                None false "offline"
                "2024-05-02T08:00:00.000Z" "2024-05-02T08:00:00.001Z" "device-a"
                (freshWorld sodaState) eq_refl) as P.
  destruct (btnPush_click iso_parse dav_form get_nothing (NetworkError "offline") false
              "2024-05-02T08:00:00.000Z" "2024-05-02T08:00:00.001Z" "device-a"
              (freshWorld sodaState)) as [r w'].
  destruct P as (Hr & _);
    [ vm_compute; discriminate | intros w0; reflexivity | intros w0; reflexivity
    | intros Hguard; vm_compute in Hguard; discriminate Hguard | ].
  exact Hr.
Defined.


Lemma pull_with_a_failed_write_witness :
  let w' := (btnPull_click iso_parse sortByCodePoint dav_form get_2024_05 false
               "2024-05-02T08:00:00.000Z" "2024-05-02T08:00:00.001Z" "device-a"
               thirdRequestFails).2 in
  live w' = emptyState /\ idb w' !! IDB_STATE_KEY = None.
Proof.
  pose proof (pull_with_a_failed_write iso_parse sortByCodePoint
                dav_form get_2024_05 remote_2024_05 ledger_2024_05 false
                "2024-05-02T08:00:00.000Z" "2024-05-02T08:00:00.001Z" "device-a" []
                thirdRequestFails eq_refl) as P.
  cbn zeta.
  destruct (btnPull_click iso_parse sortByCodePoint dav_form get_2024_05 false
              "2024-05-02T08:00:00.000Z" "2024-05-02T08:00:00.001Z" "device-a"
              thirdRequestFails) as [r w'].
  destruct P as (_ & Hlive & Hstored & _);
    [ vm_compute; discriminate | intros w0; reflexivity | reflexivity | reflexivity
    | intros Hguard; vm_compute in Hguard; discriminate Hguard | ].
  split; [exact Hlive | exact Hstored].
Defined.

(** ** The automatic sync, the import and the reset *)

Section Replacing.

Variable Date_parse : string -> option Z.
Variable sortByName : list Product -> list Product.
Hypothesis sortByName_perm : forall l, sortByName l ≡ₚ l.

Lemma autoSync_returns (online : bool) (getReply : HttpReply) (nowSave rid : string) (w : World) :
  exists outcome,
    (autoSync Date_parse sortByName online getReply nowSave rid w).1 = Ok outcome.
Proof.
  unfold autoSync, try_catch, ret.
  destruct (bind getSyncConfig _ w) as [[outcome | err] w']; eexists; reflexivity.
Qed.

(** X19. The automatic sync never throws, whatever requests fail and
    whatever the server answers. When no request fails, it replaces the
    ledger only if the server answered with a document that passes the shape
    check and whose [updatedAt] is strictly newer than the local stamp (in
    the sense of [isoNewerThan]). Then, if the [state] of the document is a
    ledger, it is stored, stamped [sync-auto-pull], and shown; if it is not
    (the check looks at no element), it is stored and stamped all the same
    and the sync ends with that value in the [state] variable. In every other
    case the ledger and the store are exactly as before. *)
Theorem autoSync_applies_only_newer (online : bool) (getReply : HttpReply)
    (nowSave rid : string) (w : World) :
  (exists outcome,
      (autoSync Date_parse sortByName online getReply nowSave rid w).1 = Ok outcome)
  /\ (faults w = [] ->
      let (r, w') := autoSync Date_parse sortByName online getReply nowSave rid w in
      (r = Ok (Status "Auto-sync: datos remotos aplicados") ->
         exists remote o,
           fetchRemoteSnapshot getReply w = (Ok (Some remote), w)
           /\ r_state remote = StateObject o
           /\ isValidStateShape (StateObject o) = true
           /\ isoNewerThan Date_parse (js_or (r_updatedAt remote) None)
                (js_or (stateUpdatedAt (metaOf (idb w))) None) = true
           /\ idb w' !! IDB_STATE_KEY = Some (DState (adopt o))
           /\ stateUpdatedSource (metaOf (idb w')) = Some "sync-auto-pull"
           /\ products (live w') ≡ₚ products (adopt o))
      /\ (forall j, r = Ok (AppliedUntyped j) ->
            exists remote,
              fetchRemoteSnapshot getReply w = (Ok (Some remote), w)
              /\ r_state remote = StateUntyped j
              /\ isValidStateShape (StateUntyped j) = true
              /\ isoNewerThan Date_parse (js_or (r_updatedAt remote) None)
                   (js_or (stateUpdatedAt (metaOf (idb w))) None) = true
              /\ idb w' !! IDB_STATE_KEY = Some (DUntyped j)
              /\ stateUpdatedSource (metaOf (idb w')) = Some "sync-auto-pull"
              /\ live w' = live w)
      /\ (r <> Ok (Status "Auto-sync: datos remotos aplicados") ->
          (forall j, r <> Ok (AppliedUntyped j)) -> w' = w)
      /\ (forall c remote,
            idb w !! IDB_SYNC_KEY = Some (DSync c) ->
            auto c = true -> url c <> "" -> online = true ->
            fetchRemoteSnapshot getReply w = (Ok (Some remote), w) ->
            isValidStateShape (r_state remote) = true ->
            isoNewerThan Date_parse (js_or (r_updatedAt remote) None)
              (js_or (stateUpdatedAt (metaOf (idb w))) None) = true ->
            match r_state remote with
            | StateUntyped j => r = Ok (AppliedUntyped j)
            | _ => r = Ok (Status "Auto-sync: datos remotos aplicados")
            end)).
Proof.
  split; [apply autoSync_returns |].
  intros Hf. destruct w as [l m fs]. cbn [faults idb] in *. subst fs.
  unfold autoSync, getSyncConfig, getMeta, idbGet, try_catch, bind, request, ret.
  cbn [faults idb live fst snd].
  set (c := match m !! IDB_SYNC_KEY with Some (DSync c) => c | _ => _ end).
  assert (Hquiet : forall (fetched : result (option RemoteDoc) * World) (line : string) (w0 : World),
             line <> "Auto-sync: datos remotos aplicados" ->
             (forall c0 remote,
                 m !! IDB_SYNC_KEY = Some (DSync c0) ->
                 auto c0 = true -> url c0 <> "" -> online = true ->
                 fetched
                 = (Ok (Some remote), {| live := l; idb := m; faults := [] |}) ->
                 isValidStateShape (r_state remote) = true ->
                 isoNewerThan Date_parse (js_or (r_updatedAt remote) None)
                   (js_or (stateUpdatedAt (metaOf m)) None) = true -> False) ->
             w0 = {| live := l; idb := m; faults := [] |} ->
             (Ok (Status line) = Ok (Status "Auto-sync: datos remotos aplicados") ->
                exists remote o,
                  fetched
                  = (Ok (Some remote), {| live := l; idb := m; faults := [] |})
                  /\ r_state remote = StateObject o
                  /\ isValidStateShape (StateObject o) = true
                  /\ isoNewerThan Date_parse (js_or (r_updatedAt remote) None)
                       (js_or (stateUpdatedAt (metaOf m)) None) = true
                  /\ idb w0 !! IDB_STATE_KEY = Some (DState (adopt o))
                  /\ stateUpdatedSource (metaOf (idb w0)) = Some "sync-auto-pull"
                  /\ products (live w0) ≡ₚ products (adopt o))
             /\ (forall j, Ok (Status line) = Ok (AppliedUntyped j) ->
                   exists remote,
                     fetched
                     = (Ok (Some remote), {| live := l; idb := m; faults := [] |})
                     /\ r_state remote = StateUntyped j
                     /\ isValidStateShape (StateUntyped j) = true
                     /\ isoNewerThan Date_parse (js_or (r_updatedAt remote) None)
                          (js_or (stateUpdatedAt (metaOf m)) None) = true
                     /\ idb w0 !! IDB_STATE_KEY = Some (DUntyped j)
                     /\ stateUpdatedSource (metaOf (idb w0)) = Some "sync-auto-pull"
                     /\ live w0 = l)
             /\ (Ok (Status line) <> Ok (Status "Auto-sync: datos remotos aplicados") ->
                 (forall j, Ok (Status line) <> Ok (AppliedUntyped j)) ->
                 w0 = {| live := l; idb := m; faults := [] |})
             /\ (forall c0 remote,
                   m !! IDB_SYNC_KEY = Some (DSync c0) ->
                   auto c0 = true -> url c0 <> "" -> online = true ->
                   fetched
                   = (Ok (Some remote), {| live := l; idb := m; faults := [] |}) ->
                   isValidStateShape (r_state remote) = true ->
                   isoNewerThan Date_parse (js_or (r_updatedAt remote) None)
                     (js_or (stateUpdatedAt (metaOf m)) None) = true ->
                   match r_state remote with
                   | StateUntyped j => Ok (Status line) = Ok (AppliedUntyped j)
                   | _ => Ok (Status line) = Ok (Status "Auto-sync: datos remotos aplicados")
                   end)).
  { intros fetched line w0 Hline Hcant ->.
    split; [intros [= Heq]; contradiction |].
    split; [intros j Hj; discriminate Hj |].
    split; [reflexivity |].
    intros c0 remote H1 H2 H3 H4 H5 H6 H7. destruct (Hcant c0 remote H1 H2 H3 H4 H5 H6 H7). }
  destruct (auto c && negb (String.eqb (url c) "") && online) eqn:Hon.
  2: { apply (Hquiet _ _ {| live := l; idb := m; faults := [] |}); [destruct online; discriminate | | reflexivity].
       intros c0 remote Hc0 Hauto Hurl Honline _ _ _.
       subst c. rewrite Hc0 in Hon. rewrite Hauto, Honline in Hon.
       apply String.eqb_neq in Hurl. rewrite Hurl in Hon. discriminate Hon. }
  assert (Honline : online = true) by (apply andb_true_iff in Hon as [_ ?]; assumption).
  subst online.
  destruct getReply as [msg | status body]; cbn [fetchRemoteSnapshot].
  { unfold throw. apply (Hquiet _ _ {| live := l; idb := m; faults := [] |}); [discriminate | | reflexivity].
    intros c0 remote _ _ _ _ Hfetch. discriminate Hfetch. }
  destruct (status =? 404) eqn:H404.
  { unfold ret. cbn [faults idb live fst snd].
    apply (Hquiet _ _ {| live := l; idb := m; faults := [] |}); [discriminate | | reflexivity].
    intros c0 remote _ _ _ _ Hfetch. discriminate Hfetch. }
  destruct (negb (res_ok status)) eqn:Hok.
  { unfold throw. apply (Hquiet _ _ {| live := l; idb := m; faults := [] |}); [discriminate | | reflexivity].
    intros c0 remote _ _ _ _ Hfetch. discriminate Hfetch. }
  destruct body as [remote |].
  2: { unfold throw. apply (Hquiet _ _ {| live := l; idb := m; faults := [] |}); [discriminate | | reflexivity].
       intros c0 remote _ _ _ _ Hfetch. discriminate Hfetch. }
  unfold ret. cbn [faults idb live fst snd]. fold (metaOf m).
  destruct (r_state remote) as [| | o | j] eqn:Hstate.
  1-2: apply (Hquiet _ _ {| live := l; idb := m; faults := [] |}); [discriminate | | reflexivity];
    intros c0 remote0 _ _ _ _ [= <-] Hshape _; rewrite Hstate in Hshape; discriminate Hshape.
  - destruct (isValidStateShape (StateObject o)) eqn:Hshape.
    2: { apply (Hquiet _ _ {| live := l; idb := m; faults := [] |}); [discriminate | | reflexivity].
         intros c0 remote0 _ _ _ _ [= <-] Hshape0 _. rewrite Hstate in Hshape0. congruence. }
    destruct (isoNewerThan Date_parse _ _) eqn:Hnewer.
    2: { apply (Hquiet _ _ {| live := l; idb := m; faults := [] |}); [discriminate | | reflexivity].
         intros c0 remote0 _ _ _ _ [= <-] _ Hnewer0. congruence. }
    cbn [andb].
    pose proof (install_ok sortByName (adopt o)
                  {| updatedAt := js_or (js_or (r_updatedAt remote) None) (Some nowSave);
                     updatedBy := js_or (r_updatedBy remote) (deviceId (metaOf m));
                     source := Some "sync-auto-pull" |}
                  (Status "Auto-sync: datos remotos aplicados") nowSave rid
                  {| live := l; idb := m; faults := [] |} eq_refl) as Hinstall.
    unfold bind, ret in Hinstall. rewrite Hinstall. clear Hinstall. cbn [idb live].
    split.
    { intros _. exists remote, o.
      split; [reflexivity |]. split; [exact Hstate |]. split; [exact Hshape |].
      split; [exact Hnewer |].
      split; [rewrite lookup_insert_ne by discriminate; apply lookup_insert_eq |].
      split; [rewrite metaOf_insert; reflexivity |].
      apply sortByName_perm. }
    split; [intros j Hj; discriminate Hj |].
    split; [intros Hne; exfalso; apply Hne; reflexivity |].
    intros c0 remote0 _ _ _ _ [= <-] _ _. rewrite Hstate. reflexivity.
  - destruct (isValidStateShape (StateUntyped j)) eqn:Hshape.
    2: { apply (Hquiet _ _ {| live := l; idb := m; faults := [] |}); [discriminate | | reflexivity].
         intros c0 remote0 _ _ _ _ [= <-] Hshape0 _. rewrite Hstate in Hshape0. congruence. }
    destruct (isoNewerThan Date_parse _ _) eqn:Hnewer.
    2: { apply (Hquiet _ _ {| live := l; idb := m; faults := [] |}); [discriminate | | reflexivity].
         intros c0 remote0 _ _ _ _ [= <-] _ Hnewer0. congruence. }
    cbn [andb]. unfold untyped.
    rewrite saveUntyped_ok by reflexivity. cbn [idb live fst snd].
    split; [intros Hr; discriminate Hr |].
    split.
    { intros j' [= <-]. exists remote.
      split; [reflexivity |]. split; [exact Hstate |]. split; [exact Hshape |].
      split; [exact Hnewer |].
      split; [rewrite lookup_insert_ne by discriminate; apply lookup_insert_eq |].
      split; [rewrite metaOf_insert; reflexivity | reflexivity]. }
    split; [intros _ Hne; destruct (Hne j eq_refl) |].
    intros c0 remote0 _ _ _ _ [= <-] _ _. rewrite Hstate. reflexivity.
Qed.

(** X20. An import is all or nothing on its input: a file that is not
    the JSON text of an object whose [products], [sales], [expenses] and
    [tables] are arrays (the test of [isValidStateShape]) is answered with an
    error and no request at all, so the ledger and the store are exactly as
    before. A file that passes this test and holds a ledger is, when no
    request fails, stored under [state] and shown; when the write is
    rejected the handler reports an error although the ledger in memory is
    already the imported one. A file that passes the test and is not a
    ledger (the test looks at no element) is stored under [state] all the
    same when the write goes through, and the import ends with that value
    in the [state] variable. *)
Theorem fileImport_all_or_nothing (file : ImportFile) (nowSave rid : string) (w : World) :
  let accepted :=
    match file with
    | FileObject parsed => isValidStateShape (StateObject parsed)
    | FileUntyped j => isValidStateShape (StateUntyped j)
    | _ => false
    end in
  let (r, w') := fileImport_change sortByName file nowSave rid w in
  (accepted = false ->
     w' = w /\ r = Ok (Imported (match file with FileNone => Silent | _ => Toast "Error" end)))
  /\ (forall parsed, file = FileObject parsed -> accepted = true -> faults w = [] ->
        r = Ok (Imported (Toast "Importado"))
        /\ idb w' !! IDB_STATE_KEY = Some (DState (adopt parsed))
        /\ products (live w') ≡ₚ products (adopt parsed)
        /\ set_products [] (live w') = set_products [] (adopt parsed)
        /\ stateUpdatedSource (metaOf (idb w')) = Some "local")
  /\ (forall parsed, file = FileObject parsed -> accepted = true ->
        head (faults w) = Some true ->
        r = Ok (Imported (Toast "Error")) /\ live w' = adopt parsed /\ idb w' = idb w)
  /\ (forall j, file = FileUntyped j -> accepted = true ->
        r = Ok (ImportedUntyped j)
        /\ live w' = live w
        /\ (faults w = [] ->
            idb w' !! IDB_STATE_KEY = Some (DUntyped j)
            /\ stateUpdatedSource (metaOf (idb w')) = Some "local")
        /\ (head (faults w) = Some true -> idb w' = idb w)).
Proof.
  cbn zeta. destruct file as [| msg | | parsed | j]; cbn [fileImport_change].
  - unfold ret. cbn beta iota. split; [intros _; split; reflexivity |].
    split; [| split]; intros x Hfile; discriminate Hfile.
  - unfold try_catch, throw, ret. cbn beta iota. split; [intros _; split; reflexivity |].
    split; [| split]; intros x Hfile; discriminate Hfile.
  - unfold try_catch, throw, ret. cbn beta iota. split; [intros _; split; reflexivity |].
    split; [| split]; intros x Hfile; discriminate Hfile.
  - assert (Htest : negb (isArray (r_products parsed)) || negb (isArray (r_sales parsed))
                    || negb (isArray (r_expenses parsed)) || negb (isArray (r_tables parsed))
                    = negb (isValidStateShape (StateObject parsed))).
    { cbn [isValidStateShape].
      destruct (isArray (r_products parsed)), (isArray (r_sales parsed)),
        (isArray (r_expenses parsed)), (isArray (r_tables parsed)); reflexivity. }
    rewrite Htest. destruct (isValidStateShape (StateObject parsed)); cbn [negb].
    + destruct (try_catch _ _ w) as [r w'] eqn:Hrun.
      split; [discriminate |]. split; [| split].
      * intros parsed' Hfile _ Hf. injection Hfile as <-.
        unfold try_catch in Hrun. rewrite (install_ok sortByName) in Hrun by exact Hf.
        injection Hrun as <- <-. cbn [idb live].
        split; [reflexivity |].
        split; [rewrite lookup_insert_ne by discriminate; apply lookup_insert_eq |].
        split; [apply sortByName_perm |]. split; [reflexivity |].
        rewrite metaOf_insert. reflexivity.
      * intros parsed' Hfile _ Hf. injection Hfile as <-.
        destruct w as [l m [| [|] fs]]; cbn [faults head] in Hf; try discriminate Hf.
        unfold try_catch, bind, setLive, saveState, idbSet, request, ret in Hrun.
        cbn [faults idb live fst snd set_live] in Hrun. injection Hrun as <- <-.
        repeat split; reflexivity.
      * intros j Hfile. discriminate Hfile.
    + unfold try_catch, throw, ret. cbn beta iota. split; [intros _; split; reflexivity |].
      split; [| split]; intros x _ Hacc; discriminate Hacc.
  - assert (Htest1 : negb (json_truthy j) || negb (json_isObject j) = true ->
                     isValidStateShape (StateUntyped j) = false).
    { cbn [isValidStateShape]. destruct (json_truthy j), (json_isObject j);
        cbn [negb orb andb]; intros H; try discriminate H; reflexivity. }
    assert (Htest2 : negb (json_truthy j) || negb (json_isObject j) = false ->
                     negb (json_isArray "products" j) || negb (json_isArray "sales" j)
                     || negb (json_isArray "expenses" j) || negb (json_isArray "tables" j)
                     = negb (isValidStateShape (StateUntyped j))).
    { cbn [isValidStateShape]. destruct (json_truthy j), (json_isObject j);
        cbn [negb orb andb]; intros H; try discriminate H.
      destruct (json_isArray "products" j), (json_isArray "sales" j),
        (json_isArray "expenses" j), (json_isArray "tables" j); reflexivity. }
    destruct (negb (json_truthy j) || negb (json_isObject j)) eqn:Hobj.
    { rewrite (Htest1 eq_refl). unfold try_catch, throw, ret. cbn beta iota.
      split; [intros _; split; reflexivity |].
      split; [| split]; intros x _ Hacc; discriminate Hacc. }
    rewrite (Htest2 eq_refl). destruct (isValidStateShape (StateUntyped j)); cbn [negb].
    2: { unfold try_catch, throw, ret. cbn beta iota.
         split; [intros _; split; reflexivity |].
         split; [| split]; intros x _ Hacc; discriminate Hacc. }
    unfold try_catch, untyped. cbn beta iota.
    split; [discriminate |].
    split; [intros x Hfile; discriminate Hfile |].
    split; [intros x Hfile; discriminate Hfile |].
    intros j' [= <-] _. split; [reflexivity |].
    split; [exact (proj1 (saveUntyped_frame (fun _ => False) j noOptions nowSave rid
                            ltac:(intros []) ltac:(intros []) w)) |].
    split.
    + intros Hf. rewrite saveUntyped_ok by exact Hf. cbn [snd idb].
      split; [rewrite lookup_insert_ne by discriminate; apply lookup_insert_eq |].
      rewrite metaOf_insert. reflexivity.
    + intros Hf. destruct w as [l m [| [|] fs]]; cbn [faults head] in Hf; try discriminate Hf.
      unfold saveUntyped, bind, idbSet, request. cbn [faults idb live fst snd]. reflexivity.
Qed.

(** X21. A confirmed reset, when no request fails, leaves a store that
    holds the empty ledger and a fresh metadata record and nothing else: the
    snapshots, their index, the sync configuration and the device id are
    gone, and the new record is stamped [clear]. A declined one does
    nothing. *)
Theorem btnClear_leaves_only_an_empty_ledger (confirmed : bool) (nowSave rid : string)
    (w : World) :
  let (r, w') := btnClear_click sortByName confirmed nowSave rid w in
  (confirmed = false -> r = Ok Silent /\ w' = w)
  /\ (confirmed = true -> faults w = [] ->
      r = Ok (Toast "Listo")
      /\ live w' = emptyState
      /\ idb w' !! IDB_STATE_KEY = Some (DState emptyState)
      /\ idb w' !! IDB_META_KEY
         = Some (DMeta (stampMeta (sourceOnly "clear") nowSave rid noMeta))
      /\ (forall k, k ≠ IDB_STATE_KEY -> k ≠ IDB_META_KEY -> idb w' !! k = None)).
Proof.
  destruct confirmed; cbn [btnClear_click negb].
  2: { unfold ret. cbn beta iota. split; [intros _; split; reflexivity | discriminate]. }
  destruct (bind _ _ w) as [r w'] eqn:Hrun.
  split; [discriminate |]. intros _ Hf.
  destruct w as [l m fs]. cbn [faults] in Hf. subst fs.
  unfold bind at 1 2, setLive, idbClearAll, request in Hrun.
  cbn [faults idb live fst snd set_live] in Hrun.
  unfold bind at 1 in Hrun. rewrite saveState_ok in Hrun by reflexivity.
  unfold bind, rerender, getLive, setLive, ret in Hrun.
  cbn [faults idb live fst snd set_live] in Hrun.
  injection Hrun as <- <-. cbn [idb live set_live].
  assert (Hsorted : sortByName [] = []).
  { apply Permutation_nil_r, sortByName_perm. }
  split; [reflexivity |].
  split; [cbn [emptyState products]; rewrite Hsorted; reflexivity |].
  split; [rewrite lookup_insert_ne by discriminate; apply lookup_insert_eq |].
  split; [rewrite lookup_insert_eq; reflexivity |].
  intros k Hstate Hmeta.
  rewrite lookup_insert_ne by (apply not_eq_sym, Hmeta).
  rewrite lookup_insert_ne by (apply not_eq_sym, Hstate). apply lookup_empty.
Qed.

End Replacing.

(** ** Products, expenses and table sessions *)








Section LedgerHandlers.

Variable Date_parse : string -> option Z.
Variable sortByName : list Product -> list Product.
Hypothesis sortByName_perm : forall l, sortByName l ≡ₚ l.







(** X24. Deleting a product does not cascade: whatever requests fail, the
    handler of the product list never throws and never changes the sales,
    the expenses or the sessions, so the sales of a deleted product stay
    with its id. A confirmed [del] on the id of a product of the ledger
    always reports the deletion and leaves exactly the products with
    another id, each as often as before; anything else (an edit, an unknown
    id, a declined confirmation) changes nothing. *)
Theorem product_delete_keeps_the_sales (act : string) (id : Z) (confirmed : bool)
    (nowSave rid : string) (w : World) :
  let (r, w') := productsTbody_click sortByName act id confirmed nowSave rid w in
  (exists note, r = Ok note)
  /\ sales (live w') = sales (live w)
  /\ expenses (live w') = expenses (live w)
  /\ tables (live w') = tables (live w)
  /\ (r = Ok (Toast "Eliminado") ->
      forall p, p ∈ products (live w') <-> p ∈ products (live w) /\ p_id p <> id)
  /\ (r <> Ok (Toast "Eliminado") -> w' = w)
  /\ (act = "del" -> confirmed = true ->
      forall p, find_first (fun x => p_id x =? id) (products (live w)) = Some p ->
        r = Ok (Toast "Eliminado")
        /\ products (live w') ≡ₚ filter (fun x => p_id x ≠ id) (products (live w))
        /\ p ∈ products (live w) /\ p ∉ products (live w')).
Proof using sortByName sortByName_perm.
  unfold productsTbody_click. unfold bind at 1, getLive.
  assert (Hnothing : forall note, note <> Toast "Eliminado" ->
            (act = "del" -> confirmed = true ->
             forall p, find_first (fun x => p_id x =? id) (products (live w)) = Some p ->
                       False) ->
            (exists note', Ok (A := Notice) note = Ok note')
            /\ sales (live w) = sales (live w)
            /\ expenses (live w) = expenses (live w)
            /\ tables (live w) = tables (live w)
            /\ (Ok note = Ok (Toast "Eliminado") ->
                forall p, p ∈ products (live w) <-> p ∈ products (live w) /\ p_id p <> id)
            /\ (Ok note <> Ok (Toast "Eliminado") -> w = w)
            /\ (act = "del" -> confirmed = true ->
                forall p, find_first (fun x => p_id x =? id) (products (live w)) = Some p ->
                  Ok note = Ok (Toast "Eliminado")
                  /\ products (live w) ≡ₚ filter (fun x => p_id x ≠ id) (products (live w))
                  /\ p ∈ products (live w) /\ p ∉ products (live w))).
  { intros note Hnote Hcant. split; [eexists; reflexivity |].
    repeat (split; [reflexivity |]).
    split; [intros Heq; injection Heq as ->; contradiction |].
    split; [reflexivity |].
    intros Hact Hconf p Hp. destruct (Hcant Hact Hconf p Hp). }
  destruct (String.eqb_spec act "edit") as [Hedit | _].
  { destruct (find_first _ _); unfold ret; apply Hnothing; try discriminate.
    all: intros Hdel; rewrite Hedit in Hdel; discriminate Hdel. }
  destruct (String.eqb_spec act "del") as [_ | Hdel];
    [| unfold ret; apply Hnothing; [discriminate | intros Hact; contradiction]].
  destruct (find_first _ _) as [p0 |] eqn:Hfind;
    [| unfold ret; apply Hnothing; [discriminate | intros _ _ p Hp; discriminate Hp]].
  destruct confirmed; cbn [negb];
    [| unfold ret; apply Hnothing; [discriminate | intros _ Hconf; discriminate Hconf]].
  clear Hnothing.
  destruct (find_first_split _ (fun x => x) _ _ Hfind) as (before & after & Hsplit & _ & _ & Hid).
  apply Z.eqb_eq in Hid.
  unfold rerender. unfold bind, setLive, getLive, try_catch, ret.
  cbn [fst snd live set_live set_products products].
  match goal with
  | |- context [saveState ?s ?o ?n ?i ?w0] =>
      pose proof (saveState_live s o n i w0) as Hlive;
      destruct (saveState s o n i w0) as [[[] | err] w1]
  end; cbn [snd live] in Hlive; rewrite Hlive;
    cbn [live set_live set_products sales expenses tables products].
  all: split; [eexists; reflexivity |]; repeat (split; [reflexivity |]).
  all: split; [| split; [intros Hne; exfalso; apply Hne; reflexivity |]].
  all: try (intros _ q; rewrite sortByName_perm, list_elem_of_filter;
            split; intros [? ?]; split; assumption).
  all: intros _ _ p [= <-]; split; [reflexivity |]; split; [apply sortByName_perm |].
  all: split; [rewrite Hsplit; apply elem_of_app; right; apply elem_of_cons; left; reflexivity |].
  all: rewrite sortByName_perm, list_elem_of_filter; intros [Hne _]; exact (Hne Hid).
Qed.

End LedgerHandlers.

(** One hour on table 1 at rate 10 with two players is billed 20. *)
Example table_stop_run :
  tables (live (tablesTbody_click iso_parse sortByCodePoint "table-stop" 7 1714561200000
                  "2024-05-01T11:00:00.000Z" "2024-05-01T11:00:00.001Z" "device-a"
                  (freshWorld sessionState)).2)
  = [ {| t_id := 7; table := 1; players := 2; rate := 10;
         startAt := "2024-05-01T10:00:00.000Z"; endAt := Some "2024-05-01T11:00:00.000Z";
         active := false; t_total := Some (Finite 20) |} ].
Proof. vm_compute. reflexivity. Qed.

Example table_plus_run :
  players <$> tables (live (tablesTbody_click iso_parse sortByCodePoint "table-plus" 7
                              1714561200000 "2024-05-01T11:00:00.000Z"
                              "2024-05-01T11:00:00.001Z" "device-a"
                              (freshWorld sessionState)).2)
  = [3].
Proof. vm_compute. reflexivity. Qed.



(** ** The legacy importer *)

Lemma foldl_invariant {A B} (P : A -> Prop) (step : A -> B -> A) (l : list B) (acc : A) :
  (forall acc x, P acc -> P (step acc x)) -> P acc -> P (foldl step acc l).
Proof.
  intros Hstep. revert acc. induction l as [| x l IH]; intros acc Hacc; [exact Hacc |].
  cbn [foldl]. apply IH, Hstep, Hacc.
Qed.

Section ImporterProperties.

Variable Date_parse : string -> option Z.
Variable Date_toISOString : Z -> string.
Variable toLowerCase : string -> string.
Variable now : Z.
Variable rnd : nat -> Z.

Lemma salesReferToProducts_grow (ps : list Product) (ss : list Sale) (p : Product) :
  salesReferToProducts ps ss -> salesReferToProducts (ps ++ [p]) ss.
Proof.
  intros Hrefer s Hs. destruct (Hrefer s Hs) as (q & Hq & Hid).
  exists q. split; [apply elem_of_app; left; exact Hq | exact Hid].
Qed.

Lemma importProduct_linked (acc : Import) (lp : LegacyProduct) :
  linked acc -> linked (importProduct toLowerCase now rnd acc lp).
Proof.
  intros [Hmap Hrefer]. unfold importProduct.
  destruct (String.eqb _ ""); [split; assumption |].
  split; cbn [byName i_products i_sales].
  - intros k p Hk. apply elem_of_app.
    destruct (decide (normalizeName toLowerCase
                        (trim (str_or_empty (js_or (nombre lp) (lp_name lp)))) = k))
      as [<- | Hne].
    + rewrite lookup_insert_eq in Hk. injection Hk as <-. right. apply list_elem_of_singleton.
      reflexivity.
    + rewrite lookup_insert_ne in Hk by exact Hne. left. exact (Hmap k p Hk).
  - apply salesReferToProducts_grow, Hrefer.
Qed.

Lemma importSale_linked (acc : Import) (ls : LegacySale) :
  linked acc -> linked (importSale Date_parse Date_toISOString toLowerCase now rnd acc ls).
Proof.
  intros [Hmap Hrefer]. unfold importSale.
  destruct (byName acc !! _) as [p |] eqn:Hfound.
  - split; cbn [byName i_products i_sales]; [exact Hmap |].
    intros s Hs. apply elem_of_app in Hs as [Hs | Hs]; [exact (Hrefer s Hs) |].
    apply list_elem_of_singleton in Hs. subst s. cbn [productId].
    exists p. split; [exact (Hmap _ p Hfound) | reflexivity].
  - split; cbn [byName i_products i_sales].
    + intros k p Hk. apply elem_of_app.
      match type of Hk with
      | <[?key := _]> _ !! _ = _ => destruct (decide (key = k)) as [<- | Hne]
      end.
      * rewrite lookup_insert_eq in Hk. injection Hk as <-. right.
        apply list_elem_of_singleton. reflexivity.
      * rewrite lookup_insert_ne in Hk by exact Hne. left. exact (Hmap k p Hk).
    + intros s Hs. apply elem_of_app in Hs as [Hs | Hs].
      * exact (salesReferToProducts_grow _ _ _ Hrefer s Hs).
      * apply list_elem_of_singleton in Hs. subst s. cbn [productId].
        eexists. split; [apply elem_of_app; right; apply list_elem_of_singleton; reflexivity |].
        reflexivity.
Qed.

Lemma importTable_linked (acc : Import) (lt : LegacyTable) :
  linked acc -> linked (importTable Date_parse Date_toISOString now rnd acc lt).
Proof.
  intros Hacc. unfold importTable. destruct (negb _); exact Hacc.
Qed.

(** X25. Referential integrity of the import: every sale the importer
    creates carries the id of a product of the imported ledger, either the
    product of that name or the placeholder created for it. *)
Theorem legacy_import_sales_refer_to_products (state : State) (storage : LegacyStorage) :
  let (next, migrated) :=
    migrateFromLegacyBillarLocalStorageIntoState Date_parse Date_toISOString toLowerCase now rnd
      state storage in
  migrated = true ->
  forall s, s ∈ sales next -> exists p, p ∈ products next /\ p_id p = productId s.
Proof.
  unfold migrateFromLegacyBillarLocalStorageIntoState.
  destruct (negb (isStateEmpty state)); [discriminate |].
  destruct (negb (readable storage)); [discriminate |].
  destruct (negb _); [discriminate |].
  intros _. cbn [sales products].
  assert (Hlinked : linked
            (foldl (importTable Date_parse Date_toISOString now rnd)
               (foldl (importSale Date_parse Date_toISOString toLowerCase now rnd)
                  (foldl (importProduct toLowerCase now rnd)
                     {| i_products := []; i_sales := []; i_tables := []; byName := ∅;
                        drawn := 0 |}
                     (default [] (legacyProducts storage)))
                  (default [] (legacySales storage)))
               (default [] (legacyTables storage)))).
  { apply foldl_invariant; [apply importTable_linked |].
    apply foldl_invariant; [apply importSale_linked |].
    apply foldl_invariant; [apply importProduct_linked |].
    split; cbn [byName i_products i_sales].
    - intros k p Hk. rewrite lookup_empty in Hk. discriminate Hk.
    - intros s Hs. apply elem_of_nil in Hs. destruct Hs. }
  exact (proj2 Hlinked).
Qed.

Lemma importProduct_keeps (l : list LegacyProduct) (acc : Import) :
  i_sales (foldl (importProduct toLowerCase now rnd) acc l) = i_sales acc
  /\ i_tables (foldl (importProduct toLowerCase now rnd) acc l) = i_tables acc.
Proof.
  apply (foldl_invariant (fun a => i_sales a = i_sales acc /\ i_tables a = i_tables acc));
    [| split; reflexivity].
  intros a lp Ha. unfold importProduct. destruct (String.eqb _ ""); exact Ha.
Qed.

Lemma importSale_keeps (l : list LegacySale) (acc : Import) :
  i_tables (foldl (importSale Date_parse Date_toISOString toLowerCase now rnd) acc l) = i_tables acc.
Proof.
  apply (foldl_invariant (fun a => i_tables a = i_tables acc)); [| reflexivity].
  intros a ls Ha. unfold importSale. destruct (byName a !! _); exact Ha.
Qed.

Lemma importTable_keeps (l : list LegacyTable) (acc : Import) :
  i_sales (foldl (importTable Date_parse Date_toISOString now rnd) acc l) = i_sales acc
  /\ i_products (foldl (importTable Date_parse Date_toISOString now rnd) acc l) = i_products acc.
Proof.
  apply (foldl_invariant (fun a => i_sales a = i_sales acc /\ i_products a = i_products acc));
    [| split; reflexivity].
  intros a lt Ha. unfold importTable. destruct (negb _); exact Ha.
Qed.

Lemma importSale_count (l : list LegacySale) (acc : Import) :
  length (i_sales (foldl (importSale Date_parse Date_toISOString toLowerCase now rnd) acc l)) = (length (i_sales acc) + length l)%nat.
Proof.
  revert acc. induction l as [| ls l IH]; intros acc; cbn [foldl length]; [lia |].
  rewrite IH. unfold importSale. destruct (byName acc !! _); cbn [i_sales];
    rewrite length_app; cbn [length]; lia.
Qed.

Lemma importTable_count (l : list LegacyTable) (acc : Import) :
  length (i_tables (foldl (importTable Date_parse Date_toISOString now rnd) acc l))
  = (length (i_tables acc) + length (filter (fun lt => activa lt <> Some false) l))%nat.
Proof.
  revert acc. induction l as [| lt l IH]; intros acc; cbn [foldl]; [cbn; lia |].
  rewrite IH, filter_cons. unfold importTable.
  destruct (decide (activa lt <> Some false)) as [Hactive | Hstopped].
  - rewrite bool_decide_eq_false_2 by exact Hactive. cbn [negb i_tables length].
    rewrite length_app. cbn [length]. lia.
  - rewrite bool_decide_eq_true_2 by (destruct (decide (activa lt = Some false)); tauto).
    cbn [negb]. reflexivity.
Qed.

(** X26. What an import produces: one sale for each old sale, tagged
    [Migrado], with a quantity between 1 and 1,000,000; one session for each
    old table that is not marked inactive, running and unbilled, on a table
    between 1 and 1,000,000 with 1 to 100 players; products with a name; no
    expenses; the business of the ledger it started from. When it reports
    that nothing was migrated, the ledger is returned as it was. *)
Theorem legacy_import_shape (state : State) (storage : LegacyStorage) :
  let (next, migrated) :=
    migrateFromLegacyBillarLocalStorageIntoState Date_parse Date_toISOString toLowerCase now rnd
      state storage in
  (migrated = false -> next = state)
  /\ (migrated = true ->
      length (sales next) = length (default [] (legacySales storage))
      /\ Forall migratedSale (sales next)
      /\ length (tables next)
         = length (filter (fun lt => activa lt <> Some false)
                     (default [] (legacyTables storage)))
      /\ Forall migratedSession (tables next)
      /\ Forall (fun p => p_name p <> "") (products next)
      /\ expenses next = []
      /\ business next = business state).
Proof.
  unfold migrateFromLegacyBillarLocalStorageIntoState.
  destruct (negb (isStateEmpty state)); [split; [reflexivity | discriminate] |].
  destruct (negb (readable storage)); [split; [reflexivity | discriminate] |].
  destruct (negb _); [split; [reflexivity | discriminate] |].
  split; [discriminate |]. intros _. cbn [sales tables products expenses business].
  set (acc0 := {| i_products := []; i_sales := []; i_tables := []; byName := ∅; drawn := 0 |}).
  set (acc1 := foldl (importProduct toLowerCase now rnd) acc0 (default [] (legacyProducts storage))).
  set (acc2 := foldl (importSale Date_parse Date_toISOString toLowerCase now rnd) acc1 (default [] (legacySales storage))).
  destruct (importProduct_keeps (default [] (legacyProducts storage)) acc0) as [Hs1 Ht1].
  fold acc1 in Hs1, Ht1. cbn [acc0 i_sales i_tables] in Hs1, Ht1.
  pose proof (importSale_keeps (default [] (legacySales storage)) acc1) as Ht2.
  fold acc2 in Ht2. rewrite Ht1 in Ht2.
  destruct (importTable_keeps (default [] (legacyTables storage)) acc2) as [Hs3 Hp3].
  rewrite Hs3, Hp3.
  split.
  { unfold acc2. rewrite importSale_count, Hs1. reflexivity. }
  split.
  { unfold acc2, acc1.
    apply (foldl_invariant (fun a => Forall migratedSale (i_sales a))).
    - intros a ls Ha. unfold importSale. destruct (byName a !! _); cbn [i_sales];
        (apply Forall_app; split; [exact Ha |]); apply Forall_singleton;
        (split; [reflexivity | cbn [qty]; apply clampInt_bounds; lia]).
    - fold acc1. rewrite Hs1. constructor. }
  split.
  { rewrite importTable_count, Ht2. reflexivity. }
  split.
  { apply (foldl_invariant (fun a => Forall migratedSession (i_tables a))).
    - intros a lt Ha. unfold importTable. destruct (negb _); [exact Ha |]. cbn [i_tables].
      apply Forall_app. split; [exact Ha |]. apply Forall_singleton.
      unfold migratedSession. cbn [active endAt t_total table players].
      repeat (split; [reflexivity |]). split; apply clampInt_bounds; lia.
    - rewrite Ht2. constructor. }
  split; [| split; reflexivity].
  unfold acc2, acc1.
  apply (foldl_invariant (fun a => Forall (fun p => p_name p <> "") (i_products a))).
  - intros a ls Ha. unfold importSale. destruct (byName a !! _); cbn [i_products];
      [exact Ha |]. apply Forall_app. split; [exact Ha |]. apply Forall_singleton.
    cbn [placeholderProduct p_name].
    destruct (String.eqb_spec (trim (str_or_empty (js_or (producto ls) (ls_product ls)))) "");
      [discriminate | assumption].
  - apply (foldl_invariant (fun a => Forall (fun p => p_name p <> "") (i_products a)));
      [| constructor].
    intros a lp Ha. unfold importProduct.
    destruct (String.eqb_spec (trim (str_or_empty (js_or (nombre lp) (lp_name lp)))) "");
      [exact Ha |]. cbn [i_products].
    apply Forall_app. split; [exact Ha |]. apply Forall_singleton. cbn [p_name]. assumption.
Qed.

End ImporterProperties.

Lemma legacy_import_sales_refer_to_products_witness :
  Forall (fun s => exists p, p ∈ products (migrate_at_2024_05 legacySalesOnly).1
                             /\ p_id p = productId s)
    (sales (migrate_at_2024_05 legacySalesOnly).1).
Proof.
  apply Forall_forall.
  pose proof (legacy_import_sales_refer_to_products iso_parse iso_format toLowerCase_ascii 1714557600000
                (fun k => Z.of_nat k) emptyState legacySalesOnly) as P.
  unfold migrate_at_2024_05.
  destruct (migrateFromLegacyBillarLocalStorageIntoState iso_parse iso_format toLowerCase_ascii 1714557600000
              (fun k => Z.of_nat k) emptyState legacySalesOnly) as [next migrated] eqn:Hrun.
  apply P. change migrated with (next, migrated).2. rewrite <- Hrun. vm_compute. reflexivity.
Defined.

(** ** The start of the application *)

Lemma bind_ok {A B} (m : M A) (k : A -> M B) (w w1 : World) (a : A) :
  m w = (Ok a, w1) -> bind m k w = k a w1.
Proof. intros Hm. unfold bind. rewrite Hm. reflexivity. Qed.

Lemma try_catch_ret_returns {A} (m : M A) (a0 : A) (w : World) :
  exists a, try_catch m (fun _ => ret a0) w = (Ok a, (m w).2).
Proof.
  unfold try_catch, ret. destruct (m w) as [[a | err] w']; eexists; reflexivity.
Qed.

Lemma loadState_returns (item : LegacyItem) (w : World) :
  exists loaded w1,
    loadState item w = (Ok loaded, w1) /\ live w1 = live w
    /\ (head (faults w) <> Some true ->
        (forall s, idb w !! IDB_STATE_KEY = Some (DState s) ->
                   loaded = (Some (WellFormed s), false) /\ idb w1 = idb w)
        /\ (forall j, idb w !! IDB_STATE_KEY = Some (DUntyped j) -> json_truthy j = true ->
                      loaded = (Some (Malformed j), false) /\ idb w1 = idb w))
    /\ (idb w !! IDB_STATE_KEY = None ->
        forall j, item = ItemUntyped j -> loaded.1 = Some (Malformed j))
    /\ (forall j, loaded.1 = Some (Malformed j) -> json_truthy j = true ->
                  item = ItemUntyped j \/ idb w !! IDB_STATE_KEY = Some (DUntyped j)).
Proof.
  unfold loadState.
  destruct (loadState_lookup w) as (found & w0 & Hrun & Hidb & Hlive & Hnone & Hfound & Hfrom).
  rewrite (bind_ok _ _ _ _ _ Hrun).
  destruct found as [s |].
  - eexists _, _. split; [reflexivity |]. split; [exact Hlive |].
    split; [| split].
    + intros Hhead. destruct (Hfound Hhead) as [Hstate Huntyped]. split.
      * intros s' Hs'. specialize (Hstate s' Hs'). injection Hstate as ->.
        split; [reflexivity | exact Hidb].
      * intros j Hj Htruthy. specialize (Huntyped j Hj). rewrite Htruthy in Huntyped.
        injection Huntyped as ->. split; [reflexivity | exact Hidb].
    + intros Hno. specialize (Hnone Hno). discriminate Hnone.
    + intros j Hj _. cbn [fst] in Hj. destruct (Hfrom j Hj) as [Hstored _].
      right. exact Hstored.
  - assert (Hstored : head (faults w) <> Some true ->
              (forall s, idb w !! IDB_STATE_KEY = Some (DState s) -> False)
              /\ (forall j, idb w !! IDB_STATE_KEY = Some (DUntyped j) ->
                            json_truthy j = true -> False)).
    { intros Hhead. destruct (Hfound Hhead) as [Hstate Huntyped]. split.
      - intros s Hs. specialize (Hstate s Hs). discriminate Hstate.
      - intros j Hj Htruthy. specialize (Huntyped j Hj). rewrite Htruthy in Huntyped.
        discriminate Huntyped. }
    destruct item as [| | | parsed | j0].
    1-3: eexists _, _; (split; [reflexivity |]); (split; [exact Hlive |]);
      (split; [intros Hhead; destruct (Hstored Hhead) as [Hs Hj]; split;
               [intros s' Hs'; destruct (Hs s' Hs')
               | intros j Hj' Ht; destruct (Hj j Hj' Ht)] |]);
      (split; [intros _ j Hitem; discriminate Hitem | intros j Hj; discriminate Hj]).
    + destruct (loadState_store (DState parsed) w0) as (removed & w2 & Hstore & Hlive2 & _).
      rewrite (bind_ok _ _ _ _ _ Hstore).
      eexists _, _. split; [reflexivity |]. split; [congruence |].
      split; [intros Hhead; destruct (Hstored Hhead) as [Hs Hj]; split;
              [intros s' Hs'; destruct (Hs s' Hs')
              | intros j Hj' Ht; destruct (Hj j Hj' Ht)] |].
      split; [intros _ j Hitem; discriminate Hitem | intros j Hj; discriminate Hj].
    + destruct (loadState_store (DUntyped j0) w0) as (removed & w2 & Hstore & Hlive2 & _).
      rewrite (bind_ok _ _ _ _ _ Hstore).
      eexists _, _. split; [reflexivity |]. split; [congruence |].
      split; [intros Hhead; destruct (Hstored Hhead) as [Hs Hj]; split;
              [intros s' Hs'; destruct (Hs s' Hs')
              | intros j Hj' Ht; destruct (Hj j Hj' Ht)] |].
      split.
      * intros _ j [= <-]. reflexivity.
      * intros j [= <-] _. left. reflexivity.
Qed.

Lemma seedIfEmpty_not_empty (Date_toISOString : Z -> string) (state : State) (now rnd_ : Z) :
  isStateEmpty (seedIfEmpty Date_toISOString state now rnd_) = false
  /\ (isStateEmpty state = false -> seedIfEmpty Date_toISOString state now rnd_ = state).
Proof.
  unfold seedIfEmpty, isStateEmpty.
  destruct (products state) as [| p ps] eqn:Hp, (sales state) as [| s ss] eqn:Hs,
    (expenses state) as [| e es] eqn:He, (tables state) as [| t ts] eqn:Ht;
    cbn [length Nat.ltb Nat.leb Nat.eqb orb andb products sales expenses tables];
    rewrite ?Hp, ?Hs, ?He, ?Ht; cbn [length Nat.eqb andb];
    split; try reflexivity; discriminate.
Qed.

Section Startup.

Variable Date_parse : string -> option Z.
Variable Date_toISOString : Z -> string.
Variable toLowerCase : string -> string.

Lemma init_tail_live (state2 : State) (changed : bool) (env : StartupEnv) (w : World) :
  let w' := ((let! _ := if changed
                        then saveState state2 (sourceOnly "init") (env_initSave env)
                               (env_saveRid env)
                        else ret tt in
              try_catch (ensureDailySnapshot state2 (env_dayNow env) (env_snapNow env))
                (fun _ => ret tt)) w).2 in
  live w' = live w
  /\ (changed = false -> idb w' !! IDB_STATE_KEY = idb w !! IDB_STATE_KEY).
Proof.
  cbn zeta. split.
  - assert (Hframe : preserves (untouched (fun _ => False))
              (let! _ := if changed
                         then saveState state2 (sourceOnly "init") (env_initSave env)
                                (env_saveRid env)
                         else ret tt in
               try_catch (ensureDailySnapshot state2 (env_dayNow env) (env_snapNow env))
                 (fun _ => ret tt))).
    { apply preserves_bind; [apply untouched_trans | |].
      - destruct changed; [apply saveState_frame; intros [] |].
        apply preserves_ret, untouched_refl.
      - intros _. apply preserves_try_catch; [apply untouched_trans | |].
        + apply ensureDailySnapshot_frame; first [intros ? [] | intros []].
        + intros _. apply preserves_ret, untouched_refl. }
    exact (proj1 (Hframe w)).
  - intros ->.
    assert (Hframe : preserves (untouched (fun k => k = IDB_STATE_KEY))
              (let! _ := ret tt in
               try_catch (ensureDailySnapshot state2 (env_dayNow env) (env_snapNow env))
                 (fun _ => ret tt))).
    { apply preserves_bind; [apply untouched_trans | |].
      - apply preserves_ret, untouched_refl.
      - intros _. apply preserves_try_catch; [apply untouched_trans | |].
        + apply ensureDailySnapshot_frame.
          * intros id Heq. exact (snapshot_key_ne_state id Heq).
          * discriminate.
          * discriminate.
        + intros _. apply preserves_ret, untouched_refl. }
    exact (proj2 (Hframe w) IDB_STATE_KEY eq_refl).
Qed.

Lemma bind_ret_snd {A B} (m : M A) (b : B) (w : World) :
  ((let! _ := m in ret b) w).2 = (m w).2.
Proof. unfold bind, ret. destruct (m w) as [[a | err] w']; reflexivity. Qed.

(** From a ledger, the start never leaves an empty ledger on screen; a
    ledger that is not empty is shown as it is and not written again. *)
Lemma init_from_ledger (state0 : State) (storage : LegacyStorage) (env : StartupEnv)
    (w1 : World) :
  let w' := (init_from Date_parse Date_toISOString toLowerCase state0 storage env w1).2 in
  isStateEmpty (live w') = false
  /\ (isStateEmpty state0 = false ->
      live w' = state0 /\ idb w' !! IDB_STATE_KEY = idb w1 !! IDB_STATE_KEY).
Proof.
  cbn zeta. unfold init_from.
  rewrite (bind_ok (setLive _) _ w1 _ tt eq_refl).
  match goal with
  | |- context [bind (try_catch ?m _) ?cont (set_live state0 w1)] =>
      destruct (try_catch_ret_returns m tt (set_live state0 w1)) as (u & Hdevice);
      pose proof (preserves_bind _ (untouched_trans (fun k => k = IDB_STATE_KEY)) _ _
                    (ensureDeviceId_frame (fun k => k = IDB_STATE_KEY) (env_deviceRid env)
                       ltac:(discriminate))
                    (fun _ => preserves_ret _ (untouched_refl _) tt)
                    (set_live state0 w1)) as [Hlive2 Hkept2];
      set (w2 := (m (set_live state0 w1)).2) in *;
      rewrite (bind_ok _ cont _ _ _ Hdevice)
  end.
  clear Hdevice u. cbn [live idb set_live] in Hlive2, Hkept2.
  specialize (Hkept2 IDB_STATE_KEY eq_refl).
  split.
  - match goal with
    | |- context [bind (try_catch ?m _) ?cont w2] =>
        destruct (try_catch_ret_returns m false w2) as (migrated & Hmigrate);
        rewrite (bind_ok _ cont _ _ _ Hmigrate)
    end.
    rewrite (bind_ok getLive _ _ _ _ eq_refl).
    rewrite (bind_ok (setLive _) _ _ _ tt eq_refl).
    match goal with
    | |- context [bind (if ?c then _ else _) _ ?w0] =>
        rewrite (proj1 (init_tail_live _ c env w0))
    end.
    cbn [live set_live]. apply seedIfEmpty_not_empty.
  - intros Hnonempty.
    match goal with
    | |- context [bind (try_catch ?m _) ?cont w2] =>
        assert (Hmigrate : try_catch m (fun _ => ret false) w2 = (Ok false, (m w2).2)
                           /\ live (m w2).2 = live w2 /\ idb (m w2).2 = idb w2);
        [| destruct Hmigrate as (Hmigrate & Hlive3 & Hidb3);
           rewrite (bind_ok _ cont _ _ _ Hmigrate)]
    end.
    { rewrite Hnonempty. unfold getMeta, idbGet. unfold try_catch, bind, request, ret.
      destruct w2 as [l2 m2 [| [|] fs2]]; cbn [faults idb live fst snd];
        rewrite ?andb_false_r; repeat split; reflexivity. }
    rewrite (bind_ok getLive _ _ _ _ eq_refl).
    rewrite (bind_ok (setLive _) _ _ _ tt eq_refl).
    rewrite Hlive3, Hlive2.
    rewrite (proj2 (seedIfEmpty_not_empty Date_toISOString state0 (env_seedNow env)
                      (env_seedRnd env)) Hnonempty).
    rewrite Hnonempty. cbn [orb andb].
    match goal with
    | |- context [bind (ret tt) _ ?w0] =>
        destruct (init_tail_live state0 false env w0) as [Hlive4 Hkept4];
        cbn zeta in Hlive4, Hkept4; rewrite Hlive4, (Hkept4 eq_refl)
    end.
    cbn [live idb set_live]. split; [reflexivity |].
    rewrite Hnonempty in Hidb3. rewrite Hidb3, Hkept2. reflexivity.
Qed.

(** X27. The start of the application, when what it loads is a ledger (or
    nothing, or a falsy value), never leaves an empty ledger on screen,
    whatever requests fail: the ledger is the stored one, the migrated one
    or the sample data. A stored ledger that is not empty is shown as it is
    and is not written again, provided the request that reads it succeeds.
    When the value loaded is truthy and not a ledger, from the store or
    parsed from the old storage, the start goes on with that value in the
    [state] variable: it ends [StartedUntyped], in exactly these cases. *)
Theorem init_ends_with_a_ledger (item : LegacyItem) (storage : LegacyStorage)
    (env : StartupEnv) (w : World) :
  let (r, w') := init_load Date_parse Date_toISOString toLowerCase item storage env w in
  ((forall j, r <> Ok (StartedUntyped j)) -> isStateEmpty (live w') = false)
  /\ (forall s, head (faults w) <> Some true ->
                idb w !! IDB_STATE_KEY = Some (DState s) ->
                isStateEmpty s = false ->
                live w' = s /\ idb w' !! IDB_STATE_KEY = Some (DState s))
  /\ (forall j, r = Ok (StartedUntyped j) ->
                json_truthy j = true
                /\ (item = ItemUntyped j \/ idb w !! IDB_STATE_KEY = Some (DUntyped j)))
  /\ (forall j, json_truthy j = true ->
                (head (faults w) <> Some true /\ idb w !! IDB_STATE_KEY = Some (DUntyped j))
                \/ (idb w !! IDB_STATE_KEY = None /\ item = ItemUntyped j) ->
                r = Ok (StartedUntyped j))
  /\ ((forall j, item <> ItemUntyped j) ->
      (forall j, idb w !! IDB_STATE_KEY <> Some (DUntyped j)) ->
      forall j, r <> Ok (StartedUntyped j)).
Proof.
  unfold init_load.
  destruct (loadState_returns item w)
    as (loaded & w1 & Hload & Hlive1 & Hstored & Hitem & Hfrom).
  rewrite (bind_ok _ _ _ _ _ Hload).
  assert (Htyped : forall state0 : State,
            loaded.1 = Some (WellFormed state0)
            \/ ((forall s, loaded.1 <> Some (WellFormed s))
                /\ forall j, loaded.1 = Some (Malformed j) -> json_truthy j = false) ->
            let (r, w') := (let! _ := init_from Date_parse Date_toISOString toLowerCase state0 storage env in
                            ret Started) w1 in
            ((forall j, r <> Ok (StartedUntyped j)) -> isStateEmpty (live w') = false)
            /\ (forall s, head (faults w) <> Some true ->
                          idb w !! IDB_STATE_KEY = Some (DState s) ->
                          isStateEmpty s = false ->
                          live w' = s /\ idb w' !! IDB_STATE_KEY = Some (DState s))
            /\ (forall j, r = Ok (StartedUntyped j) ->
                          json_truthy j = true
                          /\ (item = ItemUntyped j
                              \/ idb w !! IDB_STATE_KEY = Some (DUntyped j)))
            /\ (forall j, json_truthy j = true ->
                          (head (faults w) <> Some true
                           /\ idb w !! IDB_STATE_KEY = Some (DUntyped j))
                          \/ (idb w !! IDB_STATE_KEY = None /\ item = ItemUntyped j) ->
                          r = Ok (StartedUntyped j))
            /\ ((forall j, item <> ItemUntyped j) ->
                (forall j, idb w !! IDB_STATE_KEY <> Some (DUntyped j)) ->
                forall j, r <> Ok (StartedUntyped j))).
  { intros state0 Hstate0.
    pose proof (init_from_ledger state0 storage env w1) as Hfrom0. cbn zeta in Hfrom0.
    pose proof (bind_ret_snd (init_from Date_parse Date_toISOString toLowerCase state0 storage env)
                  Started w1) as Hsnd.
    assert (Hres : forall j,
               ((let! _ := init_from Date_parse Date_toISOString toLowerCase state0 storage env in
                 ret Started) w1).1 <> Ok (StartedUntyped j)).
    { intros j. unfold bind, ret.
      destruct (init_from Date_parse Date_toISOString toLowerCase state0 storage env w1) as [[[] | err] w2];
        discriminate. }
    destruct ((let! _ := init_from Date_parse Date_toISOString toLowerCase state0 storage env in
               ret Started) w1) as [r w'].
    cbn [fst snd] in Hsnd, Hres. subst w'. destruct Hfrom0 as [Hnonempty Hkeep].
    split; [intros _; exact Hnonempty |].
    split.
    { intros s Hhead Hs Hne. destruct (Hstored Hhead) as [Hst _].
      destruct (Hst s Hs) as [Hloaded Hidb1]. rewrite Hloaded in Hstate0. cbn [fst] in Hstate0.
      destruct Hstate0 as [[= <-] | [Hbad _]].
      - destruct (Hkeep Hne) as [Hl Hi]. split; [exact Hl |]. rewrite Hi, Hidb1. exact Hs.
      - destruct (Hbad s eq_refl). }
    split; [intros j Hr; destruct (Hres j Hr) |].
    split.
    { intros j Htruthy [[Hhead Hj] | [Hno Hit]]; exfalso.
      - destruct (Hstored Hhead) as [_ Hun]. destruct (Hun j Hj Htruthy) as [Hloaded _].
        rewrite Hloaded in Hstate0. cbn [fst] in Hstate0.
        destruct Hstate0 as [Hw | [_ Hbad]]; [discriminate Hw |].
        specialize (Hbad j eq_refl). congruence.
      - specialize (Hitem Hno j Hit). rewrite Hitem in Hstate0.
        destruct Hstate0 as [Hw | [_ Hbad]]; [discriminate Hw |].
        specialize (Hbad j eq_refl). congruence. }
    intros _ _ j. apply Hres. }
  destruct loaded as [[[s | j] |] removed]; cbn [fst] in *.
  - apply Htyped. left. reflexivity.
  - destruct (json_truthy j) eqn:Htruthy.
    + match goal with
      | |- context [bind (try_catch ?m _) ?cont w1] =>
          destruct (try_catch_ret_returns m tt w1) as (u & Hdevice);
          rewrite (bind_ok _ cont _ _ _ Hdevice)
      end.
      unfold ret.
      split; [intros Hno; destruct (Hno j eq_refl) |].
      split.
      { intros s Hhead Hs _. exfalso. destruct (Hstored Hhead) as [Hst _].
        destruct (Hst s Hs) as [Hloaded _]. discriminate Hloaded. }
      split.
      { intros j' [= <-]. split; [exact Htruthy |]. apply Hfrom; [reflexivity | exact Htruthy]. }
      split.
      { intros j' Htruthy' [[Hhead Hj] | [Hno Hit]].
        - destruct (Hstored Hhead) as [_ Hun]. destruct (Hun j' Hj Htruthy') as [Hloaded _].
          injection Hloaded as ->. reflexivity.
        - specialize (Hitem Hno j' Hit). injection Hitem as ->. reflexivity. }
      intros Hitem' Hidb' j' _.
      destruct (Hfrom j eq_refl Htruthy) as [Hi | Hs]; [exact (Hitem' j Hi) | exact (Hidb' j Hs)].
    + apply Htyped. right. split; [intros s Hs; discriminate Hs |].
      intros j' [= <-]. exact Htruthy.
  - apply Htyped. right. split; [intros s Hs; discriminate Hs |].
    intros j' Hj. discriminate Hj.
Qed.

End Startup.

(** ** Text output *)

Lemma append_cons (a : ascii) (s t : string) : (String a s ++ t = String a (s ++ t))%string.
Proof. reflexivity. Qed.

Lemma occurs_app (c : ascii) (s t : string) :
  occurs c (s ++ t) = occurs c s || occurs c t.
Proof.
  induction s as [| a s IH]; [reflexivity |]. rewrite append_cons. cbn [occurs]. rewrite IH.
  apply orb_assoc.
Qed.

Lemma replaceAll_removes (c : ascii) (rep s : string) :
  occurs c rep = false -> occurs c (replaceAll c rep s) = false.
Proof.
  intros Hrep. induction s as [| a s IH]; [reflexivity |]. cbn [replaceAll].
  destruct (Ascii.eqb a c) eqn:Ha.
  - rewrite occurs_app, Hrep, IH. reflexivity.
  - cbn [occurs]. rewrite Ha, IH. reflexivity.
Qed.

Lemma replaceAll_keeps_out (c d : ascii) (rep s : string) :
  occurs c rep = false -> occurs c s = false -> occurs c (replaceAll d rep s) = false.
Proof.
  intros Hrep. induction s as [| a s IH]; [reflexivity |]. cbn [replaceAll occurs].
  intros Hs. apply orb_false_iff in Hs as [Ha Hs].
  destruct (Ascii.eqb a d).
  - rewrite occurs_app, Hrep, (IH Hs). reflexivity.
  - cbn [occurs]. rewrite Ha, (IH Hs). reflexivity.
Qed.

(** X28. The output of [escapeHtml] holds no [<], no [>], no double quote
    and no single quote, whatever the input: text passed through it cannot
    open or close a tag or leave a quoted attribute. A text that holds none
    of the five special characters is returned as it is. *)
Theorem escapeHtml_output_is_inert (s : string) :
  occurs "<" (escapeHtml s) = false
  /\ occurs ">" (escapeHtml s) = false
  /\ occurs dquote (escapeHtml s) = false
  /\ occurs "'" (escapeHtml s) = false
  /\ (occurs "&" s = false -> occurs "<" s = false -> occurs ">" s = false ->
      occurs dquote s = false -> occurs "'" s = false -> escapeHtml s = s).
Proof.
  unfold escapeHtml.
  set (s1 := replaceAll "&" "&amp;" s).
  set (s2 := replaceAll "<" "&lt;" s1).
  set (s3 := replaceAll ">" "&gt;" s2).
  set (s4 := replaceAll dquote "&quot;" s3).
  assert (Hlt2 : occurs "<" s2 = false) by (apply replaceAll_removes; reflexivity).
  assert (Hlt3 : occurs "<" s3 = false) by (apply replaceAll_keeps_out; [reflexivity | exact Hlt2]).
  assert (Hlt4 : occurs "<" s4 = false) by (apply replaceAll_keeps_out; [reflexivity | exact Hlt3]).
  assert (Hgt3 : occurs ">" s3 = false) by (apply replaceAll_removes; reflexivity).
  assert (Hgt4 : occurs ">" s4 = false) by (apply replaceAll_keeps_out; [reflexivity | exact Hgt3]).
  assert (Hdq4 : occurs dquote s4 = false) by (apply replaceAll_removes; reflexivity).
  split; [apply replaceAll_keeps_out; [reflexivity | exact Hlt4] |].
  split; [apply replaceAll_keeps_out; [reflexivity | exact Hgt4] |].
  split; [apply replaceAll_keeps_out; [reflexivity | exact Hdq4] |].
  split; [apply replaceAll_removes; reflexivity |].
  assert (Hsame : forall c rep t, occurs c t = false -> replaceAll c rep t = t).
  { intros c rep t. induction t as [| a t IH]; [reflexivity |]. cbn [occurs replaceAll].
    intros Ht. apply orb_false_iff in Ht as [Ha Ht]. rewrite Ha, (IH Ht). reflexivity. }
  intros Hamp Hlt Hgt Hdq Hsq. unfold s4, s3, s2, s1.
  rewrite (Hsame "&"%char _ s Hamp), (Hsame "<"%char _ s Hlt), (Hsame ">"%char _ s Hgt),
    (Hsame dquote _ s Hdq), (Hsame "'"%char _ s Hsq). reflexivity.
Qed.

Lemma needsQuoting_dquote (s : string) : needsQuoting (String dquote s) = true.
Proof. cbn [needsQuoting]. rewrite Ascii.eqb_refl, !orb_true_r. reflexivity. Qed.

Lemma doubling_inj (s t : string) :
  replaceAll dquote (String dquote (String dquote "")) s
  = replaceAll dquote (String dquote (String dquote "")) t -> s = t.
Proof.
  revert t. induction s as [| a s IH]; intros [| b t]; cbn [replaceAll].
  - reflexivity.
  - destruct (Ascii.eqb b dquote); rewrite ?append_cons; discriminate.
  - destruct (Ascii.eqb a dquote); rewrite ?append_cons; discriminate.
  - destruct (Ascii.eqb_spec a dquote) as [-> | Ha], (Ascii.eqb_spec b dquote) as [-> | Hb];
      rewrite ?append_cons; change ("" ++ ?x)%string with x; intros Heq.
    + injection Heq as Heq. f_equal. apply IH, Heq.
    + injection Heq as Hb' _. congruence.
    + injection Heq as Ha' _. congruence.
    + injection Heq as -> Heq. f_equal. apply IH, Heq.
Qed.

Lemma length_append (s t : string) :
  String.length (s ++ t) = (String.length s + String.length t)%nat.
Proof.
  induction s as [| a s IH]; [reflexivity |]. rewrite append_cons. cbn [String.length].
  rewrite IH. reflexivity.
Qed.

Lemma append_inj_tail (s t u : string) : (s ++ u = t ++ u)%string -> s = t.
Proof.
  intros Heq.
  assert (Hlen : String.length s = String.length t).
  { apply (f_equal String.length) in Heq. rewrite !length_append in Heq. lia. }
  revert t Heq Hlen. induction s as [| a s IH]; intros [| b t] Heq Hlen;
    cbn [String.length] in Hlen; try discriminate Hlen; [reflexivity |].
  rewrite !append_cons in Heq. injection Heq as -> Heq. f_equal. apply IH; [exact Heq | lia].
Qed.

(** X29. Quoting a CSV cell loses nothing: [esc] gives different texts
    for different cells. A cell is quoted exactly when it holds a line feed,
    a carriage return, a comma or a double quote, and then the result starts
    with a double quote; any other cell is written as it is. *)
Theorem esc_is_injective (s t : string) :
  (esc s = esc t -> s = t)
  /\ (needsQuoting s = false -> esc s = s)
  /\ (needsQuoting s = true -> exists body, esc s = String dquote body).
Proof.
  split; [| split].
  - unfold esc.
    destruct (needsQuoting s) eqn:Hs, (needsQuoting t) eqn:Ht; intros Heq.
    + injection Heq as Heq. apply append_inj_tail in Heq. apply doubling_inj, Heq.
    + subst t. rewrite needsQuoting_dquote in Ht. discriminate Ht.
    + subst s. rewrite needsQuoting_dquote in Hs. discriminate Hs.
    + exact Heq.
  - unfold esc. intros ->. reflexivity.
  - unfold esc. intros ->. eexists. reflexivity.
Qed.

(** ** The manual migration *)

Lemma getMeta_ok (w : World) :
  faults w = [] -> getMeta w = (Ok (metaOf (idb w)), w).
Proof.
  intros Hf. destruct w as [l m fs]. cbn [faults] in Hf. subst fs.
  unfold getMeta, idbGet. unfold bind, request, ret. reflexivity.
Qed.

Lemma setMeta_ok (meta : Meta) (w : World) :
  faults w = [] ->
  setMeta meta w = (Ok tt, {| live := live w; idb := <[IDB_META_KEY := DMeta meta]> (idb w);
                              faults := [] |}).
Proof. intros Hf. unfold setMeta, idbSet. rewrite request_ok by exact Hf. reflexivity. Qed.

Section ManualMigration.

Variable Date_parse : string -> option Z.
Variable Date_toISOString : Z -> string.
Variable toLowerCase : string -> string.
Variable sortByName : list Product -> list Product.
Hypothesis sortByName_perm : forall l, sortByName l ≡ₚ l.

(** X30. The manual migration never mixes ledgers: unless the user
    confirms, the ledger on screen is empty and the old storage holds
    something to import, the handler changes nothing at all, whatever
    requests fail. When it does import and no request fails, the imported
    ledger is stored under [state] and shown. *)
Theorem manual_migration_needs_an_empty_ledger (confirmed : bool) (storage : LegacyStorage)
    (now : Z) (rnd : nat -> Z) (nowSave rid nowMeta nowDay nowSnap : string) (w : World) :
  let res := migrateFromLegacyBillarLocalStorageIntoState Date_parse Date_toISOString toLowerCase now rnd
               (live w) storage in
  let (r, w') := btnMigrateLegacy_click Date_parse Date_toISOString toLowerCase sortByName confirmed
                   storage now rnd nowSave rid nowMeta nowDay nowSnap w in
  (confirmed = false \/ isStateEmpty (live w) = false \/ res.2 = false ->
     w' = w /\ exists note, r = Ok note /\ note <> Toast "Migración")
  /\ (confirmed = true -> isStateEmpty (live w) = true -> res.2 = true -> faults w = [] ->
      r = Ok (Toast "Migración")
      /\ idb w' !! IDB_STATE_KEY = Some (DState res.1)
      /\ products (live w') ≡ₚ products res.1
      /\ set_products [] (live w') = set_products [] res.1).
Proof.
  cbn zeta. unfold btnMigrateLegacy_click.
  destruct confirmed; cbn [negb].
  2: { unfold ret. split; [| discriminate].
       intros _. split; [reflexivity |]. eexists. split; [reflexivity | discriminate]. }
  rewrite (bind_ok getLive _ w w (live w) eq_refl).
  destruct (isStateEmpty (live w)) eqn:Hempty; cbn [negb].
  2: { unfold ret. split; [| discriminate].
       intros _. split; [reflexivity |]. eexists. split; [reflexivity | discriminate]. }
  destruct (migrateFromLegacyBillarLocalStorageIntoState Date_parse Date_toISOString toLowerCase now rnd
              (live w) storage) as [next migrated] eqn:Hres.
  cbn [fst snd]. destruct migrated; cbn [negb].
  2: { unfold ret. split; [| discriminate].
       intros _. split; [reflexivity |]. eexists. split; [reflexivity | discriminate]. }
  match goal with |- (let (_, _) := ?run in _) => destruct run as [r w'] eqn:Hrun end.
  split; [intros [H | [H | H]]; discriminate H |].
  intros _ _ _ Hf.
  rewrite (bind_ok (setLive _) _ w _ tt eq_refl) in Hrun.
  rewrite (bind_ok _ _ _ _ _ (saveState_ok next _ nowSave rid (set_live next w) Hf)) in Hrun.
  match type of Hrun with
  | bind getMeta _ ?w0 = _ => rewrite (bind_ok _ _ _ _ _ (getMeta_ok w0 eq_refl)) in Hrun
  end.
  match type of Hrun with
  | bind (setMeta ?meta) _ ?w0 = _ =>
      rewrite (bind_ok _ _ _ _ _ (setMeta_ok meta w0 eq_refl)) in Hrun
  end.
  cbn [live idb set_live] in Hrun.
  match type of Hrun with
  | bind (try_catch ?m _) ?cont ?w0 = _ =>
      destruct (try_catch_ret_returns m tt w0) as (u & Hsnap);
      pose proof (ensureDailySnapshot_frame (fun key => key = IDB_STATE_KEY) next nowDay nowSnap
                    (fun id Heq => snapshot_key_ne_state id Heq)
                    ltac:(discriminate) ltac:(discriminate) w0) as [Hlive Hkept];
      rewrite (bind_ok _ cont _ _ _ Hsnap) in Hrun
  end.
  specialize (Hkept IDB_STATE_KEY eq_refl). cbn [live idb] in Hlive, Hkept.
  unfold rerender in Hrun. unfold bind, getLive, setLive, ret in Hrun.
  injection Hrun as <- <-. cbn [live idb set_live products]. rewrite Hlive, Hkept.
  split; [reflexivity |].
  split; [rewrite !lookup_insert_ne by discriminate; apply lookup_insert_eq |].
  split; [apply sortByName_perm | reflexivity].
Qed.

End ManualMigration.


(** ** Runs on concrete inputs *)

Lemma autoSync_applies_only_newer_witness :
  exists o, idb (autoSync iso_parse sortByCodePoint true get_2024_05
                   "2024-05-02T08:00:00.000Z" "device-a" autoSyncWorld).2 !! IDB_STATE_KEY
            = Some (DState (adopt o)).
Proof.
  pose proof (autoSync_applies_only_newer iso_parse sortByCodePoint sortByCodePoint_perm
                true get_2024_05 "2024-05-02T08:00:00.000Z" "device-a" autoSyncWorld)
    as [_ P].
  specialize (P eq_refl).
  destruct (autoSync iso_parse sortByCodePoint true get_2024_05
              "2024-05-02T08:00:00.000Z" "device-a" autoSyncWorld) as [r w'] eqn:Hrun.
  destruct P as [Happlied _].
  assert (Hr : r = Ok (Status "Auto-sync: datos remotos aplicados")).
  { change r with (r, w').1. rewrite <- Hrun. vm_compute. reflexivity. }
  destruct (Happlied Hr) as (remote & o & _ & _ & _ & _ & Hstored & _).
  exists o. exact Hstored.
Defined.

(** The automatic sync and the import on a document whose only product is
    [null]: it is stored, and the [state] variable is given it. *)
Example autoSync_untyped_run :
  let (r, w') := autoSync iso_parse sortByCodePoint true get_untyped
                   "2024-05-02T08:00:00.000Z" "device-a" autoSyncWorld in
  r = Ok (AppliedUntyped untyped_ledger)
  /\ idb w' !! IDB_STATE_KEY = Some (DUntyped untyped_ledger).
Proof. vm_compute. split; reflexivity. Qed.

Example fileImport_untyped_run :
  let (r, w') := fileImport_change sortByCodePoint (FileUntyped untyped_ledger)
                   "2024-05-02T08:00:00.000Z" "device-a" (freshWorld sodaState) in
  r = Ok (ImportedUntyped untyped_ledger)
  /\ idb w' !! IDB_STATE_KEY = Some (DUntyped untyped_ledger)
  /\ live w' = sodaState.
Proof. vm_compute. repeat split; reflexivity. Qed.

Example fileImport_other_object_run :
  fileImport_change sortByCodePoint (FileUntyped legacy_foo)
    "2024-05-02T08:00:00.000Z" "device-a" (freshWorld sodaState)
  = (Ok (Imported (Toast "Error")), freshWorld sodaState).
Proof. vm_compute. reflexivity. Qed.

Lemma fileImport_all_or_nothing_witness :
  idb (fileImport_change sortByCodePoint (FileObject ledger_2024_05)
         "2024-05-02T08:00:00.000Z" "device-a" (freshWorld sodaState)).2 !! IDB_STATE_KEY
  = Some (DState (adopt ledger_2024_05)).
Proof.
  pose proof (fileImport_all_or_nothing sortByCodePoint sortByCodePoint_perm
                (FileObject ledger_2024_05) "2024-05-02T08:00:00.000Z" "device-a"
                (freshWorld sodaState)) as P.
  cbn zeta in P.
  destruct (fileImport_change sortByCodePoint (FileObject ledger_2024_05)
              "2024-05-02T08:00:00.000Z" "device-a" (freshWorld sodaState)) as [r w'].
  destruct P as (_ & Hok & _).
  destruct (Hok ledger_2024_05 eq_refl eq_refl eq_refl) as (_ & Hstored & _).
  exact Hstored.
Defined.

Lemma btnClear_leaves_only_an_empty_ledger_witness :
  let w' := (btnClear_click sortByCodePoint true "2024-06-02T08:00:00.000Z" "device-b"
               savedWorld_2024_06).2 in
  live w' = emptyState /\ idb w' !! IDB_SYNC_KEY = None.
Proof.
  pose proof (btnClear_leaves_only_an_empty_ledger sortByCodePoint sortByCodePoint_perm
                true "2024-06-02T08:00:00.000Z" "device-b" savedWorld_2024_06) as P.
  cbn zeta.
  destruct (btnClear_click sortByCodePoint true "2024-06-02T08:00:00.000Z" "device-b"
              savedWorld_2024_06) as [r w'].
  destruct P as (_ & Hcleared).
  destruct (Hcleared eq_refl eq_refl) as (_ & Hlive & _ & _ & Hgone).
  split; [exact Hlive | apply Hgone; discriminate].
Defined.

Lemma product_delete_keeps_the_sales_witness :
  sales (live (productsTbody_click sortByCodePoint "del" 1 true
                 "2024-05-02T08:00:00.000Z" "device-a" (freshWorld stateWithSales)).2)
  = sales stateWithSales
  /\ (productsTbody_click sortByCodePoint "del" 1 true
        "2024-05-02T08:00:00.000Z" "device-a" (freshWorld stateWithSales)).1
     = Ok (Toast "Eliminado")
  /\ set_stock 4 soda ∉ products (live (productsTbody_click sortByCodePoint "del" 1 true
                              "2024-05-02T08:00:00.000Z" "device-a"
                              (freshWorld stateWithSales)).2).
Proof.
  pose proof (product_delete_keeps_the_sales sortByCodePoint sortByCodePoint_perm
                "del" 1 true "2024-05-02T08:00:00.000Z" "device-a"
                (freshWorld stateWithSales)) as P.
  destruct (productsTbody_click sortByCodePoint "del" 1 true
              "2024-05-02T08:00:00.000Z" "device-a" (freshWorld stateWithSales)) as [r w'].
  destruct P as (_ & Hsales & _ & _ & _ & _ & Hdel).
  destruct (Hdel eq_refl eq_refl (set_stock 4 soda) eq_refl) as (Hr & _ & _ & Hgone).
  split; [exact Hsales |]. split; [exact Hr | exact Hgone].
Defined.

Lemma manual_migration_needs_an_empty_ledger_witness :
  (btnMigrateLegacy_click iso_parse iso_format toLowerCase_ascii sortByCodePoint true legacySalesOnly
     1714557600000 (fun k => Z.of_nat k) "2024-05-01T10:00:00.001Z" "device-a"
     "2024-05-01T10:00:00.002Z" "2024-05-01T10:00:00.003Z" "2024-05-01T10:00:00.004Z"
     (freshWorld emptyState)).1 = Ok (Toast "Migración").
Proof.
  pose proof (manual_migration_needs_an_empty_ledger iso_parse iso_format toLowerCase_ascii sortByCodePoint
                sortByCodePoint_perm true legacySalesOnly
                1714557600000 (fun k => Z.of_nat k) "2024-05-01T10:00:00.001Z" "device-a"
                "2024-05-01T10:00:00.002Z" "2024-05-01T10:00:00.003Z"
                "2024-05-01T10:00:00.004Z" (freshWorld emptyState)) as P.
  cbn zeta in P.
  destruct (btnMigrateLegacy_click iso_parse iso_format toLowerCase_ascii sortByCodePoint true legacySalesOnly
              1714557600000 (fun k => Z.of_nat k) "2024-05-01T10:00:00.001Z" "device-a"
              "2024-05-01T10:00:00.002Z" "2024-05-01T10:00:00.003Z"
              "2024-05-01T10:00:00.004Z" (freshWorld emptyState)) as [r w'].
  destruct P as (_ & Hdone).
  destruct Hdone as (Hr & _);
    [reflexivity | reflexivity | vm_compute; reflexivity | reflexivity | exact Hr].
Defined.

(** The start on an old copy that is the text of [{"foo":1}]: the object is
    stored under the state key and the [state] variable is given it. On the
    text [null] the start goes on from the empty ledger, and shows the
    sample data. *)
Example init_untyped_run :
  let (r, w') := init_load iso_parse iso_format toLowerCase_ascii (ItemUntyped legacy_foo)
                   noLegacy env_2024_05 (freshWorld emptyState) in
  r = Ok (StartedUntyped legacy_foo)
  /\ idb w' !! IDB_STATE_KEY = Some (DUntyped legacy_foo).
Proof. vm_compute. split; reflexivity. Qed.

Example init_null_run :
  let (r, w') := init_load iso_parse iso_format toLowerCase_ascii (ItemUntyped JNull)
                   noLegacy env_2024_05 (freshWorld emptyState) in
  r = Ok Started
  /\ p_name <$> products (live w') = ["Coca-Cola 500ml"; "Cerveza Nacional"; "Papas fritas"].
Proof. vm_compute. split; reflexivity. Qed.
